(** * Data clients of nautilus_trader: backtest replay and live protocol

    A shallow embedding of

      - [nautilus_trader/backtest/data.pyx]
        ([BacktestDataContainer], [BacktestDataClient], [DataProvider]);
      - the live data client ([LiveDataClient]) of the same package.

    Python objects that are mutated in place are threaded explicitly: every
    method is a computation in a state-and-exception monad over the
    receiver ([self]).  A raised exception keeps the mutations made before
    it, as in Python.  Everything a method does to the outside world (a
    call of a user callback, a log line, a message on a socket, an update
    of the handler registry) is appended to a trace owned by the client,
    so that the order of effects can be stated.

    Python dictionaries keep insertion order, and the source iterates over
    them, so they are association lists here. *)

From Stdlib Require Import ZArith List String Bool Lia.
From Stdlib Require Import Sorting.Sorted Sorting.Permutation DecimalString.
Import ListNotations.
Local Open Scope string_scope.
Local Open Scope list_scope.
Local Open Scope Z_scope.

Set Implicit Arguments.

(* ===================================================================== *)
(** ** The Python runtime the sources rely on                             *)
(* ===================================================================== *)

Module Py.

(** The exceptions the modelled code can raise. [ConditionFailed] is what
    the [Condition] checks raise; it carries the name of the parameter. *)
Inductive Exn : Type :=
| ConditionFailed (param : string)
| AssertionError
| KeyError
| IndexError
| ZMQError.

Inductive Result (A : Type) : Type :=
| Ok (a : A)
| Raise (e : Exn).

Arguments Ok {A} a.
Arguments Raise {A} e.

(** A method of an object of type [S]: it returns or raises, and leaves the
    object in a new state either way. *)
Definition M (S A : Type) : Type := S -> Result A * S.

Definition ret {S A : Type} (a : A) : M S A := fun s => (Ok a, s).

Definition bind {S A B : Type} (m : M S A) (k : A -> M S B) : M S B :=
  fun s => match m s with
           | (Ok a, s') => k a s'
           | (Raise e, s') => (Raise e, s')
           end.

Definition raise {S A : Type} (e : Exn) : M S A := fun s => (Raise e, s).

Definition gets {S A : Type} (f : S -> A) : M S A := fun s => (Ok (f s), s).

Definition modify {S : Type} (f : S -> S) : M S unit := fun s => (Ok tt, f s).

(** Run a method of a component object stored in a field of [self]. *)
Definition lift {S T A : Type} (get : S -> T) (set : T -> S -> S) (m : M T A) : M S A :=
  fun s => match m (get s) with (r, t) => (r, set t s) end.

(** An operation that can fail without touching the object ([d[k]]). *)
Definition liftR {S A : Type} (r : Result A) : M S A := fun s => (r, s).

(** [for x in l: body(x)] *)
Fixpoint for_each {S A : Type} (l : list A) (body : A -> M S unit) : M S unit :=
  match l with
  | [] => ret tt
  | x :: rest => bind (body x) (fun _ => for_each rest body)
  end.

(** Equality of keys, as [__eq__] gives it. *)
Class EqKey (K : Type) : Type := key_eqb : K -> K -> bool.

(** [d.get(k)]: [None] when the key is absent. *)
Fixpoint dict_get {K V : Type} `{EqKey K} (k : K) (d : list (K * V)) : option V :=
  match d with
  | [] => None
  | (k', v) :: rest => if key_eqb k k' then Some v else dict_get k rest
  end.

(** [k in d] *)
Definition dict_contains {K V : Type} `{EqKey K} (k : K) (d : list (K * V)) : bool :=
  match dict_get k d with Some _ => true | None => false end.

(** [d[k]]: raises [KeyError] when the key is absent. *)
Definition dict_getitem {K V : Type} `{EqKey K} (k : K) (d : list (K * V)) : Result V :=
  match dict_get k d with Some v => Ok v | None => Raise KeyError end.

(** [d[k] = v]: an existing key keeps its place, a new one goes last. *)
Fixpoint dict_set {K V : Type} `{EqKey K} (k : K) (v : V) (d : list (K * V)) : list (K * V) :=
  match d with
  | [] => [(k, v)]
  | (k', v') :: rest =>
      if key_eqb k k' then (k', v) :: rest else (k', v') :: dict_set k v rest
  end.

(** [del d[k]] for a key known to be present; absent keys are left to the caller. *)
Fixpoint dict_del {K V : Type} `{EqKey K} (k : K) (d : list (K * V)) : list (K * V) :=
  match d with
  | [] => []
  | (k', v') :: rest => if key_eqb k k' then rest else (k', v') :: dict_del k rest
  end.

Definition dict_keys {K V : Type} (d : list (K * V)) : list K := map fst d.
Definition dict_values {K V : Type} (d : list (K * V)) : list V := map snd d.

(** [s.add(k)] on a set kept as a duplicate-free list. *)
Fixpoint set_add {K : Type} `{EqKey K} (k : K) (s : list K) : list K :=
  match s with
  | [] => [k]
  | k' :: rest => if key_eqb k k' then s else k' :: set_add k rest
  end.

(** [l[i]] with Python's negative indices; [IndexError] out of range. *)
Definition list_getitem {A : Type} (l : list A) (i : Z) : Result A :=
  let n := Z.of_nat (List.length l) in
  let j := if i <? 0 then i + n else i in
  if (j <? 0) || (n <=? j) then Raise IndexError
  else match nth_error l (Z.to_nat j) with
       | Some x => Ok x
       | None => Raise IndexError
       end.

(** [sorted(l)]: a stable sort that compares with [<] only.  An element is
    placed in front of the first element that is not smaller than it, so
    elements that compare equal keep the order they had in [l]. *)
Fixpoint sorted_insert {A : Type} (lt : A -> A -> bool) (x : A) (l : list A) : list A :=
  match l with
  | [] => [x]
  | y :: rest => if lt y x then y :: sorted_insert lt x rest else x :: y :: rest
  end.

Definition sorted {A : Type} (lt : A -> A -> bool) (l : list A) : list A :=
  fold_right (sorted_insert lt) [] l.

(** The truth value of a tuple: a tuple is false only when it is empty. A
    pair is never empty. *)
Definition tuple2_truth {A B : Type} (t : A * B) : bool := true.

(** [assert cond] *)
Definition assert_ {S : Type} (cond : bool) : M S unit :=
  if cond then ret tt else raise AssertionError.

End Py.

Export Py.

Declare Scope py_scope.
Delimit Scope py_scope with py.
Notation "x <- m ;; k" := (bind m (fun x => k))
  (at level 61, m at next level, right associativity) : py_scope.
Notation "m ;; k" := (bind m (fun _ => k))
  (at level 61, right associativity) : py_scope.
Local Open Scope py_scope.

(** A Cython [cpdef void] method declared without an [except] clause. An
    exception raised in its body cannot be propagated to the caller: it
    is reported as unraisable and the call returns. What the body did
    before the exception stays done. The [cpdef] methods of [backtest/data.pyx]
    are declared this way; those of the live client are declared
    [except *] and propagate. *)
Definition cpdef_void {S : Type} (body : M S unit) : M S unit :=
  fun s => (Ok tt, snd (body s)).

(* ===================================================================== *)
(** ** Value types                                                        *)
(* ===================================================================== *)

(** The value types ([Symbol], [BarType], [Instrument], [Tick], [Bar], ...)
    are declared in other packages of the repository. They are records of
    the fields the two clients read. Timestamps and dates are integers
    (an instant or a day number). *)

Definition bytes : Type := list Byte.byte.
Definition datetime : Type := Z.
Definition date : Type := Z.

Module Symbol.
Record t : Type := Build { value : string }.
(** [symbol.to_string()]: the canonical string form, used as topic. *)
Definition to_string (s : t) : string := value s.
(** [Symbol.from_string]: the parser the symbol cache is built with. *)
Definition from_string (s : string) : t := Build s.
End Symbol.

#[export] Instance Symbol_EqKey : EqKey Symbol.t :=
  fun a b => String.eqb (Symbol.value a) (Symbol.value b).

#[export] Instance string_EqKey : EqKey string := String.eqb.

Module Venue.
Record t : Type := Build { value : string }.
End Venue.

Inductive BarStructure : Type := UNKNOWN | TICK | SECOND | MINUTE | HOUR.

Definition BarStructure_eqb (a b : BarStructure) : bool :=
  match a, b with
  | UNKNOWN, UNKNOWN | TICK, TICK | SECOND, SECOND | MINUTE, MINUTE | HOUR, HOUR => true
  | _, _ => false
  end.

#[export] Instance BarStructure_EqKey : EqKey BarStructure := BarStructure_eqb.

Inductive PriceType : Type := BID | ASK | MID | LAST.

Definition PriceType_eqb (a b : PriceType) : bool :=
  match a, b with
  | BID, BID | ASK, ASK | MID, MID | LAST, LAST => true
  | _, _ => false
  end.

Module BarSpecification.
Record t : Type := Build { step : Z; structure : BarStructure; price_type : PriceType }.
Definition eqb (a b : t) : bool :=
  (step a =? step b) && BarStructure_eqb (structure a) (structure b)
  && PriceType_eqb (price_type a) (price_type b).
End BarSpecification.

Module BarType.
Record t : Type := Build { symbol : Symbol.t; specification : BarSpecification.t }.
Definition eqb (a b : t) : bool :=
  key_eqb (symbol a) (symbol b) && BarSpecification.eqb (specification a) (specification b).
End BarType.

#[export] Instance BarType_EqKey : EqKey BarType.t := BarType.eqb.

Module Instrument.
Record t : Type := Build { symbol : Symbol.t; tick_precision : Z }.
End Instrument.

Module Tick.
Record t : Type := Build { symbol : Symbol.t; bid : Z; ask : Z; timestamp : datetime }.
(** [Tick.__lt__]: ticks are ordered by their timestamps. *)
Definition lt (a b : t) : bool := timestamp a <? timestamp b.
End Tick.

Module Bar.
Record t : Type := Build { open : Z; high : Z; low : Z; close : Z; timestamp : datetime }.
End Bar.

Module TimeEvent.
Record t : Type := Build { label : string; timestamp : datetime }.
End TimeEvent.

(** A [pandas.DataFrame] of historical rows: an index time and the values
    of the columns. [pd.DataFrame()] is the empty table. *)
Module DataFrame.
Record Row : Type := BuildRow { index : datetime; columns : list Z }.
Definition t : Type := list Row.
Definition empty : t := [].
End DataFrame.

(* ===================================================================== *)
(** ** Callables, effects and the shared [DataClient] base                *)
(* ===================================================================== *)

(** The function values the clients pass around. They are opaque: calling
    one is recorded in the trace, and what the callee does next (it may
    call back into the client) is outside the model. *)
Inductive Callable : Type :=
| Fn (id : nat)                       (* a function supplied by the caller *)
| AggregatorUpdate (bt : BarType.t)   (* [aggregator.update] of the aggregator for [bt] *)
| SelfHandleBar                       (* the bound method [self._handle_bar] *)
| SelfHandleInstrumentsPy.            (* the bound method [self._handle_instruments_py] *)

Definition Callable_eqb (a b : Callable) : bool :=
  match a, b with
  | Fn i, Fn j => Nat.eqb i j
  | AggregatorUpdate x, AggregatorUpdate y => BarType.eqb x y
  | SelfHandleBar, SelfHandleBar => true
  | SelfHandleInstrumentsPy, SelfHandleInstrumentsPy => true
  | _, _ => false
  end.

(** An argument of dynamic type [callable]: anything may be passed. *)
Inductive PyObject : Type :=
| PyNone
| PyCallable (f : Callable)
| PyOther (repr : string).

(** The arguments a callable is called with. *)
Inductive Args : Type :=
| ArgTick (tick : Tick.t)
| ArgBar (bar_type : BarType.t) (bar : Bar.t)
| ArgInstrument (instrument : Instrument.t)
| ArgTicks (ticks : list Tick.t)
| ArgBars (bar_type : BarType.t) (bars : list Bar.t)
| ArgInstruments (instruments : list Instrument.t)
| ArgTimeEvent (event : TimeEvent.t).

Inductive LogLevel : Type := DEBUG | INFO | WARNING | ERROR.

(** The six channel workers of the live client. *)
Inductive RequestWorker : Type := TickReqWorker | BarReqWorker | InstReqWorker.
Inductive SubscriberWorker : Type := TickSubWorker | BarSubWorker | InstSubWorker.

(** Keys of the handler registry. *)
Inductive RegistryKey : Type :=
| TickKey (symbol : Symbol.t)
| BarKey (bar_type : BarType.t)
| InstrumentKey (symbol : Symbol.t).

(** What a client does that can be observed from outside a method call, in
    the order it happens. *)
Inductive Effect : Type :=
| Call (f : Callable) (args : Args)
| Log (level : LogLevel) (msg : string)
| Send (worker : RequestWorker) (request_bytes : bytes)
| Subscribe (worker : SubscriberWorker) (topic : string)
| Unsubscribe (worker : SubscriberWorker) (topic : string)
| AddHandler (key : RegistryKey) (handler : Callable)
| RemoveHandler (key : RegistryKey) (handler : Callable)
| BulkBuildTickBars (bar_type : BarType.t) (from_date to_date : date) (limit : Z)
    (callback : Callable).

(** The [Condition] checks of [nautilus_trader.core.correctness]. *)
Module Condition.

(** Modelled from the spec: [Condition.not_none], absent from the sources.
    An absent required argument is a precondition violation, raised at the
    call boundary. *)
Definition not_none {S A : Type} (argument : option A) (param : string) : M S A :=
  match argument with
  | Some a => ret a
  | None => raise (ConditionFailed param)
  end.

(** Modelled from the spec: [Condition.not_negative_int], absent from the
    sources. A negative limit is a precondition violation. *)
Definition not_negative_int {S : Type} (value : Z) (param : string) : M S unit :=
  if value <? 0 then raise (ConditionFailed param) else ret tt.

(** Modelled from the spec: [Condition.callable], absent from the sources.
    A non-callable handler is a precondition violation. *)
Definition callable {S : Type} (argument : PyObject) (param : string) : M S Callable :=
  match argument with
  | PyCallable f => ret f
  | _ => raise (ConditionFailed param)
  end.

(** Modelled from the spec: [Condition.true], absent from the sources. *)
Definition true_ {S : Type} (predicate : bool) (description : string) : M S unit :=
  if predicate then ret tt else raise (ConditionFailed description).

End Condition.

(** The tick-counting bar aggregator is an external collaborator: the
    client only creates it, with the bar type and the handler its bars are
    forwarded to, and registers its [update] method as a tick handler. *)
Module TickBarAggregator.
Record t : Type := Build { bar_type : BarType.t; handler : Callable }.
End TickBarAggregator.

Module DataClient.

Record t : Type := Build {
  _tick_handlers : list (Symbol.t * list Callable);
  _bar_handlers : list (BarType.t * list Callable);
  _instrument_handlers : list (Symbol.t * list Callable);
  _instruments : list (Symbol.t * Instrument.t);
  _bar_aggregators : list (BarType.t * TickBarAggregator.t);
  trace : list Effect
}.

Definition set_tick_handlers (v : list (Symbol.t * list Callable)) (self : t) : t :=
  Build v (_bar_handlers self) (_instrument_handlers self) (_instruments self)
        (_bar_aggregators self) (trace self).
Definition set_bar_handlers (v : list (BarType.t * list Callable)) (self : t) : t :=
  Build (_tick_handlers self) v (_instrument_handlers self) (_instruments self)
        (_bar_aggregators self) (trace self).
Definition set_instrument_handlers (v : list (Symbol.t * list Callable)) (self : t) : t :=
  Build (_tick_handlers self) (_bar_handlers self) v (_instruments self)
        (_bar_aggregators self) (trace self).
Definition set_instruments (v : list (Symbol.t * Instrument.t)) (self : t) : t :=
  Build (_tick_handlers self) (_bar_handlers self) (_instrument_handlers self) v
        (_bar_aggregators self) (trace self).
Definition set_bar_aggregators (v : list (BarType.t * TickBarAggregator.t)) (self : t) : t :=
  Build (_tick_handlers self) (_bar_handlers self) (_instrument_handlers self)
        (_instruments self) v (trace self).
Definition set_trace (v : list Effect) (self : t) : t :=
  Build (_tick_handlers self) (_bar_handlers self) (_instrument_handlers self)
        (_instruments self) (_bar_aggregators self) v.

(** Modelled from the spec: [DataClient.__init__], absent from the sources.
    A new client has an empty handler registry and no instruments. *)
Definition __init__ : t := Build [] [] [] [] [] [].

(** Append one effect to the trace. *)
Definition effect (e : Effect) : M t unit :=
  modify (fun self => set_trace (trace self ++ [e]) self).

(** [f(args)] for an opaque callable. *)
Definition call (f : Callable) (args : Args) : M t unit := effect (Call f args).

(** [self._log.info(msg)], [self._log.error(msg)], ... *)
Definition log (level : LogLevel) (msg : string) : M t unit := effect (Log level msg).

(** [handlers.remove(handler)]: drops the first occurrence. *)
Fixpoint remove_first (h : Callable) (l : list Callable) : list Callable :=
  match l with
  | [] => []
  | x :: rest => if Callable_eqb h x then rest else x :: remove_first h rest
  end.

(** Registration in one table of the registry: the entry is created on the
    first subscription and handlers keep their insertion order. *)
Definition registry_add {K : Type} `{EqKey K} (k : K) (h : Callable)
  (table : list (K * list Callable)) : list (K * list Callable) :=
  match dict_get k table with
  | None => dict_set k [h] table
  | Some handlers => dict_set k (handlers ++ [h]) table
  end.

(** Removal from one table: the entry goes with its last handler. *)
Definition registry_remove {K : Type} `{EqKey K} (k : K) (h : Callable)
  (table : list (K * list Callable)) : list (K * list Callable) :=
  match dict_get k table with
  | None => table
  | Some handlers =>
      match remove_first h handlers with
      | [] => dict_del k table
      | remaining => dict_set k remaining table
      end
  end.

(** Modelled from the spec: [DataClient._add_tick_handler], absent from the
    sources. Registers [handler] in the Handler Registry under the symbol. *)
Definition _add_tick_handler (symbol : Symbol.t) (handler : Callable) : M t unit :=
  modify (fun self => set_tick_handlers (registry_add symbol handler (_tick_handlers self)) self) ;;
  effect (AddHandler (TickKey symbol) handler).

(** Modelled from the spec: [DataClient._add_bar_handler], absent from the sources. *)
Definition _add_bar_handler (bar_type : BarType.t) (handler : Callable) : M t unit :=
  modify (fun self => set_bar_handlers (registry_add bar_type handler (_bar_handlers self)) self) ;;
  effect (AddHandler (BarKey bar_type) handler).

(** Modelled from the spec: [DataClient._add_instrument_handler], absent from the sources. *)
Definition _add_instrument_handler (symbol : Symbol.t) (handler : Callable) : M t unit :=
  modify (fun self =>
    set_instrument_handlers (registry_add symbol handler (_instrument_handlers self)) self) ;;
  effect (AddHandler (InstrumentKey symbol) handler).

(** Modelled from the spec: [DataClient._remove_tick_handler], absent from
    the sources. Removes [handler] from the Handler Registry. *)
Definition _remove_tick_handler (symbol : Symbol.t) (handler : Callable) : M t unit :=
  modify (fun self =>
    set_tick_handlers (registry_remove symbol handler (_tick_handlers self)) self) ;;
  effect (RemoveHandler (TickKey symbol) handler).

(** Modelled from the spec: [DataClient._remove_bar_handler], absent from the sources. *)
Definition _remove_bar_handler (bar_type : BarType.t) (handler : Callable) : M t unit :=
  modify (fun self =>
    set_bar_handlers (registry_remove bar_type handler (_bar_handlers self)) self) ;;
  effect (RemoveHandler (BarKey bar_type) handler).

(** Modelled from the spec: [DataClient._remove_instrument_handler], absent
    from the sources. *)
Definition _remove_instrument_handler (symbol : Symbol.t) (handler : Callable) : M t unit :=
  modify (fun self =>
    set_instrument_handlers (registry_remove symbol handler (_instrument_handlers self)) self) ;;
  effect (RemoveHandler (InstrumentKey symbol) handler).

(** The handlers registered for a key, in invocation order; none when the
    key has no entry. *)
Definition handlers_of {K : Type} `{EqKey K} (k : K) (table : list (K * list Callable))
  : list Callable :=
  match dict_get k table with
  | Some handlers => handlers
  | None => []
  end.

(** Modelled from the spec: [DataClient._handle_tick], absent from the
    sources. Looks the tick's symbol up in the Handler Registry and invokes
    every registered handler with the tick; no entry is a silent no-op. *)
Definition _handle_tick (tick : Tick.t) : M t unit :=
  handlers <- gets (fun self => dict_get (Tick.symbol tick) (_tick_handlers self)) ;;
  match handlers with
  | None => ret tt
  | Some handlers => for_each handlers (fun handler => call handler (ArgTick tick))
  end.

(** Modelled from the spec: [DataClient._handle_bar], absent from the sources. *)
Definition _handle_bar (bar_type : BarType.t) (bar : Bar.t) : M t unit :=
  handlers <- gets (fun self => dict_get bar_type (_bar_handlers self)) ;;
  match handlers with
  | None => ret tt
  | Some handlers => for_each handlers (fun handler => call handler (ArgBar bar_type bar))
  end.

(** Modelled from the spec: [DataClient._handle_instrument], absent from
    the sources. Updates the instruments dictionary, then dispatches the
    instrument to the handlers registered for its symbol. *)
Definition _handle_instrument (instrument : Instrument.t) : M t unit :=
  modify (fun self =>
    set_instruments (dict_set (Instrument.symbol instrument) instrument (_instruments self)) self) ;;
  handlers <- gets (fun self => dict_get (Instrument.symbol instrument) (_instrument_handlers self)) ;;
  match handlers with
  | None => ret tt
  | Some handlers => for_each handlers (fun handler => call handler (ArgInstrument instrument))
  end.

End DataClient.

(* ===================================================================== *)
(** ** backtest/data.pyx                                                  *)
(* ===================================================================== *)

(** [TestClock] is declared in [nautilus_trader.common.clock], outside the
    sources. The backtest client reads two attributes and calls two
    methods of it; they are the interface taken here. *)
Class VirtualClock (C : Type) : Type := {
  has_timers : C -> bool;
  next_event_time : C -> datetime;
  advance_time : datetime -> C -> C;
  get_pending_events : C -> list (TimeEvent.t * Callable)
}.

(** [TickDataWrangler] is declared in [nautilus_trader.data.market], outside
    the sources: [TickDataWrangler(symbol, precision, tick_data, bid_data,
    ask_data).build_ticks_all()]. *)
Class TickDataWrangler : Type :=
  build_ticks_all :
    Symbol.t -> Z -> option DataFrame.t -> DataFrame.t -> DataFrame.t -> list Tick.t.

Module BacktestDataContainer.

Record t : Type := Build {
  instruments : list (Symbol.t * Instrument.t);
  ticks : list (Symbol.t * DataFrame.t);
  bars_bid : list (Symbol.t * list (BarStructure * DataFrame.t));
  bars_ask : list (Symbol.t * list (BarStructure * DataFrame.t))
}.

Definition __init__ : t := Build [] [] [] [].

Definition add_instrument (instrument : Instrument.t) : M t unit :=
  modify (fun self =>
    Build (dict_set (Instrument.symbol instrument) instrument (instruments self))
          (ticks self) (bars_bid self) (bars_ask self)).

Definition add_ticks (symbol : Symbol.t) (data : DataFrame.t) : M t unit :=
  modify (fun self =>
    Build (instruments self) (dict_set symbol data (ticks self)) (bars_bid self) (bars_ask self)).

(** [table[symbol][structure] = data], creating [table[symbol]] when absent. *)
Definition set_bars (symbol : Symbol.t) (structure : BarStructure) (data : DataFrame.t)
  (table : list (Symbol.t * list (BarStructure * DataFrame.t)))
  : list (Symbol.t * list (BarStructure * DataFrame.t)) :=
  let table := if negb (dict_contains symbol table) then dict_set symbol [] table else table in
  match dict_get symbol table with
  | Some inner => dict_set symbol (dict_set structure data inner) table
  | None => table
  end.

Definition add_bars (symbol : Symbol.t) (structure : BarStructure) (price_type : PriceType)
  (data : DataFrame.t) : M t unit :=
  cpdef_void
    (Condition.true_ (negb (PriceType_eqb price_type LAST)) "price_type != PriceType.LAST" ;;
     (if PriceType_eqb price_type BID then
        modify (fun self =>
          Build (instruments self) (ticks self)
                (set_bars symbol structure data (bars_bid self)) (bars_ask self))
      else ret tt) ;;
     (if PriceType_eqb price_type ASK then
        modify (fun self =>
          Build (instruments self) (ticks self) (bars_bid self)
                (set_bars symbol structure data (bars_ask self)))
      else ret tt)).

End BacktestDataContainer.

Module DataProvider.

Record t : Type := Build { instrument : Instrument.t; ticks : list Tick.t }.

(** [DataProvider.__init__]. The three [Condition.type_or_none] checks hold
    by the types of the arguments. The bar tables are chosen by the
    granularities present in [bars_bid]; the matching entry of [bars_ask]
    is read unguarded. *)
Definition __init__ {S : Type} `{TickDataWrangler} (instrument : Instrument.t)
  (ticks : option DataFrame.t) (bars_bid bars_ask : list (BarStructure * DataFrame.t))
  : M S t :=
  bid_ask <-
    (if dict_contains SECOND bars_bid then
       bid_data <- liftR (dict_getitem SECOND bars_bid) ;;
       ask_data <- liftR (dict_getitem SECOND bars_ask) ;;
       ret (bid_data, ask_data)
     else if dict_contains MINUTE bars_bid then
       bid_data <- liftR (dict_getitem MINUTE bars_bid) ;;
       ask_data <- liftR (dict_getitem MINUTE bars_ask) ;;
       ret (bid_data, ask_data)
     else if dict_contains HOUR bars_bid then
       bid_data <- liftR (dict_getitem HOUR bars_bid) ;;
       ask_data <- liftR (dict_getitem HOUR bars_ask) ;;
       ret (bid_data, ask_data)
     else ret (DataFrame.empty, DataFrame.empty)) ;;
  ret (Build instrument
         (build_ticks_all (Instrument.symbol instrument) (Instrument.tick_precision instrument)
            ticks (fst bid_ask) (snd bid_ask))).

End DataProvider.

(** [Logger] is an external collaborator; only its presence is checked. *)
Inductive Logger : Type := TestLogger.

Module BacktestDataClient.

Record t (TestClock : Type) : Type := Build {
  base : DataClient.t;
  venue : Venue.t;
  _clock : TestClock;
  data_providers : list (Symbol.t * DataProvider.t);
  ticks : list Tick.t;
  min_timestamp : option datetime;
  max_timestamp : option datetime
}.

Section Methods.

Context {TestClock : Type} `{VirtualClock TestClock} `{TickDataWrangler}.

Definition set_base (v : DataClient.t) (self : t TestClock) : t TestClock :=
  Build v (venue self) (_clock self) (data_providers self) (ticks self)
        (min_timestamp self) (max_timestamp self).
Definition set_clock (v : TestClock) (self : t TestClock) : t TestClock :=
  Build (base self) (venue self) v (data_providers self) (ticks self)
        (min_timestamp self) (max_timestamp self).
Definition set_data_providers (v : list (Symbol.t * DataProvider.t)) (self : t TestClock)
  : t TestClock :=
  Build (base self) (venue self) (_clock self) v (ticks self)
        (min_timestamp self) (max_timestamp self).
Definition set_ticks (v : list Tick.t) (self : t TestClock) : t TestClock :=
  Build (base self) (venue self) (_clock self) (data_providers self) v
        (min_timestamp self) (max_timestamp self).
Definition set_min_timestamp (v : option datetime) (self : t TestClock) : t TestClock :=
  Build (base self) (venue self) (_clock self) (data_providers self) (ticks self)
        v (max_timestamp self).
Definition set_max_timestamp (v : option datetime) (self : t TestClock) : t TestClock :=
  Build (base self) (venue self) (_clock self) (data_providers self) (ticks self)
        (min_timestamp self) v.

(** A method inherited from [DataClient], run on the base part of [self]. *)
Definition super {A : Type} (m : M DataClient.t A) : M (t TestClock) A :=
  lift (@base TestClock) set_base m.

(** Lines 107-109: the set of the symbols that key a tick table or a bar
    table. The order in which a Python set is iterated is not specified;
    the loop over it below does the same for every order. *)
Definition data_symbols_of (data : BacktestDataContainer.t) : list Symbol.t :=
  let data_symbols :=
    fold_left (fun s symbol => set_add symbol s)
      (dict_keys (BacktestDataContainer.ticks data)) [] in
  let data_symbols :=
    fold_left (fun s symbol => set_add symbol s)
      (dict_keys (BacktestDataContainer.bars_bid data)) data_symbols in
  fold_left (fun s symbol => set_add symbol s)
    (dict_keys (BacktestDataContainer.bars_ask data)) data_symbols.

(** Lines 158-160: [ticks = []; for ... in providers: ticks += provider.ticks]. *)
Definition concat_ticks (providers : list (Symbol.t * DataProvider.t)) : list Tick.t :=
  fold_left (fun ticks sp => ticks ++ DataProvider.ticks (snd sp)) providers [].

(** The body of [BacktestDataClient.__init__] after [super().__init__].
    Log lines that print a count or a duration are shortened to their
    fixed text and the symbol. *)
Definition __init__body (data : BacktestDataContainer.t) : M (t TestClock) unit :=
  super (DataClient.log INFO "Preparing data...") ;;
  (* Update instruments dictionary *)
  for_each (dict_values (BacktestDataContainer.instruments data))
    (fun instrument => super (DataClient._handle_instrument instrument)) ;;
  (* Create data symbols set *)
  let data_symbols := data_symbols_of data in
  (* Check there is the needed instrument for each data symbol:
     [assert(symbol in self._instruments, f'...')] asserts a pair. *)
  for_each data_symbols
    (fun symbol =>
       instruments <- gets (fun self => DataClient._instruments (base self)) ;;
       assert_ (tuple2_truth
                  (dict_contains symbol instruments,
                   String.concat "" ["The needed instrument "; Symbol.value symbol;
                                     " was not provided."]))) ;;
  (* Create the data providers for the client based on the given instruments *)
  instruments <- gets (fun self => DataClient._instruments (base self)) ;;
  for_each instruments
    (fun item =>
       let symbol := fst item in
       let instrument := snd item in
       super (DataClient.log INFO
                (String.concat "" ["Creating DataProvider for "; Symbol.value symbol; "..."])) ;;
       super (DataClient.log INFO
                (String.concat "" ["Building "; Symbol.value symbol; " ticks..."])) ;;
       let ticks := dict_get symbol (BacktestDataContainer.ticks data) in
       bars_bid <- liftR (dict_getitem symbol (BacktestDataContainer.bars_bid data)) ;;
       bars_ask <- liftR (dict_getitem symbol (BacktestDataContainer.bars_ask data)) ;;
       provider <- DataProvider.__init__ instrument ticks bars_bid bars_ask ;;
       modify (fun self =>
         set_data_providers (dict_set symbol provider (data_providers self)) self) ;;
       super (DataClient.log INFO
                (String.concat "" ["Built "; Symbol.value symbol; " ticks."]))) ;;
  providers <- gets (@data_providers TestClock) ;;
  let ticks := concat_ticks providers in
  modify (set_ticks (sorted Tick.lt ticks)) ;;
  first <- liftR (list_getitem ticks 0) ;;
  modify (set_min_timestamp (Some (Tick.timestamp first))) ;;
  last <- liftR (list_getitem ticks (-1)) ;;
  modify (set_max_timestamp (Some (Tick.timestamp last))).

(** [BacktestDataClient(venue, data, clock, logger)]: the two [not_none]
    checks, [super().__init__], then the body. The client is returned only
    when [__init__] does not raise. *)
Definition __init__ (venue : Venue.t) (data : BacktestDataContainer.t)
  (clock : option TestClock) (logger : option Logger) : Result (t TestClock) :=
  match clock with
  | None => Raise (ConditionFailed "clock")
  | Some clock =>
      match logger with
      | None => Raise (ConditionFailed "logger")
      | Some _ =>
          let self := Build DataClient.__init__ venue clock [] [] None None in
          match __init__body data self with
          | (Ok _, self) => Ok self
          | (Raise e, _) => Raise e
          end
      end
  end.

(** [process_tick], lines 346-361. *)
Definition process_tick (tick : Tick.t) : M (t TestClock) unit :=
  super (DataClient._handle_tick tick) ;;
  clock <- gets (@_clock TestClock) ;;
  if has_timers clock && (Tick.timestamp tick <? next_event_time clock) then
    ret tt (* No events to handle yet *)
  else
    modify (fun self => set_clock (advance_time (Tick.timestamp tick) (_clock self)) self) ;;
    clock <- gets (@_clock TestClock) ;;
    for_each (get_pending_events clock)
      (fun item => super (DataClient.call (snd item) (ArgTimeEvent (fst item)))).

End Methods.

End BacktestDataClient.

(* ===================================================================== *)
(** ** The live data client                                               *)
(* ===================================================================== *)

(** The reply of the data service, as the response serializer decodes it:
    a data payload or one of the two rejection variants. *)
Inductive Response : Type :=
| MessageRejected (message : string)
| QueryFailure (message : string)
| DataResponse (data : bytes).

(** [isinstance(response, (MessageRejected, QueryFailure))] *)
Definition is_rejection (response : Response) : bool :=
  match response with
  | MessageRejected _ | QueryFailure _ => true
  | DataResponse _ => false
  end.

(** The dictionary the data serializer decodes from [response.data], by
    its two entries [data[METADATA]] and [data[DATA]]; [None] is an absent
    key. *)
Module Payload.
Record t : Type := Build {
  metadata : option (list (string * string));
  data : option (list bytes)
}.
End Payload.

Module DataRequest.
Record t : Type := Build {
  query : list (string * string);
  id : nat;
  timestamp : datetime
}.
End DataRequest.

(** What the live client is built from and talks to, all declared outside
    the sources: the wire constants of [serialization.constants], the
    string forms of the value types, the four codecs, the wall clock, and
    the remote service behind the sockets. *)
Class Collaborators : Type := {
  (* keys of queries and of response metadata *)
  DATA_TYPE : string;
  SYMBOL : string;
  VENUE : string;
  SPECIFICATION : string;
  FROM_DATE : string;
  TO_DATE : string;
  LIMIT : string;
  (* [str(x)] and [x.to_string()] *)
  str_date : date -> string;
  str_int : Z -> string;
  str_response : Response -> string;
  BarSpecification_to_string : BarSpecification.t -> string;
  BarType_to_string : BarType.t -> string;
  BarType_from_string : string -> BarType.t;
  (* codecs *)
  request_serialize : DataRequest.t -> bytes;
  response_deserialize : bytes -> Response;
  data_deserialize : bytes -> Payload.t;
  instrument_deserialize : bytes -> Instrument.t;
  tick_deserialize : Symbol.t -> bytes -> Tick.t;
  tick_deserialize_bytes_list : Symbol.t -> list bytes -> list Tick.t;
  bar_deserialize : bytes -> Bar.t;
  bar_deserialize_bytes_list : list bytes -> list Bar.t;
  (* the wall clock, read after a given number of effects *)
  wall_clock : nat -> datetime;
  (* the service's reply to the bytes sent on a request socket *)
  service_reply : RequestWorker -> bytes -> bytes;
  (* whether a socket operation fails; it then raises instead of returning *)
  socket_fault : Effect -> bool
}.

Module LiveDataClient.

Record t : Type := Build {
  base : DataClient.t;
  _cached_symbols : list (string * Symbol.t);
  _cached_bar_types : list (string * BarType.t);
  guid_count : nat
}.

Definition set_base (v : DataClient.t) (self : t) : t :=
  Build v (_cached_symbols self) (_cached_bar_types self) (guid_count self).
Definition set_cached_symbols (v : list (string * Symbol.t)) (self : t) : t :=
  Build (base self) v (_cached_bar_types self) (guid_count self).
Definition set_cached_bar_types (v : list (string * BarType.t)) (self : t) : t :=
  Build (base self) (_cached_symbols self) v (guid_count self).
Definition set_guid_count (v : nat) (self : t) : t :=
  Build (base self) (_cached_symbols self) (_cached_bar_types self) v.

(** The trace of the client. *)
Definition trace (self : t) : list Effect := DataClient.trace (base self).

(** A method inherited from [DataClient], run on the base part of [self]. *)
Definition super {A : Type} (m : M DataClient.t A) : M t A := lift base set_base m.

(** Modelled from the spec: [ObjectCache.get], absent from the sources.
    Parse-or-reuse: a key seen before gives the object parsed then; a new
    key is parsed and kept. *)
Definition ObjectCache_get {T : Type} (parser : string -> T) (key : string)
  (cache : list (string * T)) : T * list (string * T) :=
  match dict_get key cache with
  | Some parsed => (parsed, cache)
  | None => let parsed := parser key in (parsed, dict_set key parsed cache)
  end.

(** A dictionary display [{k1: v1, ...}]: a repeated key keeps its place
    and takes the later value. *)
Definition dict_display (items : list (string * string)) : list (string * string) :=
  fold_left (fun d kv => dict_set (fst kv) (snd kv) d) items [].

Section Methods.

Context `{Collaborators}.

(** [self._cached_symbols.get(key)] *)
Definition cached_symbols_get (key : string) : M t Symbol.t :=
  cache <- gets _cached_symbols ;;
  let r := ObjectCache_get Symbol.from_string key cache in
  modify (set_cached_symbols (snd r)) ;;
  ret (fst r).

(** [self._cached_bar_types.get(key)] *)
Definition cached_bar_types_get (key : string) : M t BarType.t :=
  cache <- gets _cached_bar_types ;;
  let r := ObjectCache_get BarType_from_string key cache in
  modify (set_cached_bar_types (snd r)) ;;
  ret (fst r).

(** [self._guid_factory.generate()]: a fresh identifier. *)
Definition guid_generate : M t nat :=
  n <- gets guid_count ;;
  modify (set_guid_count (S n)) ;;
  ret n.

(** [self.time_now()] *)
Definition time_now : M t datetime :=
  gets (fun self => wall_clock (List.length (trace self))).

(** Modelled from the spec: [RequestWorker.send], absent from the sources.
    One blocking round trip on a request/reply channel: the bytes go out,
    and the call returns the service's reply unless the socket fails. *)
Definition worker_send (worker : RequestWorker) (request_bytes : bytes) : M t bytes :=
  super (DataClient.effect (Send worker request_bytes)) ;;
  if socket_fault (Send worker request_bytes) then raise ZMQError
  else ret (service_reply worker request_bytes).

(** Modelled from the spec: [SubscriberWorker.subscribe], absent from the
    sources. Issues the subscribe for [topic] on the channel. *)
Definition worker_subscribe (worker : SubscriberWorker) (topic : string) : M t unit :=
  super (DataClient.effect (Subscribe worker topic)) ;;
  if socket_fault (Subscribe worker topic) then raise ZMQError else ret tt.

(** Modelled from the spec: [SubscriberWorker.unsubscribe], absent from the
    sources. Issues the unsubscribe for [topic]; it returns once the
    request has completed. *)
Definition worker_unsubscribe (worker : SubscriberWorker) (topic : string) : M t unit :=
  super (DataClient.effect (Unsubscribe worker topic)) ;;
  if socket_fault (Unsubscribe worker topic) then raise ZMQError else ret tt.

(** [DataClient._bulk_build_tick_bars] is not in the sources and the spec
    does not describe it: the call is recorded, with its arguments. *)
Definition _bulk_build_tick_bars (bar_type : BarType.t) (from_date to_date : date)
  (limit : Z) (callback : Callable) : M t unit :=
  super (DataClient.effect (BulkBuildTickBars bar_type from_date to_date limit callback)).

(** [data[METADATA]], [data[DATA]], [metadata[KEY]] *)
Definition getitem {A : Type} (entry : option A) : M t A :=
  match entry with
  | Some a => ret a
  | None => raise KeyError
  end.

(** ['' if limit == 0 else f'(limit={limit})'] *)
Definition limit_string_of (limit : Z) : string :=
  if limit =? 0 then "" else String.concat "" ["(limit="; str_int limit; ")"].

Definition request_ticks (symbol : option Symbol.t) (from_date to_date : option date)
  (limit : Z) (callback : PyObject) : M t unit :=
  symbol <- Condition.not_none symbol "symbol" ;;
  from_date <- Condition.not_none from_date "from_datetime" ;;
  to_date <- Condition.not_none to_date "to_datetime" ;;
  Condition.not_negative_int limit "limit" ;;
  callback <- Condition.callable callback "callback" ;;
  let query := dict_display
    [(DATA_TYPE, "Tick[]");
     (SYMBOL, Symbol.value symbol);
     (FROM_DATE, str_date from_date);
     (TO_DATE, str_date to_date);
     (LIMIT, str_int limit)] in
  let limit_string := limit_string_of limit in
  super (DataClient.log INFO
    (String.concat "" ["Requesting "; Symbol.value symbol; " ticks from "; str_date from_date;
                       " to "; str_date to_date; " "; limit_string; "..."])) ;;
  guid <- guid_generate ;;
  now <- time_now ;;
  let request := DataRequest.Build query guid now in
  let request_bytes := request_serialize request in
  response_bytes <- worker_send TickReqWorker request_bytes ;;
  let response := response_deserialize response_bytes in
  match response with
  | MessageRejected _ | QueryFailure _ =>
      super (DataClient.log ERROR (str_response response))
  | DataResponse response_data =>
      let data := data_deserialize response_data in
      metadata <- getitem (Payload.metadata data) ;;
      key <- liftR (dict_getitem SYMBOL metadata) ;;
      received_symbol <- cached_symbols_get key ;;
      assert_ (key_eqb received_symbol symbol) ;;
      items <- getitem (Payload.data data) ;;
      super (DataClient.call callback
               (ArgTicks (tick_deserialize_bytes_list received_symbol items)))
  end.

Definition request_bars (bar_type : option BarType.t) (from_date to_date : option date)
  (limit : Z) (callback : PyObject) : M t unit :=
  bar_type <- Condition.not_none bar_type "bar_type" ;;
  from_date <- Condition.not_none from_date "from_date" ;;
  to_date <- Condition.not_none to_date "to_date" ;;
  Condition.not_negative_int limit "limit" ;;
  callback <- Condition.callable callback "callback" ;;
  if BarStructure_eqb (BarSpecification.structure (BarType.specification bar_type)) TICK then
    _bulk_build_tick_bars bar_type from_date to_date limit callback
  else
    let query := dict_display
      [(DATA_TYPE, "Bar[]");
       (SYMBOL, Symbol.value (BarType.symbol bar_type));
       (SPECIFICATION, BarSpecification_to_string (BarType.specification bar_type));
       (FROM_DATE, str_date from_date);
       (TO_DATE, str_date to_date);
       (LIMIT, str_int limit)] in
    let limit_string := limit_string_of limit in
    super (DataClient.log INFO
      (String.concat "" ["Requesting "; BarType_to_string bar_type; " bars from ";
                         str_date from_date; " to "; str_date to_date; " "; limit_string;
                         "..."])) ;;
    guid <- guid_generate ;;
    now <- time_now ;;
    let request := DataRequest.Build query guid now in
    let request_bytes := request_serialize request in
    response_bytes <- worker_send BarReqWorker request_bytes ;;
    let response := response_deserialize response_bytes in
    match response with
    | MessageRejected _ | QueryFailure _ =>
        super (DataClient.log ERROR (str_response response))
    | DataResponse response_data =>
        let data := data_deserialize response_data in
        metadata <- getitem (Payload.metadata data) ;;
        key_symbol <- liftR (dict_getitem SYMBOL metadata) ;;
        key_specification <- liftR (dict_getitem SPECIFICATION metadata) ;;
        received_bar_type <-
          cached_bar_types_get (String.concat "" [key_symbol; "-"; key_specification]) ;;
        assert_ (key_eqb received_bar_type bar_type) ;;
        items <- getitem (Payload.data data) ;;
        super (DataClient.call callback
                 (ArgBars received_bar_type (bar_deserialize_bytes_list items)))
    end.

Definition request_instrument (symbol : option Symbol.t) (callback : PyObject) : M t unit :=
  symbol <- Condition.not_none symbol "symbol" ;;
  callback <- Condition.callable callback "callback" ;;
  let query := dict_display
    [(DATA_TYPE, "Instrument[]");
     (SYMBOL, Symbol.value symbol)] in
  super (DataClient.log INFO
    (String.concat "" ["Requesting instrument for "; Symbol.value symbol; " ..."])) ;;
  guid <- guid_generate ;;
  now <- time_now ;;
  let request := DataRequest.Build query guid now in
  let request_bytes := request_serialize request in
  response_bytes <- worker_send InstReqWorker request_bytes ;;
  let response := response_deserialize response_bytes in
  match response with
  | MessageRejected _ | QueryFailure _ =>
      super (DataClient.log ERROR (str_response response))
  | DataResponse response_data =>
      let data := data_deserialize response_data in
      items <- getitem (Payload.data data) ;;
      first <- liftR (list_getitem items 0) ;;
      let instrument := instrument_deserialize first in
      assert_ (key_eqb (Instrument.symbol instrument) symbol) ;;
      super (DataClient.call callback (ArgInstrument instrument))
  end.

(** The source does not check [venue] against [None] before reading
    [venue.value]; the venue is taken to be present. *)
Definition request_instruments (venue : Venue.t) (callback : PyObject) : M t unit :=
  callback <- Condition.callable callback "callback" ;;
  let query := dict_display
    [(DATA_TYPE, "Instrument[]");
     (VENUE, Venue.value venue)] in
  super (DataClient.log INFO
    (String.concat "" ["Requesting all instruments for "; Venue.value venue; " ..."])) ;;
  guid <- guid_generate ;;
  now <- time_now ;;
  let request := DataRequest.Build query guid now in
  let request_bytes := request_serialize request in
  response_bytes <- worker_send InstReqWorker request_bytes ;;
  let response := response_deserialize response_bytes in
  match response with
  | MessageRejected _ | QueryFailure _ =>
      super (DataClient.log ERROR (str_response response))
  | DataResponse response_data =>
      let data := data_deserialize response_data in
      items <- getitem (Payload.data data) ;;
      let instruments := map instrument_deserialize items in
      super (DataClient.call callback (ArgInstruments instruments))
  end.

Definition _handle_instruments_py (instruments : list Instrument.t) : M t unit :=
  for_each instruments (fun instrument => super (DataClient._handle_instrument instrument)).

(** [self.request_instruments(venue, self._handle_instruments_py)]: the
    body of [request_instruments] with the client's own method as the
    callback. Where [request_instruments] records the call of a callback
    it knows nothing of, the client's method is run on the decoded
    instruments. *)
Definition update_instruments (venue : Venue.t) : M t unit :=
  Condition.callable (PyCallable SelfHandleInstrumentsPy) "callback" ;;
  let query := dict_display
    [(DATA_TYPE, "Instrument[]");
     (VENUE, Venue.value venue)] in
  super (DataClient.log INFO
    (String.concat "" ["Requesting all instruments for "; Venue.value venue; " ..."])) ;;
  guid <- guid_generate ;;
  now <- time_now ;;
  let request := DataRequest.Build query guid now in
  let request_bytes := request_serialize request in
  response_bytes <- worker_send InstReqWorker request_bytes ;;
  let response := response_deserialize response_bytes in
  match response with
  | MessageRejected _ | QueryFailure _ =>
      super (DataClient.log ERROR (str_response response))
  | DataResponse response_data =>
      let data := data_deserialize response_data in
      items <- getitem (Payload.data data) ;;
      let instruments := map instrument_deserialize items in
      _handle_instruments_py instruments
  end.

Definition subscribe_ticks (symbol : option Symbol.t) (handler : PyObject) : M t unit :=
  symbol <- Condition.not_none symbol "symbol" ;;
  handler <- Condition.callable handler "handler" ;;
  super (DataClient._add_tick_handler symbol handler) ;;
  worker_subscribe TickSubWorker (Symbol.to_string symbol).

(** Modelled from the spec: [DataClient._self_generate_bars], absent from
    the sources. For a tick-count-based bar type the client subscribes to
    the underlying tick stream and drives a tick-counting bar aggregator
    that synthesizes bars locally and forwards them through the same
    dispatch path ([_handle_bar]); the handler is registered for the bar
    type so that this dispatch reaches it. *)
Definition _self_generate_bars (bar_type : BarType.t) (handler : Callable) : M t unit :=
  let aggregator := TickBarAggregator.Build bar_type SelfHandleBar in
  super (modify (fun self =>
    DataClient.set_bar_aggregators
      (dict_set bar_type aggregator (DataClient._bar_aggregators self)) self)) ;;
  subscribe_ticks (Some (BarType.symbol bar_type)) (PyCallable (AggregatorUpdate bar_type)) ;;
  super (DataClient._add_bar_handler bar_type handler).

Definition subscribe_bars (bar_type : option BarType.t) (handler : PyObject) : M t unit :=
  bar_type <- Condition.not_none bar_type "bar_type" ;;
  handler <- Condition.callable handler "handler" ;;
  if BarStructure_eqb (BarSpecification.structure (BarType.specification bar_type)) TICK then
    _self_generate_bars bar_type handler
  else
    super (DataClient._add_bar_handler bar_type handler) ;;
    worker_subscribe BarSubWorker (BarType_to_string bar_type).

Definition subscribe_instrument (symbol : option Symbol.t) (handler : PyObject) : M t unit :=
  symbol <- Condition.not_none symbol "symbol" ;;
  handler <- Condition.callable handler "handler" ;;
  super (DataClient._add_instrument_handler symbol handler) ;;
  worker_subscribe InstSubWorker (Symbol.value symbol).

Definition unsubscribe_ticks (symbol : option Symbol.t) (handler : PyObject) : M t unit :=
  symbol <- Condition.not_none symbol "symbol" ;;
  handler <- Condition.callable handler "handler" ;;
  worker_unsubscribe TickSubWorker (Symbol.to_string symbol) ;;
  super (DataClient._remove_tick_handler symbol handler).

Definition unsubscribe_bars (bar_type : option BarType.t) (handler : PyObject) : M t unit :=
  bar_type <- Condition.not_none bar_type "bar_type" ;;
  handler <- Condition.callable handler "handler" ;;
  worker_unsubscribe BarSubWorker (BarType_to_string bar_type) ;;
  super (DataClient._remove_bar_handler bar_type handler).

Definition unsubscribe_instrument (symbol : option Symbol.t) (handler : PyObject) : M t unit :=
  symbol <- Condition.not_none symbol "symbol" ;;
  handler <- Condition.callable handler "handler" ;;
  worker_unsubscribe InstSubWorker (Symbol.value symbol) ;;
  super (DataClient._remove_instrument_handler symbol handler).

(** Handle the given tick message published for the given topic. *)
Definition _handle_tick_sub (topic : string) (message : bytes) : M t unit :=
  symbol <- cached_symbols_get topic ;;
  super (DataClient._handle_tick (tick_deserialize symbol message)).

(** Handle the given bar message published for the given topic. *)
Definition _handle_bar_sub (topic : string) (message : bytes) : M t unit :=
  bar_type <- cached_bar_types_get topic ;;
  super (DataClient._handle_bar bar_type (bar_deserialize message)).

(** Handle the given instrument message published for the given topic. *)
Definition _handle_inst_sub (topic : string) (message : bytes) : M t unit :=
  super (DataClient._handle_instrument (instrument_deserialize message)).

(** The four request operations and the six subscription operations, as
    calls with their arguments. *)
Inductive RequestCall : Type :=
| RequestTicks (symbol : option Symbol.t) (from_date to_date : option date) (limit : Z)
    (callback : PyObject)
| RequestBars (bar_type : option BarType.t) (from_date to_date : option date) (limit : Z)
    (callback : PyObject)
| RequestInstrument (symbol : option Symbol.t) (callback : PyObject)
| RequestInstruments (venue : Venue.t) (callback : PyObject).

Definition run_request (c : RequestCall) : M t unit :=
  match c with
  | RequestTicks symbol from_date to_date limit callback =>
      request_ticks symbol from_date to_date limit callback
  | RequestBars bar_type from_date to_date limit callback =>
      request_bars bar_type from_date to_date limit callback
  | RequestInstrument symbol callback => request_instrument symbol callback
  | RequestInstruments venue callback => request_instruments venue callback
  end.

End Methods.

(** A client right after construction: nothing registered, nothing
    cached, nothing done yet. *)
Definition fresh : t := Build DataClient.__init__ [] [] 0.

End LiveDataClient.

(* ===================================================================== *)
(** ** Concrete collaborators for closed examples                         *)
(* ===================================================================== *)

(** Modelled from the spec: the virtual clock ([TestClock], absent from the
    sources). Its observable state is whether it has pending timers and
    the earliest pending trigger time; advancing it moves its notion of
    now and makes every timer now due a pending event. *)
Module TestClock.

Record Timer : Type := BuildTimer { label : string; trigger : datetime; callback : Callable }.

Record t : Type := Build {
  time : datetime;
  timers : list Timer;
  pending : list (TimeEvent.t * Callable)
}.

Definition has_timers (c : t) : bool :=
  match timers c with [] => false | _ :: _ => true end.

Definition next_event_time (c : t) : datetime :=
  match timers c with
  | [] => 0
  | x :: rest => fold_left Z.min (map trigger rest) (trigger x)
  end.

Definition advance_time (to_time : datetime) (c : t) : t :=
  Build to_time
    (filter (fun x => to_time <? trigger x) (timers c))
    (map (fun x => (TimeEvent.Build (label x) (trigger x), callback x))
       (filter (fun x => trigger x <=? to_time) (timers c))).

Definition get_pending_events (c : t) : list (TimeEvent.t * Callable) := pending c.

End TestClock.

#[export] Instance TestClock_VirtualClock : VirtualClock TestClock.t := {
  has_timers := TestClock.has_timers;
  next_event_time := TestClock.next_event_time;
  advance_time := TestClock.advance_time;
  get_pending_events := TestClock.get_pending_events
}.

Module Fixtures.

(** Modelled from the spec: the tick builder ([TickDataWrangler], absent
    from the sources) produces one tick sequence per instrument from the
    raw tick table when there is one, and from the bid bar table when the
    tick table is absent. Each row gives one tick at the row's time. *)
Definition rows_to_ticks (symbol : Symbol.t) (rows : DataFrame.t) : list Tick.t :=
  map (fun row =>
         Tick.Build symbol (nth 0 (DataFrame.columns row) 0) (nth 1 (DataFrame.columns row) 0)
                    (DataFrame.index row)) rows.

Definition wrangler : TickDataWrangler :=
  fun symbol precision tick_data bid_data ask_data =>
    match tick_data with
    | Some rows => rows_to_ticks symbol rows
    | None => rows_to_ticks symbol bid_data
    end.

Definition AUDUSD : Symbol.t := Symbol.Build "AUDUSD.FXCM".
Definition GBPUSD : Symbol.t := Symbol.Build "GBPUSD.FXCM".
Definition USDJPY : Symbol.t := Symbol.Build "USDJPY.FXCM".

Definition FXCM : Venue.t := Venue.Build "FXCM".

Definition row (time bid ask : Z) : DataFrame.Row := DataFrame.BuildRow time [bid; ask].

(** The state of a container after a sequence of calls on a new one. *)
Definition container_after (calls : M BacktestDataContainer.t unit) : BacktestDataContainer.t :=
  snd (calls BacktestDataContainer.__init__).

(** One instrument with tick and bar tables, and a tick table for a symbol
    ([GBPUSD]) that has no instrument. *)
Definition data_without_instrument : BacktestDataContainer.t :=
  container_after
    (BacktestDataContainer.add_instrument (Instrument.Build AUDUSD 5) ;;
     BacktestDataContainer.add_ticks AUDUSD [row 10 70000 70002; row 20 70001 70003] ;;
     BacktestDataContainer.add_bars AUDUSD MINUTE BID [row 0 70000 70001] ;;
     BacktestDataContainer.add_bars AUDUSD MINUTE ASK [row 0 70002 70003] ;;
     BacktestDataContainer.add_ticks GBPUSD [row 15 130000 130004]).

(** Two instruments, each with tick and bar tables; the ticks of the one
    added first are later than the ticks of the other. *)
Definition data_two_instruments : BacktestDataContainer.t :=
  container_after
    (BacktestDataContainer.add_instrument (Instrument.Build AUDUSD 5) ;;
     BacktestDataContainer.add_instrument (Instrument.Build USDJPY 3) ;;
     BacktestDataContainer.add_ticks AUDUSD [row 10 70000 70002; row 20 70001 70003] ;;
     BacktestDataContainer.add_ticks USDJPY [row 1 108000 108003; row 5 108001 108004] ;;
     BacktestDataContainer.add_bars AUDUSD MINUTE BID [row 0 70000 70001] ;;
     BacktestDataContainer.add_bars AUDUSD MINUTE ASK [row 0 70002 70003] ;;
     BacktestDataContainer.add_bars USDJPY MINUTE BID [row 0 108000 108001] ;;
     BacktestDataContainer.add_bars USDJPY MINUTE ASK [row 0 108003 108004]).

(** An instrument supplied with a tick table only. *)
Definition data_ticks_only : BacktestDataContainer.t :=
  container_after
    (BacktestDataContainer.add_instrument (Instrument.Build AUDUSD 5) ;;
     BacktestDataContainer.add_ticks AUDUSD [row 10 70000 70002; row 20 70001 70003]).

(** An instrument supplied with bar tables only. *)
Definition data_bars_only : BacktestDataContainer.t :=
  container_after
    (BacktestDataContainer.add_instrument (Instrument.Build AUDUSD 5) ;;
     BacktestDataContainer.add_bars AUDUSD MINUTE BID [row 0 70000 70001; row 60 70001 70002] ;;
     BacktestDataContainer.add_bars AUDUSD MINUTE ASK [row 0 70002 70003; row 60 70003 70004]).

(** A clock at time 0 with no timers. *)
Definition idle_clock : TestClock.t := TestClock.Build 0 [] [].

(** A clock at time 0 with timers due at 5 and at 30. *)
Definition busy_clock : TestClock.t :=
  TestClock.Build 0
    [TestClock.BuildTimer "late" 30 (Fn 8); TestClock.BuildTimer "soon" 5 (Fn 7)] [].

(** A backtest client with one tick handler for [AUDUSD] and the given clock. *)
Definition client_with (clock : TestClock.t) : BacktestDataClient.t TestClock.t :=
  BacktestDataClient.Build
    (DataClient.Build [(AUDUSD, [Fn 1])] [] [] [] [] [])
    FXCM clock [] [] None None.

Definition tick_at (time : datetime) : Tick.t := Tick.Build AUDUSD 70000 70002 time.

End Fixtures.

(* ===================================================================== *)
(** * Properties                                                          *)
(* ===================================================================== *)

Unset Implicit Arguments.

(** ** The monad and the dictionaries *)

Lemma bind_ok {S A B : Type} (m : M S A) (k : A -> M S B) (s s' : S) (a : A) :
  m s = (Ok a, s') -> bind m k s = k a s'.
Proof. intros E. unfold bind. rewrite E. reflexivity. Qed.

Lemma bind_raise {S A B : Type} (m : M S A) (k : A -> M S B) (s s' : S) (e : Exn) :
  m s = (Raise e, s') -> bind m k s = (Raise e, s').
Proof. intros E. unfold bind. rewrite E. reflexivity. Qed.

Lemma Symbol_eqb_eq (a b : Symbol.t) : key_eqb a b = true <-> a = b.
Proof.
  destruct a as [x], b as [y]. unfold key_eqb, Symbol_EqKey. simpl.
  rewrite String.eqb_eq. split; [intros -> | intros [= ->]]; reflexivity.
Qed.

Lemma Symbol_eqb_refl (a : Symbol.t) : key_eqb a a = true.
Proof. apply Symbol_eqb_eq. reflexivity. Qed.

(** ** The shared dispatch *)

Lemma set_trace_same (b : DataClient.t) :
  DataClient.set_trace (DataClient.trace b ++ []) b = b.
Proof. destruct b. unfold DataClient.set_trace. simpl. rewrite app_nil_r. reflexivity. Qed.

Lemma for_each_call {A : Type} (f : A -> Callable) (g : A -> Args) (l : list A) :
  forall b : DataClient.t,
    for_each l (fun x => DataClient.call (f x) (g x)) b
    = (Ok tt, DataClient.set_trace (DataClient.trace b ++ map (fun x => Call (f x) (g x)) l) b).
Proof.
  induction l as [| x rest IH]; intros b; simpl.
  - unfold ret. rewrite set_trace_same. reflexivity.
  - unfold bind, DataClient.call, DataClient.effect, modify. rewrite IH.
    unfold DataClient.set_trace. simpl. rewrite <- app_assoc. reflexivity.
Qed.

Lemma handle_tick_run (tick : Tick.t) (b : DataClient.t) :
  DataClient._handle_tick tick b
  = (Ok tt,
     DataClient.set_trace
       (DataClient.trace b
        ++ map (fun h => Call h (ArgTick tick))
             (DataClient.handlers_of (Tick.symbol tick) (DataClient._tick_handlers b))) b).
Proof.
  unfold DataClient._handle_tick, DataClient.handlers_of, bind, gets.
  destruct (dict_get (Tick.symbol tick) (DataClient._tick_handlers b)) as [hs |].
  - apply (for_each_call (fun h => h) (fun _ => ArgTick tick)).
  - unfold ret. simpl. rewrite set_trace_same. reflexivity.
Qed.

(** ** [BacktestDataClient.process_tick] *)

Section ProcessTick.

Context {TestClock : Type} `{VirtualClock TestClock}.

Local Abbreviation client := (BacktestDataClient.t TestClock).

(** The effects of the timer callbacks, in the order the clock reports
    its pending events. *)
Definition timer_calls (events : list (TimeEvent.t * Callable)) : list Effect :=
  map (fun item => Call (snd item) (ArgTimeEvent (fst item))) events.

(** The effects of dispatching [tick] to the handlers registered for it. *)
Definition tick_calls (tick : Tick.t) (self : client) : list Effect :=
  map (fun h => Call h (ArgTick tick))
    (DataClient.handlers_of (Tick.symbol tick)
       (DataClient._tick_handlers (BacktestDataClient.base self))).

Lemma for_each_timer_calls (events : list (TimeEvent.t * Callable)) :
  forall self : client,
    for_each events
      (fun item => BacktestDataClient.super (DataClient.call (snd item) (ArgTimeEvent (fst item))))
      self
    = (Ok tt,
       BacktestDataClient.set_base
         (DataClient.set_trace
            (DataClient.trace (BacktestDataClient.base self) ++ timer_calls events)
            (BacktestDataClient.base self)) self).
Proof.
  induction events as [| x rest IH]; intros self; simpl.
  - unfold ret. rewrite set_trace_same. destruct self; reflexivity.
  - unfold bind, BacktestDataClient.super, lift, DataClient.call, DataClient.effect, modify.
    rewrite IH. unfold BacktestDataClient.set_base, DataClient.set_trace. simpl.
    rewrite <- app_assoc. reflexivity.
Qed.

(** The state [process_tick] leaves behind, in closed form. *)
Lemma process_tick_run (tick : Tick.t) (self : client) :
  BacktestDataClient.process_tick tick self
  = let clock := BacktestDataClient._clock self in
    let base1 :=
      DataClient.set_trace
        (DataClient.trace (BacktestDataClient.base self) ++ tick_calls tick self)
        (BacktestDataClient.base self) in
    if has_timers clock && (Tick.timestamp tick <? next_event_time clock)
    then (Ok tt, BacktestDataClient.set_base base1 self)
    else
      let clock' := advance_time (Tick.timestamp tick) clock in
      (Ok tt,
       BacktestDataClient.set_base
         (DataClient.set_trace
            (DataClient.trace base1 ++ timer_calls (get_pending_events clock')) base1)
         (BacktestDataClient.set_clock clock' (BacktestDataClient.set_base base1 self))).
Proof.
  cbv zeta. unfold BacktestDataClient.process_tick.
  unfold bind at 1. unfold BacktestDataClient.super at 1, lift.
  rewrite handle_tick_run. unfold bind at 1, gets at 1.
  cbn [BacktestDataClient._clock BacktestDataClient.set_base].
  fold (tick_calls tick self).
  destruct (has_timers (BacktestDataClient._clock self)
            && (Tick.timestamp tick <? next_event_time (BacktestDataClient._clock self))).
  - reflexivity.
  - unfold bind, modify, gets. rewrite for_each_timer_calls. reflexivity.
Qed.

(** C1 (as amended). [process_tick] always returns, and it first dispatches
    the tick to the handlers registered for the tick's symbol. If the
    clock has pending timers and the earliest trigger time is later than
    the tick's timestamp, nothing else happens: the clock is untouched and
    no timer callback is called. Otherwise, and in particular when the
    clock has no pending timers, the clock is advanced to the tick's
    timestamp and the callback of every pending event the advanced clock
    reports is called, in order, after the tick handlers. *)
Theorem process_tick_dispatches_then_fires (tick : Tick.t) (self : client) :
  let clock := BacktestDataClient._clock self in
  let r := BacktestDataClient.process_tick tick self in
  let trace' := DataClient.trace (BacktestDataClient.base (snd r)) in
  fst r = Ok tt /\
  if has_timers clock && (Tick.timestamp tick <? next_event_time clock)
  then BacktestDataClient._clock (snd r) = clock
       /\ trace' = DataClient.trace (BacktestDataClient.base self) ++ tick_calls tick self
  else BacktestDataClient._clock (snd r) = advance_time (Tick.timestamp tick) clock
       /\ trace' = DataClient.trace (BacktestDataClient.base self) ++ tick_calls tick self
                   ++ timer_calls (get_pending_events (advance_time (Tick.timestamp tick) clock)).
Proof.
  cbv zeta. rewrite process_tick_run. cbv zeta.
  destruct (has_timers (BacktestDataClient._clock self)
            && (Tick.timestamp tick <? next_event_time (BacktestDataClient._clock self))).
  - simpl. auto.
  - simpl. rewrite <- app_assoc. auto.
Qed.

End ProcessTick.

(** C1, counterexample. A clock with no pending timers, at time 0, and a
    tick at time 5: the claim says that [process_tick] returns without
    advancing the clock, but it leaves the clock at time 5. *)
Lemma process_tick_advances_idle_clock :
  has_timers (BacktestDataClient._clock (Fixtures.client_with Fixtures.idle_clock)) = false
  /\ BacktestDataClient._clock
       (snd (BacktestDataClient.process_tick (Fixtures.tick_at 5)
               (Fixtures.client_with Fixtures.idle_clock)))
     <> BacktestDataClient._clock (Fixtures.client_with Fixtures.idle_clock).
Proof. split; [reflexivity | discriminate]. Qed.

(** ** Dictionaries *)

Section DictFacts.

Context {K V : Type} `{EqKey K}.

Lemma dict_get_set_same (k : K) (v : V) (d : list (K * V)) :
  key_eqb k k = true -> dict_get k (dict_set k v d) = Some v.
Proof.
  intros R. induction d as [| [k' v'] rest IH]; simpl.
  - rewrite R. reflexivity.
  - destruct (key_eqb k k') eqn:E; simpl; rewrite E; [reflexivity | exact IH].
Qed.

Lemma dict_get_set_keeps (k k2 : K) (v x : V) (d : list (K * V)) :
  dict_get k d = Some x -> exists y, dict_get k (dict_set k2 v d) = Some y.
Proof.
  induction d as [| [k' v'] rest IH]; simpl; [discriminate |].
  intros G. destruct (key_eqb k2 k') eqn:E2; simpl.
  - destruct (key_eqb k k'); eauto.
  - destruct (key_eqb k k'); eauto.
Qed.

Lemma dict_get_in (k : K) (v : V) (d : list (K * V)) :
  dict_get k d = Some v -> exists k', In (k', v) d /\ key_eqb k k' = true.
Proof.
  induction d as [| [k' v'] rest IH]; simpl; [discriminate |].
  destruct (key_eqb k k') eqn:E.
  - intros [= ->]. exists k'. auto.
  - intros G. destruct (IH G) as (k2 & I & E2). exists k2. auto.
Qed.

End DictFacts.

(** ** [BacktestDataClient.__init__] *)

Section Init.

Context {TestClock : Type} `{VirtualClock TestClock} `{TickDataWrangler}.

Local Abbreviation client := (BacktestDataClient.t TestClock).

Lemma fst_bind_raise {S A B : Type} (m : M S A) (k : A -> M S B) (s : S) (e : Exn) :
  fst (m s) = Raise e -> fst (bind m k s) = Raise e.
Proof. unfold bind. destruct (m s) as [[a | e'] s']; simpl; congruence. Qed.

(** [_handle_instrument] never raises; it sets the instrument's entry and
    leaves the other entries of [_instruments] as they are. *)
Lemma handle_instrument_run (instrument : Instrument.t) (b : DataClient.t) :
  exists b',
    DataClient._handle_instrument instrument b = (Ok tt, b')
    /\ DataClient._instruments b'
       = dict_set (Instrument.symbol instrument) instrument (DataClient._instruments b).
Proof.
  unfold DataClient._handle_instrument, bind, modify, gets.
  cbn [DataClient.set_instruments DataClient._instrument_handlers].
  destruct (dict_get (Instrument.symbol instrument) (DataClient._instrument_handlers b))
    as [hs |].
  - rewrite (for_each_call (fun h => h) (fun _ => ArgInstrument instrument)).
    eexists. split; reflexivity.
  - eexists. split; reflexivity.
Qed.

(** The instruments dictionary after handling a list of instruments. *)
Definition instruments_after (l : list Instrument.t) (d : list (Symbol.t * Instrument.t))
  : list (Symbol.t * Instrument.t) :=
  fold_left (fun d i => dict_set (Instrument.symbol i) i d) l d.

Lemma handle_instruments_run (l : list Instrument.t) :
  forall self : client,
    exists self',
      for_each l (fun instrument =>
                    BacktestDataClient.super (DataClient._handle_instrument instrument)) self
      = (Ok tt, self')
      /\ DataClient._instruments (BacktestDataClient.base self')
         = instruments_after l (DataClient._instruments (BacktestDataClient.base self)).
Proof.
  induction l as [| i rest IH]; intros self; simpl.
  - exists self. split; reflexivity.
  - destruct (handle_instrument_run i (BacktestDataClient.base self)) as (b' & R & I).
    unfold bind, BacktestDataClient.super at 1, lift. rewrite R.
    destruct (IH (BacktestDataClient.set_base b' self)) as (self' & R' & I').
    exists self'. split; [exact R' |].
    rewrite I'. simpl. rewrite I. reflexivity.
Qed.

Lemma instruments_after_keeps (l : list Instrument.t) :
  forall (d : list (Symbol.t * Instrument.t)) (k : Symbol.t) (x : Instrument.t),
    dict_get k d = Some x -> exists y, dict_get k (instruments_after l d) = Some y.
Proof.
  induction l as [| i rest IH]; intros d k x G; simpl.
  - eauto.
  - destruct (dict_get_set_keeps k (Instrument.symbol i) i x d G) as (y & G').
    exact (IH _ _ _ G').
Qed.

Lemma instruments_after_has (l : list Instrument.t) (i : Instrument.t) :
  In i l ->
  forall d, exists y, dict_get (Instrument.symbol i) (instruments_after l d) = Some y.
Proof.
  induction l as [| j rest IH]; intros I d; simpl in *; [contradiction |].
  destruct I as [-> | I].
  - apply instruments_after_keeps with (x := i).
    apply dict_get_set_same, Symbol_eqb_refl.
  - apply IH, I.
Qed.

(** The check of lines 115-116 asserts a pair, so it passes for every
    symbol, with or without an instrument. *)
Lemma instrument_check_never_fails (symbols : list Symbol.t) :
  forall self : client,
    for_each symbols
      (fun symbol =>
         instruments <- gets (fun self : client =>
                                DataClient._instruments (BacktestDataClient.base self)) ;;
         assert_ (tuple2_truth
                    (dict_contains symbol instruments,
                     String.concat "" ["The needed instrument "; Symbol.value symbol;
                                       " was not provided."]))) self
    = (Ok tt, self).
Proof.
  induction symbols as [| s rest IH]; intros self; simpl; [reflexivity |].
  unfold bind at 1. unfold bind at 1, gets, assert_, tuple2_truth, ret. apply IH.
Qed.

Lemma DataProvider_init_result {S : Type} (instrument : Instrument.t)
  (ticks : option DataFrame.t) (bars_bid bars_ask : list (BarStructure * DataFrame.t)) (s : S) :
  (exists p, DataProvider.__init__ instrument ticks bars_bid bars_ask s = (Ok p, s))
  \/ DataProvider.__init__ instrument ticks bars_bid bars_ask s = (Raise KeyError, s).
Proof.
  unfold DataProvider.__init__, bind, liftR, ret, dict_getitem.
  destruct (dict_contains SECOND bars_bid).
  { destruct (dict_get SECOND bars_bid); [| right; reflexivity].
    destruct (dict_get SECOND bars_ask); [left; eexists; reflexivity | right; reflexivity]. }
  destruct (dict_contains MINUTE bars_bid).
  { destruct (dict_get MINUTE bars_bid); [| right; reflexivity].
    destruct (dict_get MINUTE bars_ask); [left; eexists; reflexivity | right; reflexivity]. }
  destruct (dict_contains HOUR bars_bid).
  { destruct (dict_get HOUR bars_bid); [| right; reflexivity].
    destruct (dict_get HOUR bars_ask); [left; eexists; reflexivity | right; reflexivity]. }
  left; eexists; reflexivity.
Qed.

(** The body of the loop of lines 142-152, for one instrument. *)
Definition provider_step (data : BacktestDataContainer.t) (item : Symbol.t * Instrument.t)
  : M client unit :=
  let symbol := fst item in
  let instrument := snd item in
  BacktestDataClient.super (DataClient.log INFO
    (String.concat "" ["Creating DataProvider for "; Symbol.value symbol; "..."])) ;;
  BacktestDataClient.super (DataClient.log INFO
    (String.concat "" ["Building "; Symbol.value symbol; " ticks..."])) ;;
  let ticks := dict_get symbol (BacktestDataContainer.ticks data) in
  bars_bid <- liftR (dict_getitem symbol (BacktestDataContainer.bars_bid data)) ;;
  bars_ask <- liftR (dict_getitem symbol (BacktestDataContainer.bars_ask data)) ;;
  provider <- DataProvider.__init__ instrument ticks bars_bid bars_ask ;;
  modify (fun self : client =>
    BacktestDataClient.set_data_providers
      (dict_set symbol provider (BacktestDataClient.data_providers self)) self) ;;
  BacktestDataClient.super (DataClient.log INFO
    (String.concat "" ["Built "; Symbol.value symbol; " ticks."])).

(** A symbol without an entry in the bid-bar map or in the ask-bar map. *)
Definition lacks_bars (data : BacktestDataContainer.t) (symbol : Symbol.t) : Prop :=
  dict_contains symbol (BacktestDataContainer.bars_bid data) = false
  \/ dict_contains symbol (BacktestDataContainer.bars_ask data) = false.

Lemma super_log_run (level : LogLevel) (msg : string) (self : client) :
  BacktestDataClient.super (DataClient.log level msg) self
  = (Ok tt,
     BacktestDataClient.set_base
       (DataClient.set_trace
          (DataClient.trace (BacktestDataClient.base self) ++ [Log level msg])
          (BacktestDataClient.base self)) self).
Proof. reflexivity. Qed.

Lemma provider_step_result (data : BacktestDataContainer.t) (item : Symbol.t * Instrument.t)
  (self : client) :
  (fst (provider_step data item self) = Ok tt \/ fst (provider_step data item self) = Raise KeyError)
  /\ (lacks_bars data (fst item) -> fst (provider_step data item self) = Raise KeyError).
Proof.
  unfold provider_step, lacks_bars, dict_contains, dict_getitem. cbv zeta.
  erewrite bind_ok by apply super_log_run.
  erewrite bind_ok by apply super_log_run.
  destruct (dict_get (fst item) (BacktestDataContainer.bars_bid data)) as [bb |].
  2: { erewrite bind_raise by reflexivity. simpl. auto. }
  erewrite bind_ok by reflexivity.
  destruct (dict_get (fst item) (BacktestDataContainer.bars_ask data)) as [ba |].
  2: { erewrite bind_raise by reflexivity. simpl. auto. }
  erewrite bind_ok by reflexivity.
  match goal with
  | |- context [bind (DataProvider.__init__ ?i ?t ?b ?a) _ ?s] =>
      destruct (DataProvider_init_result i t b a s) as [(p & E) | E]
  end.
  - erewrite bind_ok by exact E.
    erewrite bind_ok by reflexivity.
    rewrite super_log_run. simpl.
    split; [left; reflexivity | intros [D | D]; discriminate D].
  - erewrite bind_raise by exact E. simpl.
    split; [right; reflexivity | intros [D | D]; discriminate D].
Qed.

Lemma provider_loop_raises (data : BacktestDataContainer.t) (items : list (Symbol.t * Instrument.t)) :
  (exists item, In item items /\ lacks_bars data (fst item)) ->
  forall self : client, fst (for_each items (provider_step data) self) = Raise KeyError.
Proof.
  induction items as [| item rest IH]; intros (bad & I & L) self; simpl in *; [contradiction |].
  destruct (provider_step_result data item self) as [R RL].
  destruct I as [-> | I].
  - apply fst_bind_raise, RL, L.
  - destruct R as [R | R]; [| apply fst_bind_raise, R].
    unfold bind. destruct (provider_step data item self) as [[[] | e] s1]; simpl in R.
    + apply IH. exists bad. auto.
    + discriminate R.
Qed.

(** C10. If some instrument of the container has no entry for its symbol
    in the bid-bar map or in the ask-bar map, construction raises
    [KeyError]: both maps are indexed unguarded for every instrument,
    while the tick table is looked up with a default of [None]. *)
Theorem init_raises_without_bars (venue : Venue.t) (data : BacktestDataContainer.t)
  (clock : TestClock) (logger : Logger) (instrument : Instrument.t) :
  In instrument (dict_values (BacktestDataContainer.instruments data)) ->
  dict_contains (Instrument.symbol instrument) (BacktestDataContainer.bars_bid data) = false
  \/ dict_contains (Instrument.symbol instrument) (BacktestDataContainer.bars_ask data) = false ->
  BacktestDataClient.__init__ venue data (Some clock) (Some logger) = Raise KeyError.
Proof.
  intros I L. unfold BacktestDataClient.__init__.
  set (self0 := BacktestDataClient.Build DataClient.__init__ venue clock [] [] None None).
  assert (R : fst (BacktestDataClient.__init__body data self0) = Raise KeyError).
  { unfold BacktestDataClient.__init__body. cbv zeta.
    erewrite bind_ok by apply super_log_run.
    match goal with
    | |- context [bind (for_each ?l _) _ ?s] =>
        destruct (handle_instruments_run l s) as (s2 & R2 & I2)
    end.
    erewrite bind_ok by exact R2.
    erewrite bind_ok by apply instrument_check_never_fails.
    erewrite bind_ok by reflexivity.
    apply fst_bind_raise.
    apply (provider_loop_raises data).
    rewrite I2.
    match goal with
    | |- context [instruments_after ?l ?d] =>
        destruct (instruments_after_has l instrument I d) as (y & G)
    end.
    destruct (dict_get_in _ _ _ G) as (k' & IN & E).
    apply Symbol_eqb_eq in E. subst k'.
    exists (Instrument.symbol instrument, y). split; [exact IN | exact L]. }
  destruct (BacktestDataClient.__init__body data self0) as [[u | e] s]; simpl in R; congruence.
Qed.

(** ** The merged tick stream *)

(** Ascending by timestamp. *)
Definition timestamp_le (a b : Tick.t) : Prop := Tick.timestamp a <= Tick.timestamp b.

Lemma sorted_insert_HdRel (y x : Tick.t) (l : list Tick.t) :
  timestamp_le y x -> HdRel timestamp_le y l -> HdRel timestamp_le y (sorted_insert Tick.lt x l).
Proof.
  intros YX HD. destruct l as [| z rest]; simpl.
  - constructor. exact YX.
  - inversion HD; subst. destruct (Tick.lt z x); constructor; assumption.
Qed.

Lemma sorted_insert_Sorted (x : Tick.t) (l : list Tick.t) :
  Sorted timestamp_le l -> Sorted timestamp_le (sorted_insert Tick.lt x l).
Proof.
  induction l as [| y rest IH]; intros S; simpl.
  - repeat constructor.
  - inversion S as [| ? ? S' HD]; subst. unfold Tick.lt at 1.
    destruct (Z.ltb_spec (Tick.timestamp y) (Tick.timestamp x)) as [LT | GE].
    + constructor; [apply IH, S' |].
      apply sorted_insert_HdRel; [unfold timestamp_le; lia | exact HD].
    + constructor; [exact S |]. constructor. exact GE.
Qed.

Lemma sorted_Sorted (l : list Tick.t) : Sorted timestamp_le (sorted Tick.lt l).
Proof.
  induction l as [| x rest IH]; simpl; [constructor | apply sorted_insert_Sorted, IH].
Qed.

Lemma sorted_insert_Permutation (x : Tick.t) (l : list Tick.t) :
  Permutation (sorted_insert Tick.lt x l) (x :: l).
Proof.
  induction l as [| y rest IH]; simpl; [reflexivity |].
  destruct (Tick.lt y x); [| reflexivity].
  rewrite IH. apply perm_swap.
Qed.

Lemma sorted_Permutation (l : list Tick.t) : Permutation (sorted Tick.lt l) l.
Proof.
  induction l as [| x rest IH]; simpl; [reflexivity |].
  rewrite sorted_insert_Permutation, IH. reflexivity.
Qed.

Lemma list_getitem_first {A : Type} (l : list A) (x : A) :
  list_getitem l 0 = Ok x -> exists rest, l = x :: rest.
Proof.
  destruct l as [| y rest]; cbn; [discriminate |].
  intros [= ->]. exists rest. reflexivity.
Qed.

Lemma list_getitem_last {A : Type} (l : list A) (x : A) :
  list_getitem l (-1) = Ok x -> exists front, l = front ++ [x].
Proof.
  unfold list_getitem. change (-1 <? 0) with true. cbv iota zeta.
  destruct ((-1 + Z.of_nat (List.length l) <? 0)
            || (Z.of_nat (List.length l) <=? -1 + Z.of_nat (List.length l))) eqn:B;
    [discriminate |].
  apply orb_false_iff in B. destruct B as [B1 B2].
  apply Z.ltb_ge in B1.
  destruct (nth_error l (Z.to_nat (-1 + Z.of_nat (List.length l)))) as [y |] eqn:N;
    [| discriminate].
  intros [= ->].
  destruct (exists_last (l := l)) as (front & z & ->).
  { intros ->. simpl in B1. lia. }
  exists front.
  assert (IDX : Z.to_nat (-1 + Z.of_nat (List.length (front ++ [z]))) = List.length front).
  { rewrite length_app. cbn [List.length]. lia. }
  rewrite IDX, nth_error_app2, Nat.sub_diag in N by apply Nat.le_refl.
  injection N as ->. reflexivity.
Qed.

Lemma bind_ok_inv {S A B : Type} (m : M S A) (k : A -> M S B) (s s' : S) (b : B) :
  bind m k s = (Ok b, s') -> exists a s1, m s = (Ok a, s1) /\ k a s1 = (Ok b, s').
Proof.
  unfold bind. destruct (m s) as [[a | e] s1]; [| discriminate].
  intros E. exists a, s1. auto.
Qed.

(** What a client returned by the constructor holds. Its tick stream is
    the sorted concatenation of the providers' ticks: ascending by
    timestamp, with the same ticks. The recorded bounds are the
    timestamps of the first and of the last tick of the concatenation as
    it was before sorting. *)
Theorem init_stores_sorted_ticks (venue : Venue.t) (data : BacktestDataContainer.t)
  (clock : TestClock) (logger : Logger) (self : client) :
  BacktestDataClient.__init__ venue data (Some clock) (Some logger) = Ok self ->
  let merged := BacktestDataClient.concat_ticks (BacktestDataClient.data_providers self) in
  BacktestDataClient.ticks self = sorted Tick.lt merged
  /\ Sorted timestamp_le (BacktestDataClient.ticks self)
  /\ Permutation (BacktestDataClient.ticks self) merged
  /\ exists first last rest front,
       merged = first :: rest
       /\ merged = front ++ [last]
       /\ BacktestDataClient.min_timestamp self = Some (Tick.timestamp first)
       /\ BacktestDataClient.max_timestamp self = Some (Tick.timestamp last).
Proof.
  unfold BacktestDataClient.__init__.
  destruct (BacktestDataClient.__init__body data _) as [[[] | e] s] eqn:B; [| discriminate].
  intros [= ->]. unfold BacktestDataClient.__init__body in B. cbv zeta in B.
  apply bind_ok_inv in B. destruct B as (? & s1 & _ & B).
  apply bind_ok_inv in B. destruct B as (? & s2 & _ & B).
  apply bind_ok_inv in B. destruct B as (? & s3 & _ & B).
  apply bind_ok_inv in B. destruct B as (? & s4 & _ & B).
  apply bind_ok_inv in B. destruct B as (? & s5 & _ & B).
  apply bind_ok_inv in B. destruct B as (providers & s6 & G & B).
  unfold gets in G. injection G as <- <-.
  apply bind_ok_inv in B. destruct B as (? & s7 & S7 & B).
  unfold modify in S7. injection S7 as <- <-.
  apply bind_ok_inv in B. destruct B as (first & s8 & F & B).
  unfold liftR in F. injection F as F <-.
  apply bind_ok_inv in B. destruct B as (? & s9 & S9 & B).
  unfold modify in S9. injection S9 as <- <-.
  apply bind_ok_inv in B. destruct B as (last & s10 & L & B).
  unfold liftR in L. injection L as L <-.
  unfold modify in B. injection B as <-.
  cbn [BacktestDataClient.data_providers BacktestDataClient.ticks
       BacktestDataClient.min_timestamp BacktestDataClient.max_timestamp
       BacktestDataClient.set_ticks BacktestDataClient.set_min_timestamp
       BacktestDataClient.set_max_timestamp].
  split; [reflexivity |].
  split; [apply sorted_Sorted |].
  split; [apply sorted_Permutation |].
  destruct (list_getitem_first _ _ F) as (rest & EF).
  destruct (list_getitem_last _ _ L) as (front & EL).
  exists first, last, rest, front. auto.
Qed.

End Init.

(** C10, witness: an instrument supplied with a tick table and no bar
    tables. *)
Lemma init_raises_without_bars_witness :
  In (Instrument.Build Fixtures.AUDUSD 5)
     (dict_values (BacktestDataContainer.instruments Fixtures.data_ticks_only))
  /\ dict_contains Fixtures.AUDUSD (BacktestDataContainer.ticks Fixtures.data_ticks_only) = true
  /\ dict_contains Fixtures.AUDUSD (BacktestDataContainer.bars_bid Fixtures.data_ticks_only) = false
  /\ @BacktestDataClient.__init__ TestClock.t Fixtures.wrangler Fixtures.FXCM
       Fixtures.data_ticks_only (Some Fixtures.idle_clock) (Some TestLogger)
     = Raise KeyError.
Proof.
  split; [left; reflexivity |].
  split; [reflexivity |].
  split; [reflexivity |].
  apply (@init_raises_without_bars TestClock.t Fixtures.wrangler Fixtures.FXCM
           Fixtures.data_ticks_only Fixtures.idle_clock TestLogger
           (Instrument.Build Fixtures.AUDUSD 5)).
  - left; reflexivity.
  - left; reflexivity.
Defined.

(** An instrument supplied with bar tables and no tick table is accepted:
    the provider is built with [None] for its tick table. *)
Example init_accepts_absent_tick_table :
  dict_contains Fixtures.AUDUSD (BacktestDataContainer.ticks Fixtures.data_bars_only) = false
  /\ exists client,
       @BacktestDataClient.__init__ TestClock.t Fixtures.wrangler Fixtures.FXCM
         Fixtures.data_bars_only (Some Fixtures.idle_clock) (Some TestLogger)
       = Ok client.
Proof.
  split; [reflexivity |].
  match goal with |- exists c, ?r = Ok c => remember r as res eqn:E end.
  vm_compute in E. subst res. eexists. reflexivity.
Qed.

(** C2, the code at the failing input. The container holds a tick table
    for [GBPUSD] and no instrument for it; construction returns a client
    all the same. *)
Theorem init_accepts_table_without_instrument :
  dict_contains Fixtures.GBPUSD
    (BacktestDataContainer.ticks Fixtures.data_without_instrument) = true
  /\ dict_contains Fixtures.GBPUSD
       (BacktestDataContainer.instruments Fixtures.data_without_instrument) = false
  /\ exists client,
       @BacktestDataClient.__init__ TestClock.t Fixtures.wrangler Fixtures.FXCM
         Fixtures.data_without_instrument (Some Fixtures.idle_clock) (Some TestLogger)
       = Ok client.
Proof.
  split; [reflexivity |]. split; [reflexivity |].
  match goal with |- exists c, ?r = Ok c => remember r as res eqn:E end.
  vm_compute in E. subst res. eexists. reflexivity.
Qed.

(** C3, the code at the failing input. With two instruments, the stored
    stream is sorted (1, 5, 10, 20), but the recorded bounds are read off
    the unsorted concatenation: [min_timestamp] is 10 and [max_timestamp]
    is 5, where the stream's minimum and maximum are 1 and 20. *)
Theorem init_bounds_of_two_instruments :
  exists client,
    @BacktestDataClient.__init__ TestClock.t Fixtures.wrangler Fixtures.FXCM
      Fixtures.data_two_instruments (Some Fixtures.idle_clock) (Some TestLogger)
    = Ok client
    /\ map Tick.timestamp (BacktestDataClient.ticks client) = [1; 5; 10; 20]
    /\ BacktestDataClient.min_timestamp client = Some 10
    /\ BacktestDataClient.max_timestamp client = Some 5.
Proof.
  match goal with |- exists c, ?r = Ok c /\ _ => remember r as res eqn:E end.
  vm_compute in E. subst res. eexists. split; [reflexivity |].
  vm_compute. repeat split.
Qed.

(** ** The live client: how its primitive steps run *)

Section LiveSteps.

Context `{Collaborators}.

Local Abbreviation live := LiveDataClient.t.

(** The client after one more effect. *)
Definition emit (e : Effect) (self : live) : live :=
  LiveDataClient.set_base
    (DataClient.set_trace (DataClient.trace (LiveDataClient.base self) ++ [e])
       (LiveDataClient.base self)) self.

Lemma trace_emit (e : Effect) (self : live) :
  LiveDataClient.trace (emit e self) = LiveDataClient.trace self ++ [e].
Proof. reflexivity. Qed.

Lemma super_effect_run (e : Effect) (self : live) :
  LiveDataClient.super (DataClient.effect e) self = (Ok tt, emit e self).
Proof. reflexivity. Qed.

Lemma super_log_live_run (level : LogLevel) (msg : string) (self : live) :
  LiveDataClient.super (DataClient.log level msg) self = (Ok tt, emit (Log level msg) self).
Proof. reflexivity. Qed.

Lemma super_call_run (f : Callable) (args : Args) (self : live) :
  LiveDataClient.super (DataClient.call f args) self = (Ok tt, emit (Call f args) self).
Proof. reflexivity. Qed.

Lemma worker_send_run (worker : RequestWorker) (request_bytes : bytes) (self : live) :
  LiveDataClient.worker_send worker request_bytes self
  = (if socket_fault (Send worker request_bytes) then Raise ZMQError
     else Ok (service_reply worker request_bytes),
     emit (Send worker request_bytes) self).
Proof.
  unfold LiveDataClient.worker_send. erewrite bind_ok by apply super_effect_run.
  destruct (socket_fault (Send worker request_bytes)); reflexivity.
Qed.

Lemma worker_subscribe_run (worker : SubscriberWorker) (topic : string) (self : live) :
  LiveDataClient.worker_subscribe worker topic self
  = (if socket_fault (Subscribe worker topic) then Raise ZMQError else Ok tt,
     emit (Subscribe worker topic) self).
Proof.
  unfold LiveDataClient.worker_subscribe. erewrite bind_ok by apply super_effect_run.
  destruct (socket_fault (Subscribe worker topic)); reflexivity.
Qed.

Lemma worker_unsubscribe_run (worker : SubscriberWorker) (topic : string) (self : live) :
  LiveDataClient.worker_unsubscribe worker topic self
  = (if socket_fault (Unsubscribe worker topic) then Raise ZMQError else Ok tt,
     emit (Unsubscribe worker topic) self).
Proof.
  unfold LiveDataClient.worker_unsubscribe. erewrite bind_ok by apply super_effect_run.
  destruct (socket_fault (Unsubscribe worker topic)); reflexivity.
Qed.

Lemma not_negative_int_negative {S : Type} (limit : Z) (param : string) (s : S) :
  limit < 0 -> Condition.not_negative_int limit param s = (Raise (ConditionFailed param), s).
Proof.
  intros L. unfold Condition.not_negative_int.
  destruct (Z.ltb_spec limit 0); [reflexivity | lia].
Qed.

Lemma not_negative_int_ok {S : Type} (limit : Z) (param : string) (s : S) :
  0 <= limit -> Condition.not_negative_int limit param s = (Ok tt, s).
Proof.
  intros L. unfold Condition.not_negative_int.
  destruct (Z.ltb_spec limit 0); [lia | reflexivity].
Qed.

Lemma request_ticks_negative_limit (limit : Z) (symbol : option Symbol.t)
  (from_date to_date : option date) (callback : PyObject) (self : live) :
  limit < 0 ->
  exists param,
    LiveDataClient.request_ticks symbol from_date to_date limit callback self
    = (Raise (ConditionFailed param), self).
Proof.
  intros L. unfold LiveDataClient.request_ticks.
  destruct symbol as [symbol |]; [| eexists; reflexivity].
  erewrite bind_ok by reflexivity.
  destruct from_date as [from_date |]; [| eexists; reflexivity].
  erewrite bind_ok by reflexivity.
  destruct to_date as [to_date |]; [| eexists; reflexivity].
  erewrite bind_ok by reflexivity.
  erewrite bind_raise by (apply not_negative_int_negative; exact L).
  eexists; reflexivity.
Qed.

Lemma request_bars_negative_limit (limit : Z) (bar_type : option BarType.t)
  (from_date to_date : option date) (callback : PyObject) (self : live) :
  limit < 0 ->
  exists param,
    LiveDataClient.request_bars bar_type from_date to_date limit callback self
    = (Raise (ConditionFailed param), self).
Proof.
  intros L. unfold LiveDataClient.request_bars.
  destruct bar_type as [bar_type |]; [| eexists; reflexivity].
  erewrite bind_ok by reflexivity.
  destruct from_date as [from_date |]; [| eexists; reflexivity].
  erewrite bind_ok by reflexivity.
  destruct to_date as [to_date |]; [| eexists; reflexivity].
  erewrite bind_ok by reflexivity.
  erewrite bind_raise by (apply not_negative_int_negative; exact L).
  eexists; reflexivity.
Qed.

(** C4. A call of [request_ticks] or [request_bars] with a negative limit
    raises [ConditionFailed] and leaves the client exactly as it was: its
    trace is unchanged, so no request was serialized or sent on a
    request/reply channel and the callback was not called. *)
Theorem negative_limit_fails_before_io (limit : Z)
  (symbol : option Symbol.t) (bar_type : option BarType.t)
  (from_date to_date : option date) (callback : PyObject) (self : live) :
  limit < 0 ->
  (exists param,
     LiveDataClient.request_ticks symbol from_date to_date limit callback self
     = (Raise (ConditionFailed param), self))
  /\ (exists param,
        LiveDataClient.request_bars bar_type from_date to_date limit callback self
        = (Raise (ConditionFailed param), self)).
Proof.
  intros L. split.
  - apply request_ticks_negative_limit, L.
  - apply request_bars_negative_limit, L.
Qed.

(** The effects of one call: what it appends to the trace. *)
Definition effects_of {A : Type} (m : M live A) (self : live) : list Effect :=
  skipn (List.length (LiveDataClient.trace self)) (LiveDataClient.trace (snd (m self))).

Lemma effects_of_app {A : Type} (m : M live A) (self : live) (effects : list Effect) :
  LiveDataClient.trace (snd (m self)) = LiveDataClient.trace self ++ effects ->
  effects_of m self = effects.
Proof.
  intros E. unfold effects_of. rewrite E.
  rewrite skipn_app, skipn_all, Nat.sub_diag. reflexivity.
Qed.

Lemma cached_symbols_get_run (key : string) (self : live) :
  LiveDataClient.cached_symbols_get key self
  = (Ok (fst (LiveDataClient.ObjectCache_get Symbol.from_string key
                (LiveDataClient._cached_symbols self))),
     LiveDataClient.set_cached_symbols
       (snd (LiveDataClient.ObjectCache_get Symbol.from_string key
               (LiveDataClient._cached_symbols self))) self).
Proof. reflexivity. Qed.

Lemma cached_bar_types_get_run (key : string) (self : live) :
  LiveDataClient.cached_bar_types_get key self
  = (Ok (fst (LiveDataClient.ObjectCache_get BarType_from_string key
                (LiveDataClient._cached_bar_types self))),
     LiveDataClient.set_cached_bar_types
       (snd (LiveDataClient.ObjectCache_get BarType_from_string key
               (LiveDataClient._cached_bar_types self))) self).
Proof. reflexivity. Qed.

(** *** [request_ticks] *)

(** The tail of [request_ticks]: what is done with the decoded reply. *)
Definition ticks_reply (symbol : Symbol.t) (callback : Callable) (response : Response)
  : M live unit :=
  match response with
  | MessageRejected _ | QueryFailure _ =>
      LiveDataClient.super (DataClient.log ERROR (str_response response))
  | DataResponse response_data =>
      let data := data_deserialize response_data in
      metadata <- LiveDataClient.getitem (Payload.metadata data) ;;
      key <- liftR (dict_getitem SYMBOL metadata) ;;
      received_symbol <- LiveDataClient.cached_symbols_get key ;;
      assert_ (key_eqb received_symbol symbol) ;;
      items <- LiveDataClient.getitem (Payload.data data) ;;
      LiveDataClient.super (DataClient.call callback
               (ArgTicks (tick_deserialize_bytes_list received_symbol items)))
  end.

(** The state in which a request is sent: the request has been announced
    in the log and has taken a fresh identifier. *)
Definition announced (msg : string) (self : live) : live :=
  LiveDataClient.set_guid_count (S (LiveDataClient.guid_count self)) (emit (Log INFO msg) self).

Lemma trace_announced (msg : string) (self : live) :
  LiveDataClient.trace (announced msg self) = LiveDataClient.trace self ++ [Log INFO msg].
Proof. reflexivity. Qed.

(** One round trip on a request channel, followed by [reply]. *)
Definition round_trip (worker : RequestWorker) (request_bytes : bytes)
  (reply : Response -> M live unit) (s : live) : Result unit * live :=
  if socket_fault (Send worker request_bytes)
  then (Raise ZMQError, emit (Send worker request_bytes) s)
  else reply (response_deserialize (service_reply worker request_bytes))
             (emit (Send worker request_bytes) s).

Lemma bind_worker_send (worker : RequestWorker) (request_bytes : bytes)
  (reply : Response -> M live unit) (s : live) :
  bind (LiveDataClient.worker_send worker request_bytes)
       (fun response_bytes => reply (response_deserialize response_bytes)) s
  = round_trip worker request_bytes reply s.
Proof.
  unfold bind, round_trip. rewrite worker_send_run.
  destruct (socket_fault (Send worker request_bytes)); reflexivity.
Qed.

Lemma request_ticks_run (symbol : Symbol.t) (from_date to_date : date) (limit : Z)
  (callback : Callable) (self : live) :
  0 <= limit ->
  exists msg request_bytes,
    LiveDataClient.request_ticks (Some symbol) (Some from_date) (Some to_date) limit
      (PyCallable callback) self
    = round_trip TickReqWorker request_bytes (ticks_reply symbol callback) (announced msg self).
Proof.
  intros L. do 2 eexists.
  unfold LiveDataClient.request_ticks.
  do 3 (erewrite bind_ok by reflexivity).
  erewrite bind_ok by (apply not_negative_int_ok; exact L).
  erewrite bind_ok by reflexivity.
  erewrite bind_ok by apply super_log_live_run.
  erewrite bind_ok by reflexivity.
  erewrite bind_ok by reflexivity.
  cbv zeta.
  apply (bind_worker_send TickReqWorker _ (ticks_reply symbol callback)).
Qed.

Lemma ticks_reply_data (symbol : Symbol.t) (callback : Callable) (response_data : bytes)
  (s : live) :
  ticks_reply symbol callback (DataResponse response_data) s
  = match Payload.metadata (data_deserialize response_data) with
    | None => (Raise KeyError, s)
    | Some metadata =>
        match dict_get SYMBOL metadata with
        | None => (Raise KeyError, s)
        | Some key =>
            let hit := LiveDataClient.ObjectCache_get Symbol.from_string key
                         (LiveDataClient._cached_symbols s) in
            let s' := LiveDataClient.set_cached_symbols (snd hit) s in
            if key_eqb (fst hit) symbol then
              match Payload.data (data_deserialize response_data) with
              | None => (Raise KeyError, s')
              | Some items =>
                  (Ok tt,
                   emit (Call callback
                           (ArgTicks (tick_deserialize_bytes_list (fst hit) items))) s')
              end
            else (Raise AssertionError, s')
        end
    end.
Proof.
  unfold ticks_reply. cbv zeta.
  destruct (Payload.metadata (data_deserialize response_data)) as [metadata |];
    [| reflexivity].
  erewrite bind_ok by reflexivity.
  unfold dict_getitem.
  destruct (dict_get SYMBOL metadata) as [key |]; [| reflexivity].
  erewrite bind_ok by reflexivity.
  erewrite bind_ok by apply cached_symbols_get_run.
  destruct (key_eqb _ symbol); [| reflexivity].
  erewrite bind_ok by reflexivity.
  destruct (Payload.data (data_deserialize response_data)) as [items |]; reflexivity.
Qed.

(** No request goes out among these effects. *)
Definition no_send (effects : list Effect) : Prop :=
  forall worker request_bytes, ~ In (Send worker request_bytes) effects.

(** No callable is called among these effects. *)
Definition no_call (effects : list Effect) : Prop :=
  forall f args, ~ In (Call f args) effects.

(** What every reply handler of the client does: a rejection is logged as
    an error and the handler returns; any other reply is handled without
    another request. *)
Definition reply_sound (reply : Response -> M live unit) : Prop :=
  forall (response : Response) (s : live),
    if is_rejection response
    then reply response s = (Ok tt, emit (Log ERROR (str_response response)) s)
    else exists effects,
           LiveDataClient.trace (snd (reply response s)) = LiveDataClient.trace s ++ effects
           /\ no_send effects.

Ltac quiet :=
  exists []; split; [symmetry; apply app_nil_r | intros ? ? []].

Ltac one_call :=
  eexists [_]; split; [reflexivity | intros ? ? [? | []]; discriminate].

Lemma ticks_reply_sound (symbol : Symbol.t) (callback : Callable) :
  reply_sound (ticks_reply symbol callback).
Proof.
  intros [m | m | d] s; [reflexivity | reflexivity |]. cbn [is_rejection].
  rewrite ticks_reply_data. cbv zeta.
  destruct (Payload.metadata _); [| quiet].
  destruct (dict_get SYMBOL _); [| quiet].
  destruct (key_eqb _ symbol); [| quiet].
  destruct (Payload.data _); [one_call | quiet].
Qed.

(** *** [request_bars] *)

Definition bars_reply (bar_type : BarType.t) (callback : Callable) (response : Response)
  : M live unit :=
  match response with
  | MessageRejected _ | QueryFailure _ =>
      LiveDataClient.super (DataClient.log ERROR (str_response response))
  | DataResponse response_data =>
      let data := data_deserialize response_data in
      metadata <- LiveDataClient.getitem (Payload.metadata data) ;;
      key_symbol <- liftR (dict_getitem SYMBOL metadata) ;;
      key_specification <- liftR (dict_getitem SPECIFICATION metadata) ;;
      received_bar_type <-
        LiveDataClient.cached_bar_types_get
          (String.concat "" [key_symbol; "-"; key_specification]) ;;
      assert_ (key_eqb received_bar_type bar_type) ;;
      items <- LiveDataClient.getitem (Payload.data data) ;;
      LiveDataClient.super (DataClient.call callback
               (ArgBars received_bar_type (bar_deserialize_bytes_list items)))
  end.

Lemma request_bars_run (bar_type : BarType.t) (from_date to_date : date) (limit : Z)
  (callback : Callable) (self : live) :
  0 <= limit ->
  BarSpecification.structure (BarType.specification bar_type) <> TICK ->
  exists msg request_bytes,
    LiveDataClient.request_bars (Some bar_type) (Some from_date) (Some to_date) limit
      (PyCallable callback) self
    = round_trip BarReqWorker request_bytes (bars_reply bar_type callback) (announced msg self).
Proof.
  intros L NT. do 2 eexists.
  unfold LiveDataClient.request_bars.
  do 3 (erewrite bind_ok by reflexivity).
  erewrite bind_ok by (apply not_negative_int_ok; exact L).
  erewrite bind_ok by reflexivity.
  destruct (BarSpecification.structure (BarType.specification bar_type));
    try (exfalso; apply NT; reflexivity); cbn [BarStructure_eqb];
    (erewrite bind_ok by apply super_log_live_run);
    (erewrite bind_ok by reflexivity);
    (erewrite bind_ok by reflexivity);
    cbv zeta;
    apply (bind_worker_send BarReqWorker _ (bars_reply bar_type callback)).
Qed.

Lemma request_bars_tick_run (bar_type : BarType.t) (from_date to_date : date) (limit : Z)
  (callback : Callable) (self : live) :
  0 <= limit ->
  BarSpecification.structure (BarType.specification bar_type) = TICK ->
  LiveDataClient.request_bars (Some bar_type) (Some from_date) (Some to_date) limit
    (PyCallable callback) self
  = (Ok tt, emit (BulkBuildTickBars bar_type from_date to_date limit callback) self).
Proof.
  intros L T. unfold LiveDataClient.request_bars.
  do 3 (erewrite bind_ok by reflexivity).
  erewrite bind_ok by (apply not_negative_int_ok; exact L).
  erewrite bind_ok by reflexivity.
  rewrite T. reflexivity.
Qed.

Lemma bars_reply_data (bar_type : BarType.t) (callback : Callable) (response_data : bytes)
  (s : live) :
  bars_reply bar_type callback (DataResponse response_data) s
  = match Payload.metadata (data_deserialize response_data) with
    | None => (Raise KeyError, s)
    | Some metadata =>
        match dict_get SYMBOL metadata with
        | None => (Raise KeyError, s)
        | Some key_symbol =>
            match dict_get SPECIFICATION metadata with
            | None => (Raise KeyError, s)
            | Some key_specification =>
                let hit := LiveDataClient.ObjectCache_get BarType_from_string
                             (String.concat "" [key_symbol; "-"; key_specification])
                             (LiveDataClient._cached_bar_types s) in
                let s' := LiveDataClient.set_cached_bar_types (snd hit) s in
                if key_eqb (fst hit) bar_type then
                  match Payload.data (data_deserialize response_data) with
                  | None => (Raise KeyError, s')
                  | Some items =>
                      (Ok tt,
                       emit (Call callback
                               (ArgBars (fst hit) (bar_deserialize_bytes_list items))) s')
                  end
                else (Raise AssertionError, s')
            end
        end
    end.
Proof.
  unfold bars_reply. cbv zeta.
  destruct (Payload.metadata (data_deserialize response_data)) as [metadata |];
    [| reflexivity].
  erewrite bind_ok by reflexivity.
  unfold dict_getitem.
  destruct (dict_get SYMBOL metadata) as [key_symbol |]; [| reflexivity].
  erewrite bind_ok by reflexivity.
  destruct (dict_get SPECIFICATION metadata) as [key_specification |]; [| reflexivity].
  erewrite bind_ok by reflexivity.
  erewrite bind_ok by apply cached_bar_types_get_run.
  destruct (key_eqb _ bar_type); [| reflexivity].
  erewrite bind_ok by reflexivity.
  destruct (Payload.data (data_deserialize response_data)) as [items |]; reflexivity.
Qed.

Lemma bars_reply_sound (bar_type : BarType.t) (callback : Callable) :
  reply_sound (bars_reply bar_type callback).
Proof.
  intros [m | m | d] s; [reflexivity | reflexivity |]. cbn [is_rejection].
  rewrite bars_reply_data. cbv zeta.
  destruct (Payload.metadata _); [| quiet].
  destruct (dict_get SYMBOL _); [| quiet].
  destruct (dict_get SPECIFICATION _); [| quiet].
  destruct (key_eqb _ bar_type); [| quiet].
  destruct (Payload.data _); [one_call | quiet].
Qed.

(** *** [request_instrument] and [request_instruments] *)

Definition instrument_reply (symbol : Symbol.t) (callback : Callable) (response : Response)
  : M live unit :=
  match response with
  | MessageRejected _ | QueryFailure _ =>
      LiveDataClient.super (DataClient.log ERROR (str_response response))
  | DataResponse response_data =>
      let data := data_deserialize response_data in
      items <- LiveDataClient.getitem (Payload.data data) ;;
      first <- liftR (list_getitem items 0) ;;
      let instrument := instrument_deserialize first in
      assert_ (key_eqb (Instrument.symbol instrument) symbol) ;;
      LiveDataClient.super (DataClient.call callback (ArgInstrument instrument))
  end.

Definition instruments_reply (callback : Callable) (response : Response) : M live unit :=
  match response with
  | MessageRejected _ | QueryFailure _ =>
      LiveDataClient.super (DataClient.log ERROR (str_response response))
  | DataResponse response_data =>
      let data := data_deserialize response_data in
      items <- LiveDataClient.getitem (Payload.data data) ;;
      let instruments := map instrument_deserialize items in
      LiveDataClient.super (DataClient.call callback (ArgInstruments instruments))
  end.

Lemma request_instrument_run (symbol : Symbol.t) (callback : Callable) (self : live) :
  exists msg request_bytes,
    LiveDataClient.request_instrument (Some symbol) (PyCallable callback) self
    = round_trip InstReqWorker request_bytes (instrument_reply symbol callback)
        (announced msg self).
Proof.
  do 2 eexists. unfold LiveDataClient.request_instrument.
  do 2 (erewrite bind_ok by reflexivity).
  erewrite bind_ok by apply super_log_live_run.
  erewrite bind_ok by reflexivity.
  erewrite bind_ok by reflexivity.
  cbv zeta.
  apply (bind_worker_send InstReqWorker _ (instrument_reply symbol callback)).
Qed.

Lemma request_instruments_run (venue : Venue.t) (callback : Callable) (self : live) :
  exists msg request_bytes,
    LiveDataClient.request_instruments venue (PyCallable callback) self
    = round_trip InstReqWorker request_bytes (instruments_reply callback) (announced msg self).
Proof.
  do 2 eexists. unfold LiveDataClient.request_instruments.
  erewrite bind_ok by reflexivity.
  erewrite bind_ok by apply super_log_live_run.
  erewrite bind_ok by reflexivity.
  erewrite bind_ok by reflexivity.
  cbv zeta.
  apply (bind_worker_send InstReqWorker _ (instruments_reply callback)).
Qed.

Lemma instrument_reply_sound (symbol : Symbol.t) (callback : Callable) :
  reply_sound (instrument_reply symbol callback).
Proof.
  intros [m | m | d] s; [reflexivity | reflexivity |]. cbn [is_rejection].
  unfold instrument_reply. cbv zeta.
  destruct (Payload.data (data_deserialize d)) as [items |]; [| quiet].
  erewrite bind_ok by reflexivity.
  destruct (list_getitem items 0) as [first | e]; [| quiet].
  erewrite bind_ok by reflexivity.
  destruct (key_eqb (Instrument.symbol (instrument_deserialize first)) symbol).
  - erewrite bind_ok by reflexivity. rewrite super_call_run. one_call.
  - quiet.
Qed.

Lemma instruments_reply_sound (callback : Callable) :
  reply_sound (instruments_reply callback).
Proof.
  intros [m | m | d] s; [reflexivity | reflexivity |]. cbn [is_rejection].
  unfold instruments_reply. cbv zeta.
  destruct (Payload.data (data_deserialize d)) as [items |]; [| quiet].
  erewrite bind_ok by reflexivity. rewrite super_call_run. one_call.
Qed.

(** *** The shape of every request operation *)

Lemma trace_sent (worker : RequestWorker) (request_bytes : bytes) (msg : string) (self : live) :
  LiveDataClient.trace (emit (Send worker request_bytes) (announced msg self))
  = LiveDataClient.trace self ++ [Log INFO msg; Send worker request_bytes].
Proof.
  rewrite trace_emit, trace_announced, <- app_assoc. reflexivity.
Qed.

(** A request operation either ends without sending anything, or announces
    the request in the log, makes one round trip and hands the reply to a
    sound reply handler. *)
Definition request_shape (m : M live unit) (self : live) : Prop :=
  (exists effects,
     LiveDataClient.trace (snd (m self)) = LiveDataClient.trace self ++ effects
     /\ no_send effects)
  \/ (exists worker request_bytes reply msg,
        reply_sound reply
        /\ m self = round_trip worker request_bytes reply (announced msg self)).

Ltac no_request := left; quiet.

Lemma run_request_shape (c : LiveDataClient.RequestCall) (self : live) :
  request_shape (LiveDataClient.run_request c) self.
Proof.
  destruct c as [symbol from_date to_date limit callback
                | bar_type from_date to_date limit callback
                | symbol callback
                | venue callback]; cbn [LiveDataClient.run_request].
  - destruct (Z_lt_le_dec limit 0) as [L | L].
    { destruct (request_ticks_negative_limit limit symbol from_date to_date callback self L)
        as (param & E).
      left. rewrite E. quiet. }
    destruct symbol as [symbol |]; [| no_request].
    destruct from_date as [from_date |]; [| no_request].
    destruct to_date as [to_date |]; [| no_request].
    destruct callback as [| callback | other].
    + left. unfold LiveDataClient.request_ticks.
      do 3 (erewrite bind_ok by reflexivity).
      erewrite bind_ok by (apply not_negative_int_ok; exact L). quiet.
    + destruct (request_ticks_run symbol from_date to_date limit callback self L) as (msg & rb & E).
      right. exists TickReqWorker, rb, (ticks_reply symbol callback), msg.
      split; [apply ticks_reply_sound | exact E].
    + left. unfold LiveDataClient.request_ticks.
      do 3 (erewrite bind_ok by reflexivity).
      erewrite bind_ok by (apply not_negative_int_ok; exact L). quiet.
  - destruct (Z_lt_le_dec limit 0) as [L | L].
    { destruct (request_bars_negative_limit limit bar_type from_date to_date callback self L)
        as (param & E).
      left. rewrite E. quiet. }
    destruct bar_type as [bar_type |]; [| no_request].
    destruct from_date as [from_date |]; [| no_request].
    destruct to_date as [to_date |]; [| no_request].
    destruct callback as [| callback | other].
    + left. unfold LiveDataClient.request_bars.
      do 3 (erewrite bind_ok by reflexivity).
      erewrite bind_ok by (apply not_negative_int_ok; exact L). quiet.
    + destruct (BarStructure_eqb (BarSpecification.structure (BarType.specification bar_type)) TICK)
        eqn:T.
      * left. rewrite request_bars_tick_run; [| exact L |].
        -- eexists [_]. split; [reflexivity | intros ? ? [? | []]; discriminate].
        -- destruct (BarSpecification.structure (BarType.specification bar_type));
             try discriminate T; reflexivity.
      * assert (NT : BarSpecification.structure (BarType.specification bar_type) <> TICK).
        { intros E. rewrite E in T. discriminate T. }
        destruct (request_bars_run bar_type from_date to_date limit callback self L NT)
          as (msg & rb & E).
        right. exists BarReqWorker, rb, (bars_reply bar_type callback), msg.
        split; [apply bars_reply_sound | exact E].
    + left. unfold LiveDataClient.request_bars.
      do 3 (erewrite bind_ok by reflexivity).
      erewrite bind_ok by (apply not_negative_int_ok; exact L). quiet.
  - destruct symbol as [symbol |]; [| no_request].
    destruct callback as [| callback | other]; [no_request | | no_request].
    destruct (request_instrument_run symbol callback self) as (msg & rb & E).
    right. exists InstReqWorker, rb, (instrument_reply symbol callback), msg.
    split; [apply instrument_reply_sound | exact E].
  - destruct callback as [| callback | other]; [no_request | | no_request].
    destruct (request_instruments_run venue callback self) as (msg & rb & E).
    right. exists InstReqWorker, rb, (instruments_reply callback), msg.
    split; [apply instruments_reply_sound | exact E].
Qed.

(** What a round trip leaves in the trace: the request announced in the
    log, the request sent, and then what the reply handler did. *)
Lemma round_trip_effects (m : M live unit) (self : live) (worker : RequestWorker)
  (request_bytes : bytes) (reply : Response -> M live unit) (msg : string) :
  reply_sound reply ->
  m self = round_trip worker request_bytes reply (announced msg self) ->
  exists rest, effects_of m self = Log INFO msg :: Send worker request_bytes :: rest.
Proof.
  intros RS E. unfold round_trip in E.
  destruct (socket_fault (Send worker request_bytes)).
  - exists []. apply effects_of_app. rewrite E. apply trace_sent.
  - specialize (RS (response_deserialize (service_reply worker request_bytes))
                   (emit (Send worker request_bytes) (announced msg self))).
    destruct (is_rejection (response_deserialize (service_reply worker request_bytes))).
    + eexists [_]. apply effects_of_app. rewrite E, RS. cbn [snd].
      rewrite trace_emit, trace_sent, <- app_assoc. reflexivity.
    + destruct RS as (effects & T & _). exists effects.
      apply effects_of_app. rewrite E, T, trace_sent, <- app_assoc. reflexivity.
Qed.

(** A request that goes out and may meet a rejection. The call announces
    the request in the log and sends it on [worker]: these are its first
    two effects, whatever follows. If the socket does not fail and the
    reply decodes to a rejection or a query failure, the call returns,
    its one further effect is the reply logged as an error, and no
    callable is called. *)
Definition rejection_logged (m : M live unit) (self : live) (worker : RequestWorker) : Prop :=
  exists msg request_bytes rest,
    effects_of m self = Log INFO msg :: Send worker request_bytes :: rest
    /\ (socket_fault (Send worker request_bytes) = false ->
        is_rejection (response_deserialize (service_reply worker request_bytes)) = true ->
        fst (m self) = Ok tt
        /\ rest
           = [Log ERROR (str_response (response_deserialize (service_reply worker request_bytes)))]
        /\ no_call (effects_of m self)).

Lemma round_trip_rejection (m : M live unit) (self : live) (worker : RequestWorker)
  (request_bytes : bytes) (reply : Response -> M live unit) (msg : string) :
  reply_sound reply ->
  m self = round_trip worker request_bytes reply (announced msg self) ->
  rejection_logged m self worker.
Proof.
  intros RS E.
  destruct (round_trip_effects m self worker request_bytes reply msg RS E) as (rest & EF).
  exists msg, request_bytes, rest. split; [exact EF |].
  intros NF REJ. unfold round_trip in E. rewrite NF in E.
  specialize (RS (response_deserialize (service_reply worker request_bytes))
                 (emit (Send worker request_bytes) (announced msg self))).
  rewrite REJ in RS. rewrite RS in E.
  assert (EF' : effects_of m self
                = [Log INFO msg; Send worker request_bytes;
                   Log ERROR
                     (str_response (response_deserialize (service_reply worker request_bytes)))]).
  { apply effects_of_app. rewrite E. cbn [snd].
    rewrite trace_emit, trace_sent, <- app_assoc. reflexivity. }
  split; [rewrite E; reflexivity |]. split.
  - rewrite EF in EF'. injection EF' as ->. reflexivity.
  - rewrite EF'. intros f args [D | [D | [D | []]]]; discriminate D.
Qed.

(** C5. Each of the four request operations, called with its arguments
    present, a limit that is not negative and a callable callback,
    announces its request in the log and sends it; if the socket does
    not fail and the reply decodes to a rejection or a query failure,
    the operation returns normally, and all it did is: announce the
    request, send it, and log the reply as an error. The callback is not
    called. The one exception is [request_bars] for a tick-structured
    bar type: it sends nothing and decodes no reply, but hands the whole
    request to the bulk builder and returns. *)
Theorem rejection_is_logged_not_raised :
  (forall (symbol : Symbol.t) (from_date to_date : date) (limit : Z) (callback : Callable)
          (self : live),
     0 <= limit ->
     rejection_logged
       (LiveDataClient.request_ticks (Some symbol) (Some from_date) (Some to_date) limit
          (PyCallable callback)) self TickReqWorker)
  /\ (forall (bar_type : BarType.t) (from_date to_date : date) (limit : Z)
             (callback : Callable) (self : live),
        0 <= limit ->
        BarSpecification.structure (BarType.specification bar_type) <> TICK ->
        rejection_logged
          (LiveDataClient.request_bars (Some bar_type) (Some from_date) (Some to_date) limit
             (PyCallable callback)) self BarReqWorker)
  /\ (forall (symbol : Symbol.t) (callback : Callable) (self : live),
        rejection_logged
          (LiveDataClient.request_instrument (Some symbol) (PyCallable callback)) self
          InstReqWorker)
  /\ (forall (venue : Venue.t) (callback : Callable) (self : live),
        rejection_logged
          (LiveDataClient.request_instruments venue (PyCallable callback)) self InstReqWorker)
  /\ (forall (bar_type : BarType.t) (from_date to_date : date) (limit : Z)
             (callback : Callable) (self : live),
        let m := LiveDataClient.request_bars (Some bar_type) (Some from_date) (Some to_date)
                   limit (PyCallable callback) in
        0 <= limit ->
        BarSpecification.structure (BarType.specification bar_type) = TICK ->
        fst (m self) = Ok tt
        /\ effects_of m self = [BulkBuildTickBars bar_type from_date to_date limit callback]).
Proof.
  split; [| split; [| split; [| split]]].
  - intros symbol from_date to_date limit callback self L.
    destruct (request_ticks_run symbol from_date to_date limit callback self L)
      as (msg & rb & E).
    exact (round_trip_rejection _ self _ _ _ _ (ticks_reply_sound symbol callback) E).
  - intros bar_type from_date to_date limit callback self L NT.
    destruct (request_bars_run bar_type from_date to_date limit callback self L NT)
      as (msg & rb & E).
    exact (round_trip_rejection _ self _ _ _ _ (bars_reply_sound bar_type callback) E).
  - intros symbol callback self.
    destruct (request_instrument_run symbol callback self) as (msg & rb & E).
    exact (round_trip_rejection _ self _ _ _ _ (instrument_reply_sound symbol callback) E).
  - intros venue callback self.
    destruct (request_instruments_run venue callback self) as (msg & rb & E).
    exact (round_trip_rejection _ self _ _ _ _ (instruments_reply_sound callback) E).
  - intros bar_type from_date to_date limit callback self m L T. unfold m.
    rewrite (request_bars_tick_run bar_type from_date to_date limit callback self L T).
    split; [reflexivity |].
    apply effects_of_app.
    rewrite (request_bars_tick_run bar_type from_date to_date limit callback self L T).
    reflexivity.
Qed.

(** *** The subject check of [request_ticks] and [request_bars] *)

Lemma BarStructure_eqb_eq (a b : BarStructure) : BarStructure_eqb a b = true <-> a = b.
Proof. destruct a, b; simpl; split; intros E; try reflexivity; discriminate E. Qed.

Lemma PriceType_eqb_eq (a b : PriceType) : PriceType_eqb a b = true <-> a = b.
Proof. destruct a, b; simpl; split; intros E; try reflexivity; discriminate E. Qed.

Lemma BarType_eqb_eq (a b : BarType.t) : key_eqb a b = true <-> a = b.
Proof.
  destruct a as [sa [pa ta ra]], b as [sb [pb tb rb]].
  unfold key_eqb at 1, BarType_EqKey, BarType.eqb, BarSpecification.eqb. simpl.
  rewrite !andb_true_iff, Symbol_eqb_eq, Z.eqb_eq, BarStructure_eqb_eq, PriceType_eqb_eq.
  split.
  - intros (-> & (-> & ->) & ->). reflexivity.
  - intros [= -> -> -> ->]. auto.
Qed.

(** The request a round trip sends is the only one among its effects. *)
Lemma round_trip_sent (m : M live unit) (self : live) (worker : RequestWorker)
  (request_bytes : bytes) (reply : Response -> M live unit) (msg : string)
  (worker' : RequestWorker) (request_bytes' : bytes) :
  reply_sound reply ->
  m self = round_trip worker request_bytes reply (announced msg self) ->
  In (Send worker' request_bytes') (effects_of m self) ->
  worker' = worker /\ request_bytes' = request_bytes.
Proof.
  intros RS E HIn. unfold round_trip in E.
  specialize (RS (response_deserialize (service_reply worker request_bytes))
                 (emit (Send worker request_bytes) (announced msg self))).
  assert (T : exists effects,
             LiveDataClient.trace (snd (m self))
             = LiveDataClient.trace self ++ [Log INFO msg; Send worker request_bytes] ++ effects
             /\ no_send effects).
  { destruct (socket_fault (Send worker request_bytes)).
    - exists []. rewrite E. split; [apply trace_sent | intros ? ? []].
    - destruct (is_rejection (response_deserialize (service_reply worker request_bytes))).
      + eexists [_]. rewrite E, RS. cbn [snd].
        rewrite trace_emit, trace_sent, <- app_assoc.
        split; [reflexivity | intros ? ? [D | []]; discriminate D].
      + destruct RS as (effects & T & NS). exists effects.
        rewrite E, T, trace_sent, <- app_assoc. split; [reflexivity | exact NS]. }
  destruct T as (effects & T & NS).
  rewrite (effects_of_app _ _ _ T) in HIn.
  destruct HIn as [D | [D | HIn]]; [discriminate D | | destruct (NS _ _ HIn)].
  injection D as -> ->. split; reflexivity.
Qed.

(** C6 (as amended). A call of [request_ticks] (of [request_bars] for a
    bar type that is not tick-structured) with its arguments present, a
    limit that is not negative and a callable callback announces its
    request and sends it. Take a data reply whose metadata names a
    subject. When the symbol (the bar type) the cache gives for that
    subject is not the requested one, the call raises [AssertionError]
    and does nothing more: the callback is not called. When it is the
    requested one, the items of the reply are read next: if the reply
    carries them, the call returns and its last effect is the call of
    the callback with the decoded items; if it has no entry for them,
    the call raises [KeyError] and the callback is not called. *)
Theorem subject_is_checked_before_callback :
  (forall (symbol : Symbol.t) (from_date to_date : date) (limit : Z) (callback : Callable)
          (self : live),
     let m := LiveDataClient.request_ticks (Some symbol) (Some from_date) (Some to_date)
                limit (PyCallable callback) in
     0 <= limit ->
     exists msg request_bytes rest,
       effects_of m self = Log INFO msg :: Send TickReqWorker request_bytes :: rest
       /\ forall (response_data : bytes) (metadata : list (string * string)) (key : string),
            let received :=
              fst (LiveDataClient.ObjectCache_get Symbol.from_string key
                     (LiveDataClient._cached_symbols self)) in
            socket_fault (Send TickReqWorker request_bytes) = false ->
            response_deserialize (service_reply TickReqWorker request_bytes)
            = DataResponse response_data ->
            Payload.metadata (data_deserialize response_data) = Some metadata ->
            dict_get SYMBOL metadata = Some key ->
            (received <> symbol -> fst (m self) = Raise AssertionError /\ rest = [])
            /\ (received = symbol ->
                match Payload.data (data_deserialize response_data) with
                | Some items =>
                    fst (m self) = Ok tt
                    /\ rest
                       = [Call callback
                            (ArgTicks (tick_deserialize_bytes_list received items))]
                | None => fst (m self) = Raise KeyError /\ rest = []
                end))
  /\ (forall (bar_type : BarType.t) (from_date to_date : date) (limit : Z)
             (callback : Callable) (self : live),
        let m := LiveDataClient.request_bars (Some bar_type) (Some from_date) (Some to_date)
                   limit (PyCallable callback) in
        0 <= limit ->
        BarSpecification.structure (BarType.specification bar_type) <> TICK ->
        exists msg request_bytes rest,
          effects_of m self = Log INFO msg :: Send BarReqWorker request_bytes :: rest
          /\ forall (response_data : bytes) (metadata : list (string * string))
                    (key_symbol key_specification : string),
               let received :=
                 fst (LiveDataClient.ObjectCache_get BarType_from_string
                        (String.concat "" [key_symbol; "-"; key_specification])
                        (LiveDataClient._cached_bar_types self)) in
               socket_fault (Send BarReqWorker request_bytes) = false ->
               response_deserialize (service_reply BarReqWorker request_bytes)
               = DataResponse response_data ->
               Payload.metadata (data_deserialize response_data) = Some metadata ->
               dict_get SYMBOL metadata = Some key_symbol ->
               dict_get SPECIFICATION metadata = Some key_specification ->
               (received <> bar_type -> fst (m self) = Raise AssertionError /\ rest = [])
               /\ (received = bar_type ->
                   match Payload.data (data_deserialize response_data) with
                   | Some items =>
                       fst (m self) = Ok tt
                       /\ rest
                          = [Call callback
                               (ArgBars received (bar_deserialize_bytes_list items))]
                   | None => fst (m self) = Raise KeyError /\ rest = []
                   end)).
Proof.
  split.
  - intros symbol from_date to_date limit callback self m L.
    destruct (request_ticks_run symbol from_date to_date limit callback self L)
      as (msg & rb & E).
    fold m in E.
    destruct (round_trip_effects m self _ _ _ _ (ticks_reply_sound symbol callback) E)
      as (rest & EF).
    exists msg, rb, rest. split; [exact EF |].
    intros response_data metadata key received NF RESP META KEY.
    unfold round_trip in E. rewrite NF, RESP, ticks_reply_data, META, KEY in E.
    cbv zeta in E.
    change (LiveDataClient._cached_symbols (emit (Send TickReqWorker rb) (announced msg self)))
      with (LiveDataClient._cached_symbols self) in E.
    fold received in E.
    split.
    + intros NE.
      assert (B : key_eqb received symbol = false).
      { destruct (key_eqb received symbol) eqn:B; [| reflexivity].
        apply Symbol_eqb_eq in B. contradiction. }
      rewrite B in E. split; [rewrite E; reflexivity |].
      rewrite (effects_of_app m self [Log INFO msg; Send TickReqWorker rb]) in EF
        by (rewrite E; apply trace_sent).
      injection EF as <-. reflexivity.
    + intros EQ.
      assert (B : key_eqb received symbol = true) by (apply Symbol_eqb_eq, EQ).
      rewrite B in E.
      destruct (Payload.data (data_deserialize response_data)) as [items |].
      * split; [rewrite E; reflexivity |].
        rewrite (effects_of_app m self
                   [Log INFO msg; Send TickReqWorker rb;
                    Call callback (ArgTicks (tick_deserialize_bytes_list received items))])
          in EF.
        -- injection EF as <-. reflexivity.
        -- rewrite E. cbn [snd]. rewrite trace_emit.
           change (LiveDataClient.trace (LiveDataClient.set_cached_symbols _ ?s))
             with (LiveDataClient.trace s).
           rewrite trace_sent, <- app_assoc. reflexivity.
      * split; [rewrite E; reflexivity |].
        rewrite (effects_of_app m self [Log INFO msg; Send TickReqWorker rb]) in EF
          by (rewrite E; apply trace_sent).
        injection EF as <-. reflexivity.
  - intros bar_type from_date to_date limit callback self m L NT.
    destruct (request_bars_run bar_type from_date to_date limit callback self L NT)
      as (msg & rb & E).
    fold m in E.
    destruct (round_trip_effects m self _ _ _ _ (bars_reply_sound bar_type callback) E)
      as (rest & EF).
    exists msg, rb, rest. split; [exact EF |].
    intros response_data metadata key_symbol key_specification received NF RESP META KS KSP.
    unfold round_trip in E. rewrite NF, RESP, bars_reply_data, META, KS, KSP in E.
    cbv zeta in E.
    change (LiveDataClient._cached_bar_types (emit (Send BarReqWorker rb) (announced msg self)))
      with (LiveDataClient._cached_bar_types self) in E.
    fold received in E.
    split.
    + intros NE.
      assert (B : key_eqb received bar_type = false).
      { destruct (key_eqb received bar_type) eqn:B; [| reflexivity].
        apply BarType_eqb_eq in B. contradiction. }
      rewrite B in E. split; [rewrite E; reflexivity |].
      rewrite (effects_of_app m self [Log INFO msg; Send BarReqWorker rb]) in EF
        by (rewrite E; apply trace_sent).
      injection EF as <-. reflexivity.
    + intros EQ.
      assert (B : key_eqb received bar_type = true) by (apply BarType_eqb_eq, EQ).
      rewrite B in E.
      destruct (Payload.data (data_deserialize response_data)) as [items |].
      * split; [rewrite E; reflexivity |].
        rewrite (effects_of_app m self
                   [Log INFO msg; Send BarReqWorker rb;
                    Call callback (ArgBars received (bar_deserialize_bytes_list items))])
          in EF.
        -- injection EF as <-. reflexivity.
        -- rewrite E. cbn [snd]. rewrite trace_emit.
           change (LiveDataClient.trace (LiveDataClient.set_cached_bar_types _ ?s))
             with (LiveDataClient.trace s).
           rewrite trace_sent, <- app_assoc. reflexivity.
      * split; [rewrite E; reflexivity |].
        rewrite (effects_of_app m self [Log INFO msg; Send BarReqWorker rb]) in EF
          by (rewrite E; apply trace_sent).
        injection EF as <-. reflexivity.
Qed.

(** *** Subscribing and unsubscribing *)

Lemma handlers_of_registry_add {K : Type} `{EqKey K} (k : K) (h : Callable)
  (table : list (K * list Callable)) :
  key_eqb k k = true -> In h (DataClient.handlers_of k (DataClient.registry_add k h table)).
Proof.
  intros R. unfold DataClient.handlers_of, DataClient.registry_add.
  destruct (dict_get k table) as [handlers |].
  - rewrite (dict_get_set_same k (handlers ++ [h]) table R).
    apply in_or_app. right. left. reflexivity.
  - rewrite (dict_get_set_same k [h] table R). left. reflexivity.
Qed.

Lemma BarType_eqb_refl (a : BarType.t) : key_eqb a a = true.
Proof. apply BarType_eqb_eq. reflexivity. Qed.

(** The client with its tick (bar, instrument) handler table replaced. *)
Definition with_tick_handlers (f : list (Symbol.t * list Callable) -> list (Symbol.t * list Callable))
  (self : live) : live :=
  LiveDataClient.set_base
    (DataClient.set_tick_handlers (f (DataClient._tick_handlers (LiveDataClient.base self)))
       (LiveDataClient.base self)) self.

Definition with_bar_handlers (f : list (BarType.t * list Callable) -> list (BarType.t * list Callable))
  (self : live) : live :=
  LiveDataClient.set_base
    (DataClient.set_bar_handlers (f (DataClient._bar_handlers (LiveDataClient.base self)))
       (LiveDataClient.base self)) self.

Definition with_instrument_handlers
  (f : list (Symbol.t * list Callable) -> list (Symbol.t * list Callable))
  (self : live) : live :=
  LiveDataClient.set_base
    (DataClient.set_instrument_handlers
       (f (DataClient._instrument_handlers (LiveDataClient.base self)))
       (LiveDataClient.base self)) self.

Lemma add_tick_handler_run (symbol : Symbol.t) (h : Callable) (self : live) :
  LiveDataClient.super (DataClient._add_tick_handler symbol h) self
  = (Ok tt, emit (AddHandler (TickKey symbol) h)
              (with_tick_handlers (DataClient.registry_add symbol h) self)).
Proof. reflexivity. Qed.

Lemma add_bar_handler_run (bar_type : BarType.t) (h : Callable) (self : live) :
  LiveDataClient.super (DataClient._add_bar_handler bar_type h) self
  = (Ok tt, emit (AddHandler (BarKey bar_type) h)
              (with_bar_handlers (DataClient.registry_add bar_type h) self)).
Proof. reflexivity. Qed.

Lemma add_instrument_handler_run (symbol : Symbol.t) (h : Callable) (self : live) :
  LiveDataClient.super (DataClient._add_instrument_handler symbol h) self
  = (Ok tt, emit (AddHandler (InstrumentKey symbol) h)
              (with_instrument_handlers (DataClient.registry_add symbol h) self)).
Proof. reflexivity. Qed.

Lemma remove_tick_handler_run (symbol : Symbol.t) (h : Callable) (self : live) :
  LiveDataClient.super (DataClient._remove_tick_handler symbol h) self
  = (Ok tt, emit (RemoveHandler (TickKey symbol) h)
              (with_tick_handlers (DataClient.registry_remove symbol h) self)).
Proof. reflexivity. Qed.

Lemma remove_bar_handler_run (bar_type : BarType.t) (h : Callable) (self : live) :
  LiveDataClient.super (DataClient._remove_bar_handler bar_type h) self
  = (Ok tt, emit (RemoveHandler (BarKey bar_type) h)
              (with_bar_handlers (DataClient.registry_remove bar_type h) self)).
Proof. reflexivity. Qed.

Lemma remove_instrument_handler_run (symbol : Symbol.t) (h : Callable) (self : live) :
  LiveDataClient.super (DataClient._remove_instrument_handler symbol h) self
  = (Ok tt, emit (RemoveHandler (InstrumentKey symbol) h)
              (with_instrument_handlers (DataClient.registry_remove symbol h) self)).
Proof. reflexivity. Qed.

(** A subscription of [h] under [key] followed by a wire subscribe of
    [topic] on [worker]: the registry update is the first effect and the
    subscribe the second, and the subscribe is issued in a state [s1] in
    which the registry already holds the handler. *)
Definition registered_then_subscribed (m : M live unit) (self : live)
  (key : RegistryKey) (h : Callable) (worker : SubscriberWorker) (topic : string)
  (registered : live -> Prop) : Prop :=
  effects_of m self = [AddHandler key h; Subscribe worker topic]
  /\ exists s1,
       LiveDataClient.trace s1 = LiveDataClient.trace self ++ [AddHandler key h]
       /\ registered s1
       /\ m self = LiveDataClient.worker_subscribe worker topic s1.

Lemma subscribed_effects (s1 self : live) (key : RegistryKey) (h : Callable)
  (worker : SubscriberWorker) (topic : string) :
  LiveDataClient.trace s1 = LiveDataClient.trace self ++ [AddHandler key h] ->
  LiveDataClient.trace (snd (LiveDataClient.worker_subscribe worker topic s1))
  = LiveDataClient.trace self ++ [AddHandler key h; Subscribe worker topic].
Proof.
  intros T. rewrite worker_subscribe_run. cbn [snd].
  rewrite trace_emit, T, <- app_assoc. reflexivity.
Qed.

(** A call refused at its boundary: a precondition check raises and the
    client is left exactly as it was. *)
Definition rejected (m : M live unit) (self : live) : Prop :=
  effects_of m self = []
  /\ exists param, m self = (Raise (ConditionFailed param), self).

Lemma rejected_intro (m : M live unit) (self : live) (param : string) :
  m self = (Raise (ConditionFailed param), self) -> rejected m self.
Proof.
  intros E. split; [| exists param; exact E].
  apply effects_of_app. rewrite E. symmetry. apply app_nil_r.
Qed.

(** A handler that is not a callable. *)
Definition not_callable (handler : PyObject) : Prop :=
  forall h, handler <> PyCallable h.

(** C8. Every call of [subscribe_ticks], of [subscribe_bars] with a bar
    type that is not tick-structured, and of [subscribe_instrument]
    with its subject present and a callable handler does this: the
    update of the Handler Registry is its first effect and the wire
    subscribe its second and last, and the wire subscribe is issued in a
    state in which the registry already holds the handler under the key.
    A call with an absent subject or a handler that is not a callable
    is refused at its boundary, with no effect at all. *)
Theorem handler_registered_before_wire_subscribe :
  (forall (s : Symbol.t) (h : Callable) (self : live),
     registered_then_subscribed
       (LiveDataClient.subscribe_ticks (Some s) (PyCallable h)) self
       (TickKey s) h TickSubWorker (Symbol.to_string s)
       (fun s1 => In h (DataClient.handlers_of s
                          (DataClient._tick_handlers (LiveDataClient.base s1)))))
  /\ (forall (b : BarType.t) (h : Callable) (self : live),
        BarSpecification.structure (BarType.specification b) <> TICK ->
        registered_then_subscribed
          (LiveDataClient.subscribe_bars (Some b) (PyCallable h)) self
          (BarKey b) h BarSubWorker (BarType_to_string b)
          (fun s1 => In h (DataClient.handlers_of b
                             (DataClient._bar_handlers (LiveDataClient.base s1)))))
  /\ (forall (s : Symbol.t) (h : Callable) (self : live),
        registered_then_subscribed
          (LiveDataClient.subscribe_instrument (Some s) (PyCallable h)) self
          (InstrumentKey s) h InstSubWorker (Symbol.value s)
          (fun s1 => In h (DataClient.handlers_of s
                             (DataClient._instrument_handlers (LiveDataClient.base s1)))))
  /\ (forall (symbol : option Symbol.t) (bar_type : option BarType.t) (handler : PyObject)
             (self : live),
        not_callable handler ->
        rejected (LiveDataClient.subscribe_ticks symbol handler) self
        /\ rejected (LiveDataClient.subscribe_bars bar_type handler) self
        /\ rejected (LiveDataClient.subscribe_instrument symbol handler) self)
  /\ (forall (handler : PyObject) (self : live),
        rejected (LiveDataClient.subscribe_ticks None handler) self
        /\ rejected (LiveDataClient.subscribe_bars None handler) self
        /\ rejected (LiveDataClient.subscribe_instrument None handler) self).
Proof.
  split; [| split; [| split; [| split]]].
  - intros symbol h self.
    set (m := LiveDataClient.subscribe_ticks (Some symbol) (PyCallable h)).
    assert (E : m self
                = LiveDataClient.worker_subscribe TickSubWorker (Symbol.to_string symbol)
                    (emit (AddHandler (TickKey symbol) h)
                       (with_tick_handlers (DataClient.registry_add symbol h) self))).
    { unfold m, LiveDataClient.subscribe_ticks.
      do 2 (erewrite bind_ok by reflexivity).
      erewrite bind_ok by apply add_tick_handler_run. reflexivity. }
    split.
    + apply effects_of_app. rewrite E. apply subscribed_effects. reflexivity.
    + eexists. split; [| split; [| exact E]].
      * reflexivity.
      * apply (handlers_of_registry_add symbol h), Symbol_eqb_refl.
  - intros bar_type h self NT.
    set (m := LiveDataClient.subscribe_bars (Some bar_type) (PyCallable h)).
    assert (E : m self
                = LiveDataClient.worker_subscribe BarSubWorker (BarType_to_string bar_type)
                    (emit (AddHandler (BarKey bar_type) h)
                       (with_bar_handlers (DataClient.registry_add bar_type h) self))).
    { unfold m, LiveDataClient.subscribe_bars.
      do 2 (erewrite bind_ok by reflexivity).
      destruct (BarSpecification.structure (BarType.specification bar_type));
        try (exfalso; apply NT; reflexivity); cbn [BarStructure_eqb];
        (erewrite bind_ok by apply add_bar_handler_run); reflexivity. }
    split.
    + apply effects_of_app. rewrite E. apply subscribed_effects. reflexivity.
    + eexists. split; [| split; [| exact E]].
      * reflexivity.
      * apply (handlers_of_registry_add bar_type h), BarType_eqb_refl.
  - intros symbol h self.
    set (m := LiveDataClient.subscribe_instrument (Some symbol) (PyCallable h)).
    assert (E : m self
                = LiveDataClient.worker_subscribe InstSubWorker (Symbol.value symbol)
                    (emit (AddHandler (InstrumentKey symbol) h)
                       (with_instrument_handlers (DataClient.registry_add symbol h) self))).
    { unfold m, LiveDataClient.subscribe_instrument.
      do 2 (erewrite bind_ok by reflexivity).
      erewrite bind_ok by apply add_instrument_handler_run. reflexivity. }
    split.
    + apply effects_of_app. rewrite E. apply subscribed_effects. reflexivity.
    + eexists. split; [| split; [| exact E]].
      * reflexivity.
      * apply (handlers_of_registry_add symbol h), Symbol_eqb_refl.
  - intros symbol bar_type handler self NC.
    destruct handler as [| h | other]; [| exfalso; exact (NC h eq_refl) |];
      (split; [| split]);
      try (destruct symbol; eapply rejected_intro; reflexivity);
      destruct bar_type; eapply rejected_intro; reflexivity.
  - intros handler self.
    split; [| split]; eapply rejected_intro; reflexivity.
Qed.

(** An unsubscription: the wire unsubscribe is the first effect. If the
    socket fails the call raises there and the table of the registry is
    untouched; only when the unsubscribe has returned is the handler
    removed, as the second and last effect. *)
Definition unsubscribed_then_removed {K : Type} `{EqKey K} (m : M live unit) (self : live)
  (key : RegistryKey) (k : K) (h : Callable) (worker : SubscriberWorker) (topic : string)
  (table : live -> list (K * list Callable)) : Prop :=
  if socket_fault (Unsubscribe worker topic)
  then fst (m self) = Raise ZMQError
       /\ effects_of m self = [Unsubscribe worker topic]
       /\ table (snd (m self)) = table self
  else fst (m self) = Ok tt
       /\ effects_of m self = [Unsubscribe worker topic; RemoveHandler key h]
       /\ table (snd (m self)) = DataClient.registry_remove k h (table self).

Lemma unsubscribed_then_removed_intro {K : Type} `{EqKey K} (m : M live unit) (self : live)
  (key : RegistryKey) (k : K) (h : Callable) (worker : SubscriberWorker) (topic : string)
  (table : live -> list (K * list Callable)) (after : live -> live) :
  (forall s, LiveDataClient.trace (after s) = LiveDataClient.trace s) ->
  table (emit (Unsubscribe worker topic) self) = table self ->
  table (emit (RemoveHandler key h) (after (emit (Unsubscribe worker topic) self)))
  = DataClient.registry_remove k h (table self) ->
  m self
  = (if socket_fault (Unsubscribe worker topic)
     then (Raise ZMQError, emit (Unsubscribe worker topic) self)
     else (Ok tt, emit (RemoveHandler key h) (after (emit (Unsubscribe worker topic) self)))) ->
  unsubscribed_then_removed m self key k h worker topic table.
Proof.
  intros TA T1 T2 E. unfold unsubscribed_then_removed.
  destruct (socket_fault (Unsubscribe worker topic)).
  - rewrite (effects_of_app m self [Unsubscribe worker topic])
      by (rewrite E; apply trace_emit).
    rewrite E. auto.
  - rewrite (effects_of_app m self [Unsubscribe worker topic; RemoveHandler key h])
      by (rewrite E; cbn [snd]; rewrite trace_emit, TA, trace_emit, <- app_assoc; reflexivity).
    rewrite E. auto.
Qed.

(** C9. Every call of [unsubscribe_ticks], [unsubscribe_bars] and
    [unsubscribe_instrument] with its subject present and a callable
    handler issues the wire unsubscribe first and removes the handler
    from the Handler Registry second, and only if the unsubscribe
    returned: if the socket fails, the call raises there and the
    registry is as it was. A call with an absent subject or a handler
    that is not a callable is refused at its boundary, with no effect
    at all. *)
Theorem wire_unsubscribe_before_handler_removal :
  (forall (s : Symbol.t) (h : Callable) (self : live),
     unsubscribed_then_removed
       (LiveDataClient.unsubscribe_ticks (Some s) (PyCallable h)) self
       (TickKey s) s h TickSubWorker (Symbol.to_string s)
       (fun c => DataClient._tick_handlers (LiveDataClient.base c)))
  /\ (forall (b : BarType.t) (h : Callable) (self : live),
        unsubscribed_then_removed
          (LiveDataClient.unsubscribe_bars (Some b) (PyCallable h)) self
          (BarKey b) b h BarSubWorker (BarType_to_string b)
          (fun c => DataClient._bar_handlers (LiveDataClient.base c)))
  /\ (forall (s : Symbol.t) (h : Callable) (self : live),
        unsubscribed_then_removed
          (LiveDataClient.unsubscribe_instrument (Some s) (PyCallable h)) self
          (InstrumentKey s) s h InstSubWorker (Symbol.value s)
          (fun c => DataClient._instrument_handlers (LiveDataClient.base c)))
  /\ (forall (symbol : option Symbol.t) (bar_type : option BarType.t) (handler : PyObject)
             (self : live),
        not_callable handler ->
        rejected (LiveDataClient.unsubscribe_ticks symbol handler) self
        /\ rejected (LiveDataClient.unsubscribe_bars bar_type handler) self
        /\ rejected (LiveDataClient.unsubscribe_instrument symbol handler) self)
  /\ (forall (handler : PyObject) (self : live),
        rejected (LiveDataClient.unsubscribe_ticks None handler) self
        /\ rejected (LiveDataClient.unsubscribe_bars None handler) self
        /\ rejected (LiveDataClient.unsubscribe_instrument None handler) self).
Proof.
  split; [| split; [| split; [| split]]].
  - intros symbol h self.
    apply unsubscribed_then_removed_intro
      with (after := with_tick_handlers (DataClient.registry_remove symbol h));
      try reflexivity.
    unfold LiveDataClient.unsubscribe_ticks.
    do 2 (erewrite bind_ok by reflexivity).
    destruct (socket_fault (Unsubscribe TickSubWorker (Symbol.to_string symbol))) eqn:F.
    + erewrite bind_raise by (rewrite worker_unsubscribe_run, F; reflexivity). reflexivity.
    + erewrite bind_ok by (rewrite worker_unsubscribe_run, F; reflexivity).
      apply remove_tick_handler_run.
  - intros bar_type h self.
    apply unsubscribed_then_removed_intro
      with (after := with_bar_handlers (DataClient.registry_remove bar_type h));
      try reflexivity.
    unfold LiveDataClient.unsubscribe_bars.
    do 2 (erewrite bind_ok by reflexivity).
    destruct (socket_fault (Unsubscribe BarSubWorker (BarType_to_string bar_type))) eqn:F.
    + erewrite bind_raise by (rewrite worker_unsubscribe_run, F; reflexivity). reflexivity.
    + erewrite bind_ok by (rewrite worker_unsubscribe_run, F; reflexivity).
      apply remove_bar_handler_run.
  - intros symbol h self.
    apply unsubscribed_then_removed_intro
      with (after := with_instrument_handlers (DataClient.registry_remove symbol h));
      try reflexivity.
    unfold LiveDataClient.unsubscribe_instrument.
    do 2 (erewrite bind_ok by reflexivity).
    destruct (socket_fault (Unsubscribe InstSubWorker (Symbol.value symbol))) eqn:F.
    + erewrite bind_raise by (rewrite worker_unsubscribe_run, F; reflexivity). reflexivity.
    + erewrite bind_ok by (rewrite worker_unsubscribe_run, F; reflexivity).
      apply remove_instrument_handler_run.
  - intros symbol bar_type handler self NC.
    destruct handler as [| h | other]; [| exfalso; exact (NC h eq_refl) |];
      (split; [| split]);
      try (destruct symbol; eapply rejected_intro; reflexivity);
      destruct bar_type; eapply rejected_intro; reflexivity.
  - intros handler self.
    split; [| split]; eapply rejected_intro; reflexivity.
Qed.

(** *** Tick-structured bar subscriptions *)

Lemma handle_bar_run (bar_type : BarType.t) (bar : Bar.t) (b : DataClient.t) :
  DataClient._handle_bar bar_type bar b
  = (Ok tt,
     DataClient.set_trace
       (DataClient.trace b
        ++ map (fun h => Call h (ArgBar bar_type bar))
             (DataClient.handlers_of bar_type (DataClient._bar_handlers b))) b).
Proof.
  unfold DataClient._handle_bar, DataClient.handlers_of, bind, gets.
  destruct (dict_get bar_type (DataClient._bar_handlers b)) as [hs |].
  - apply (for_each_call (fun h => h) (fun _ => ArgBar bar_type bar)).
  - unfold ret. simpl. rewrite set_trace_same. reflexivity.
Qed.

Lemma handle_tick_effects (tick : Tick.t) (self : live) :
  effects_of (LiveDataClient.super (DataClient._handle_tick tick)) self
  = map (fun h => Call h (ArgTick tick))
      (DataClient.handlers_of (Tick.symbol tick)
         (DataClient._tick_handlers (LiveDataClient.base self))).
Proof.
  apply effects_of_app. unfold LiveDataClient.super, lift.
  rewrite handle_tick_run. reflexivity.
Qed.

Lemma handle_bar_effects (bar_type : BarType.t) (bar : Bar.t) (self : live) :
  effects_of (LiveDataClient.super (DataClient._handle_bar bar_type bar)) self
  = map (fun h => Call h (ArgBar bar_type bar))
      (DataClient.handlers_of bar_type (DataClient._bar_handlers (LiveDataClient.base self))).
Proof.
  apply effects_of_app. unfold LiveDataClient.super, lift.
  rewrite handle_bar_run. reflexivity.
Qed.

(** The client with the aggregator for [bar_type] in place. *)
Definition with_aggregator (bar_type : BarType.t) (self : live) : live :=
  LiveDataClient.set_base
    (DataClient.set_bar_aggregators
       (dict_set bar_type (TickBarAggregator.Build bar_type SelfHandleBar)
          (DataClient._bar_aggregators (LiveDataClient.base self)))
       (LiveDataClient.base self)) self.

(** The client once the aggregator's [update] is subscribed to the ticks
    of the bar type's symbol. *)
Definition tick_driven (bar_type : BarType.t) (self : live) : live :=
  emit (Subscribe TickSubWorker (Symbol.to_string (BarType.symbol bar_type)))
    (emit (AddHandler (TickKey (BarType.symbol bar_type)) (AggregatorUpdate bar_type))
       (with_tick_handlers
          (DataClient.registry_add (BarType.symbol bar_type) (AggregatorUpdate bar_type))
          (with_aggregator bar_type self))).

Lemma subscribe_tick_bars_run (bar_type : BarType.t) (h : Callable) (self : live) :
  BarSpecification.structure (BarType.specification bar_type) = TICK ->
  LiveDataClient.subscribe_bars (Some bar_type) (PyCallable h) self
  = if socket_fault (Subscribe TickSubWorker (Symbol.to_string (BarType.symbol bar_type)))
    then (Raise ZMQError, tick_driven bar_type self)
    else (Ok tt,
          emit (AddHandler (BarKey bar_type) h)
            (with_bar_handlers (DataClient.registry_add bar_type h)
               (tick_driven bar_type self))).
Proof.
  intros T. unfold LiveDataClient.subscribe_bars.
  do 2 (erewrite bind_ok by reflexivity).
  rewrite T. cbn [BarStructure_eqb].
  unfold LiveDataClient._self_generate_bars.
  erewrite bind_ok by reflexivity.
  fold (with_aggregator bar_type self).
  assert (S : LiveDataClient.subscribe_ticks (Some (BarType.symbol bar_type))
                (PyCallable (AggregatorUpdate bar_type)) (with_aggregator bar_type self)
              = (if socket_fault
                      (Subscribe TickSubWorker (Symbol.to_string (BarType.symbol bar_type)))
                 then Raise ZMQError else Ok tt,
                 tick_driven bar_type self)).
  { unfold LiveDataClient.subscribe_ticks.
    do 2 (erewrite bind_ok by reflexivity).
    erewrite bind_ok by apply add_tick_handler_run.
    apply worker_subscribe_run. }
  destruct (socket_fault (Subscribe TickSubWorker (Symbol.to_string (BarType.symbol bar_type)))).
  - erewrite bind_raise by exact S. reflexivity.
  - erewrite bind_ok by exact S. apply add_bar_handler_run.
Qed.

Lemma trace_tick_driven (bar_type : BarType.t) (self : live) :
  LiveDataClient.trace (tick_driven bar_type self)
  = LiveDataClient.trace self
    ++ [AddHandler (TickKey (BarType.symbol bar_type)) (AggregatorUpdate bar_type);
        Subscribe TickSubWorker (Symbol.to_string (BarType.symbol bar_type))].
Proof.
  unfold tick_driven. rewrite !trace_emit, <- app_assoc. reflexivity.
Qed.

Lemma subscribe_wall_clock_bars_run (bar_type : BarType.t) (h : Callable) (self : live) :
  BarSpecification.structure (BarType.specification bar_type) <> TICK ->
  LiveDataClient.subscribe_bars (Some bar_type) (PyCallable h) self
  = LiveDataClient.worker_subscribe BarSubWorker (BarType_to_string bar_type)
      (emit (AddHandler (BarKey bar_type) h)
         (with_bar_handlers (DataClient.registry_add bar_type h) self)).
Proof.
  intros NT. unfold LiveDataClient.subscribe_bars.
  do 2 (erewrite bind_ok by reflexivity).
  destruct (BarSpecification.structure (BarType.specification bar_type));
    try (exfalso; apply NT; reflexivity); cbn [BarStructure_eqb];
    (erewrite bind_ok by apply add_bar_handler_run); reflexivity.
Qed.

(** C7. A call of [subscribe_bars] for a tick-structured bar type issues
    no subscribe on the bar publish/subscribe channel. It sets up a
    [TickBarAggregator] for the bar type that forwards its bars to
    [_handle_bar], subscribes the aggregator's [update] to the ticks of
    the bar type's symbol (locally and on the tick channel), and
    registers the handler for the bar type: from then on a tick of that
    symbol is dispatched to the aggregator, and a bar the aggregator
    hands to [_handle_bar] is dispatched to the handler. For any other
    structure the call issues the subscribe on the bar channel. *)
Theorem tick_bars_are_aggregated_locally (bar_type : BarType.t) (h : Callable) (self : live) :
  let m := LiveDataClient.subscribe_bars (Some bar_type) (PyCallable h) in
  let after := snd (m self) in
  (BarSpecification.structure (BarType.specification bar_type) = TICK ->
   (forall topic, ~ In (Subscribe BarSubWorker topic) (effects_of m self))
   /\ dict_get bar_type (DataClient._bar_aggregators (LiveDataClient.base after))
      = Some (TickBarAggregator.Build bar_type SelfHandleBar)
   /\ In (Subscribe TickSubWorker (Symbol.to_string (BarType.symbol bar_type)))
         (effects_of m self)
   /\ (forall tick,
         Tick.symbol tick = BarType.symbol bar_type ->
         In (Call (AggregatorUpdate bar_type) (ArgTick tick))
            (effects_of (LiveDataClient.super (DataClient._handle_tick tick)) after))
   /\ (fst (m self) = Ok tt ->
       forall bar,
         In (Call h (ArgBar bar_type bar))
            (effects_of (LiveDataClient.super (DataClient._handle_bar bar_type bar)) after)))
  /\ (BarSpecification.structure (BarType.specification bar_type) <> TICK ->
      In (Subscribe BarSubWorker (BarType_to_string bar_type)) (effects_of m self)).
Proof.
  cbv zeta. split.
  - intros T. rewrite (subscribe_tick_bars_run bar_type h self T).
    assert (AGG : forall s,
              dict_get bar_type
                (DataClient._bar_aggregators (LiveDataClient.base (with_aggregator bar_type s)))
              = Some (TickBarAggregator.Build bar_type SelfHandleBar)).
    { intros s. apply dict_get_set_same, BarType_eqb_refl. }
    assert (UPD : forall tick s,
              Tick.symbol tick = BarType.symbol bar_type ->
              In (AggregatorUpdate bar_type)
                 (DataClient.handlers_of (Tick.symbol tick)
                    (DataClient.registry_add (BarType.symbol bar_type)
                       (AggregatorUpdate bar_type) s))).
    { intros tick s ->. apply handlers_of_registry_add, Symbol_eqb_refl. }
    destruct (socket_fault (Subscribe TickSubWorker (Symbol.to_string (BarType.symbol bar_type))))
      eqn:F.
    + rewrite (effects_of_app (LiveDataClient.subscribe_bars (Some bar_type) (PyCallable h)) self
                 [AddHandler (TickKey (BarType.symbol bar_type)) (AggregatorUpdate bar_type);
                  Subscribe TickSubWorker (Symbol.to_string (BarType.symbol bar_type))])
        by (rewrite (subscribe_tick_bars_run bar_type h self T), F; apply trace_tick_driven).
      cbn [fst snd]. repeat split.
      * intros topic [D | [D | []]]; discriminate D.
      * apply AGG.
      * right. left. reflexivity.
      * intros tick TS. rewrite handle_tick_effects.
        apply (in_map (fun h0 => Call h0 (ArgTick tick))). apply UPD, TS.
      * intros D. discriminate D.
    + rewrite (effects_of_app (LiveDataClient.subscribe_bars (Some bar_type) (PyCallable h)) self
                 [AddHandler (TickKey (BarType.symbol bar_type)) (AggregatorUpdate bar_type);
                  Subscribe TickSubWorker (Symbol.to_string (BarType.symbol bar_type));
                  AddHandler (BarKey bar_type) h])
        by (rewrite (subscribe_tick_bars_run bar_type h self T), F; cbn [snd];
            rewrite trace_emit;
            change (LiveDataClient.trace (with_bar_handlers _ ?s)) with (LiveDataClient.trace s);
            rewrite trace_tick_driven, <- app_assoc; reflexivity).
      cbn [fst snd]. repeat split.
      * intros topic [D | [D | [D | []]]]; discriminate D.
      * apply AGG.
      * right. left. reflexivity.
      * intros tick TS. rewrite handle_tick_effects.
        apply (in_map (fun h0 => Call h0 (ArgTick tick))). apply UPD, TS.
      * intros _ bar. rewrite handle_bar_effects.
        apply (in_map (fun h0 => Call h0 (ArgBar bar_type bar))).
        apply (handlers_of_registry_add bar_type h), BarType_eqb_refl.
  - intros NT.
    rewrite (effects_of_app (LiveDataClient.subscribe_bars (Some bar_type) (PyCallable h)) self
               [AddHandler (BarKey bar_type) h;
                Subscribe BarSubWorker (BarType_to_string bar_type)]).
    + right. left. reflexivity.
    + rewrite (subscribe_wall_clock_bars_run bar_type h self NT).
      apply subscribed_effects. reflexivity.
Qed.

End LiveSteps.

(** ** Closed instances *)

(** A data service for closed examples. The request codec writes the
    subject of the query (the value under [SYMBOL]) as bytes. The service
    rejects every instrument request; it answers a tick or bar request
    with the data of the requested subject, except that it answers with
    [AUDUSD] data when asked for [GBPUSD]. No socket operation fails. *)
Module LiveFixtures.

Definition AUDUSD : Symbol.t := Symbol.Build "AUDUSD.FXCM".
Definition GBPUSD : Symbol.t := Symbol.Build "GBPUSD.FXCM".

Definition minute_bid : BarSpecification.t := BarSpecification.Build 1 MINUTE BID.
Definition tick_bid : BarSpecification.t := BarSpecification.Build 100 TICK BID.

Definition AUDUSD_minute : BarType.t := BarType.Build AUDUSD minute_bid.
Definition GBPUSD_minute : BarType.t := BarType.Build GBPUSD minute_bid.
Definition AUDUSD_ticks100 : BarType.t := BarType.Build AUDUSD tick_bid.

Definition structure_name (s : BarStructure) : string :=
  match s with
  | UNKNOWN => "UNKNOWN" | TICK => "TICK" | SECOND => "SECOND"
  | MINUTE => "MINUTE" | HOUR => "HOUR"
  end.

Definition price_type_name (p : PriceType) : string :=
  match p with BID => "BID" | ASK => "ASK" | MID => "MID" | LAST => "LAST" end.

Definition decimal (z : Z) : string := NilZero.string_of_int (Z.to_int z).

Definition specification_name (s : BarSpecification.t) : string :=
  String.concat "-" [decimal (BarSpecification.step s);
                     structure_name (BarSpecification.structure s);
                     price_type_name (BarSpecification.price_type s)].

Definition bar_type_name (b : BarType.t) : string :=
  String.concat "-" [Symbol.value (BarType.symbol b);
                     specification_name (BarType.specification b)].

(** The bar types the demo parser knows; any other string parses to a
    minute bar type of the symbol named by the whole string. *)
Definition bar_type_of_name (s : string) : BarType.t :=
  if String.eqb s (bar_type_name AUDUSD_minute) then AUDUSD_minute
  else if String.eqb s (bar_type_name GBPUSD_minute) then GBPUSD_minute
  else if String.eqb s (bar_type_name AUDUSD_ticks100) then AUDUSD_ticks100
  else BarType.Build (Symbol.Build s) minute_bid.

Definition subject_of (request : DataRequest.t) : string :=
  match dict_get "Symbol" (DataRequest.query request) with
  | Some s => s
  | None => ""
  end.

Definition service (worker : RequestWorker) (request_bytes : bytes) : bytes :=
  match worker with
  | InstReqWorker => []
  | TickReqWorker | BarReqWorker =>
      if String.eqb (string_of_list_byte request_bytes) (Symbol.value GBPUSD)
      then list_byte_of_string (Symbol.value AUDUSD)
      else request_bytes
  end.

Definition decode_response (response_bytes : bytes) : Response :=
  match response_bytes with
  | [] => MessageRejected "rejected by the service"
  | _ :: _ => DataResponse response_bytes
  end.

Definition decode_data (data : bytes) : Payload.t :=
  Payload.Build
    (Some [("Symbol", string_of_list_byte data); ("Specification", specification_name minute_bid)])
    (Some [data; data]).

Definition describe (response : Response) : string :=
  match response with
  | MessageRejected message => String.concat "" ["MessageRejected("; message; ")"]
  | QueryFailure message => String.concat "" ["QueryFailure("; message; ")"]
  | DataResponse _ => "DataResponse"
  end.

Definition collaborators : Collaborators := {|
  DATA_TYPE := "DataType";
  SYMBOL := "Symbol";
  VENUE := "Venue";
  SPECIFICATION := "Specification";
  FROM_DATE := "FromDate";
  TO_DATE := "ToDate";
  LIMIT := "Limit";
  str_date := decimal;
  str_int := decimal;
  str_response := describe;
  BarSpecification_to_string := specification_name;
  BarType_to_string := bar_type_name;
  BarType_from_string := bar_type_of_name;
  request_serialize := fun request => list_byte_of_string (subject_of request);
  response_deserialize := decode_response;
  data_deserialize := decode_data;
  instrument_deserialize := fun data => Instrument.Build (Symbol.Build (string_of_list_byte data)) 5;
  tick_deserialize := fun symbol data => Tick.Build symbol 0 0 0;
  tick_deserialize_bytes_list :=
    fun symbol items => map (fun _ => Tick.Build symbol 0 0 0) items;
  bar_deserialize := fun data => Bar.Build 0 0 0 0 0;
  bar_deserialize_bytes_list := fun items => map (fun _ => Bar.Build 0 0 0 0 0) items;
  wall_clock := fun n => Z.of_nat n;
  service_reply := service;
  socket_fault := fun _ => false
|}.

End LiveFixtures.

(** Other data services for closed examples: the collaborators of
    [LiveFixtures] with another service behind the sockets. *)
Module WireFixtures.

Definition with_wire (base : Collaborators) (reply : RequestWorker -> bytes -> bytes)
  (fault : Effect -> bool) : Collaborators := {|
  DATA_TYPE := @DATA_TYPE base;
  SYMBOL := @SYMBOL base;
  VENUE := @VENUE base;
  SPECIFICATION := @SPECIFICATION base;
  FROM_DATE := @FROM_DATE base;
  TO_DATE := @TO_DATE base;
  LIMIT := @LIMIT base;
  str_date := @str_date base;
  str_int := @str_int base;
  str_response := @str_response base;
  BarSpecification_to_string := @BarSpecification_to_string base;
  BarType_to_string := @BarType_to_string base;
  BarType_from_string := @BarType_from_string base;
  request_serialize := @request_serialize base;
  response_deserialize := @response_deserialize base;
  data_deserialize := @data_deserialize base;
  instrument_deserialize := @instrument_deserialize base;
  tick_deserialize := @tick_deserialize base;
  tick_deserialize_bytes_list := @tick_deserialize_bytes_list base;
  bar_deserialize := @bar_deserialize base;
  bar_deserialize_bytes_list := @bar_deserialize_bytes_list base;
  wall_clock := @wall_clock base;
  service_reply := reply;
  socket_fault := fault
|}.

(** A service that answers every request with [AUDUSD] data. *)
Definition answering : Collaborators :=
  with_wire LiveFixtures.collaborators
    (fun _ _ => list_byte_of_string "AUDUSD.FXCM") (fun _ => false).


(** A service that rejects every request. *)
Definition rejecting : Collaborators :=
  with_wire LiveFixtures.collaborators (fun _ _ => []) (fun _ => false).

(** The collaborators [base] with another data codec. *)
Definition with_data_codec (base : Collaborators) (decode : bytes -> Payload.t)
  : Collaborators := {|
  DATA_TYPE := @DATA_TYPE base;
  SYMBOL := @SYMBOL base;
  VENUE := @VENUE base;
  SPECIFICATION := @SPECIFICATION base;
  FROM_DATE := @FROM_DATE base;
  TO_DATE := @TO_DATE base;
  LIMIT := @LIMIT base;
  str_date := @str_date base;
  str_int := @str_int base;
  str_response := @str_response base;
  BarSpecification_to_string := @BarSpecification_to_string base;
  BarType_to_string := @BarType_to_string base;
  BarType_from_string := @BarType_from_string base;
  request_serialize := @request_serialize base;
  response_deserialize := @response_deserialize base;
  data_deserialize := decode;
  instrument_deserialize := @instrument_deserialize base;
  tick_deserialize := @tick_deserialize base;
  tick_deserialize_bytes_list := @tick_deserialize_bytes_list base;
  bar_deserialize := @bar_deserialize base;
  bar_deserialize_bytes_list := @bar_deserialize_bytes_list base;
  wall_clock := @wall_clock base;
  service_reply := @service_reply base;
  socket_fault := @socket_fault base
|}.

(** A service that answers every request with [AUDUSD] metadata and no
    items: the decoded reply has no entry under [DATA]. *)
Definition without_items : Collaborators :=
  with_data_codec answering
    (fun data =>
       Payload.Build
         (Some [("Symbol", string_of_list_byte data);
                ("Specification", LiveFixtures.specification_name LiveFixtures.minute_bid)])
         None).

End WireFixtures.

#[local] Existing Instance LiveFixtures.collaborators.

(** C4, witness: a request for ticks and a request for bars with limit -1. *)
Lemma negative_limit_fails_before_io_witness :
  -1 < 0
  /\ (exists param,
        LiveDataClient.request_ticks (Some LiveFixtures.AUDUSD) (Some 18262) (Some 18263) (-1)
          (PyCallable (Fn 1)) LiveDataClient.fresh
        = (Raise (ConditionFailed param), LiveDataClient.fresh))
  /\ (exists param,
        LiveDataClient.request_bars (Some LiveFixtures.AUDUSD_minute) (Some 18262) (Some 18263)
          (-1) (PyCallable (Fn 1)) LiveDataClient.fresh
        = (Raise (ConditionFailed param), LiveDataClient.fresh)).
Proof.
  split; [reflexivity |].
  apply (negative_limit_fails_before_io (-1) (Some LiveFixtures.AUDUSD)
           (Some LiveFixtures.AUDUSD_minute) (Some 18262) (Some 18263) (PyCallable (Fn 1))
           LiveDataClient.fresh).
  reflexivity.
Defined.

(** C5, witness: the four requests, sent to a service that rejects every
    request. *)
Lemma rejection_is_logged_not_raised_witness :
  0 <= 10
  /\ BarSpecification.structure (BarType.specification LiveFixtures.AUDUSD_minute) <> TICK
  /\ (exists msg request_bytes,
        fst (LiveDataClient.request_ticks (H := WireFixtures.rejecting)
               (Some LiveFixtures.AUDUSD) (Some 18262) (Some 18263) 10 (PyCallable (Fn 1))
               LiveDataClient.fresh) = Ok tt
        /\ effects_of
             (LiveDataClient.request_ticks (H := WireFixtures.rejecting)
                (Some LiveFixtures.AUDUSD) (Some 18262) (Some 18263) 10 (PyCallable (Fn 1)))
             LiveDataClient.fresh
           = [Log INFO msg; Send TickReqWorker request_bytes;
              Log ERROR "MessageRejected(rejected by the service)"])
  /\ (exists msg request_bytes,
        fst (LiveDataClient.request_bars (H := WireFixtures.rejecting)
               (Some LiveFixtures.AUDUSD_minute) (Some 18262) (Some 18263) 10
               (PyCallable (Fn 1)) LiveDataClient.fresh) = Ok tt
        /\ effects_of
             (LiveDataClient.request_bars (H := WireFixtures.rejecting)
                (Some LiveFixtures.AUDUSD_minute) (Some 18262) (Some 18263) 10
                (PyCallable (Fn 1)))
             LiveDataClient.fresh
           = [Log INFO msg; Send BarReqWorker request_bytes;
              Log ERROR "MessageRejected(rejected by the service)"])
  /\ (exists msg request_bytes,
        fst (LiveDataClient.request_instrument (H := WireFixtures.rejecting)
               (Some LiveFixtures.GBPUSD) (PyCallable (Fn 1)) LiveDataClient.fresh) = Ok tt
        /\ effects_of
             (LiveDataClient.request_instrument (H := WireFixtures.rejecting)
                (Some LiveFixtures.GBPUSD) (PyCallable (Fn 1)))
             LiveDataClient.fresh
           = [Log INFO msg; Send InstReqWorker request_bytes;
              Log ERROR "MessageRejected(rejected by the service)"])
  /\ (exists msg request_bytes,
        fst (LiveDataClient.request_instruments (H := WireFixtures.rejecting)
               (Venue.Build "FXCM") (PyCallable (Fn 1)) LiveDataClient.fresh) = Ok tt
        /\ effects_of
             (LiveDataClient.request_instruments (H := WireFixtures.rejecting)
                (Venue.Build "FXCM") (PyCallable (Fn 1)))
             LiveDataClient.fresh
           = [Log INFO msg; Send InstReqWorker request_bytes;
              Log ERROR "MessageRejected(rejected by the service)"]).
Proof.
  assert (L : 0 <= 10) by lia.
  assert (NT : BarSpecification.structure (BarType.specification LiveFixtures.AUDUSD_minute)
               <> TICK) by discriminate.
  destruct (@rejection_is_logged_not_raised WireFixtures.rejecting)
    as (TICKS & BARS & ONE & ALL & _).
  split; [exact L |]. split; [exact NT |]. split; [| split; [| split]].
  - destruct (TICKS LiveFixtures.AUDUSD 18262 18263 10 (Fn 1) LiveDataClient.fresh L)
      as (msg & rb & rest & EF & R).
    destruct (R eq_refl eq_refl) as (OK & -> & _).
    exists msg, rb. split; [exact OK | exact EF].
  - destruct (BARS LiveFixtures.AUDUSD_minute 18262 18263 10 (Fn 1) LiveDataClient.fresh L NT)
      as (msg & rb & rest & EF & R).
    destruct (R eq_refl eq_refl) as (OK & -> & _).
    exists msg, rb. split; [exact OK | exact EF].
  - destruct (ONE LiveFixtures.GBPUSD (Fn 1) LiveDataClient.fresh)
      as (msg & rb & rest & EF & R).
    destruct (R eq_refl eq_refl) as (OK & -> & _).
    exists msg, rb. split; [exact OK | exact EF].
  - destruct (ALL (Venue.Build "FXCM") (Fn 1) LiveDataClient.fresh)
      as (msg & rb & rest & EF & R).
    destruct (R eq_refl eq_refl) as (OK & -> & _).
    exists msg, rb. split; [exact OK | exact EF].
Defined.

(** C6, witness: a service that answers every request with [AUDUSD] data.
    A request for [GBPUSD] ticks (minute bars) meets the wrong subject;
    a request for [AUDUSD] ticks (minute bars) gets its two items. *)
Lemma subject_is_checked_before_callback_witness :
  0 <= 10
  /\ BarSpecification.structure (BarType.specification LiveFixtures.AUDUSD_minute) <> TICK
  /\ (exists msg request_bytes,
        fst (LiveDataClient.request_ticks (H := WireFixtures.answering)
               (Some LiveFixtures.GBPUSD) (Some 18262) (Some 18263) 10 (PyCallable (Fn 1))
               LiveDataClient.fresh) = Raise AssertionError
        /\ effects_of
             (LiveDataClient.request_ticks (H := WireFixtures.answering)
                (Some LiveFixtures.GBPUSD) (Some 18262) (Some 18263) 10 (PyCallable (Fn 1)))
             LiveDataClient.fresh
           = [Log INFO msg; Send TickReqWorker request_bytes])
  /\ (exists msg request_bytes,
        fst (LiveDataClient.request_ticks (H := WireFixtures.answering)
               (Some LiveFixtures.AUDUSD) (Some 18262) (Some 18263) 10 (PyCallable (Fn 1))
               LiveDataClient.fresh) = Ok tt
        /\ effects_of
             (LiveDataClient.request_ticks (H := WireFixtures.answering)
                (Some LiveFixtures.AUDUSD) (Some 18262) (Some 18263) 10 (PyCallable (Fn 1)))
             LiveDataClient.fresh
           = [Log INFO msg; Send TickReqWorker request_bytes;
              Call (Fn 1)
                (ArgTicks [Tick.Build LiveFixtures.AUDUSD 0 0 0;
                           Tick.Build LiveFixtures.AUDUSD 0 0 0])])
  /\ (exists msg request_bytes,
        fst (LiveDataClient.request_bars (H := WireFixtures.answering)
               (Some LiveFixtures.GBPUSD_minute) (Some 18262) (Some 18263) 10
               (PyCallable (Fn 1)) LiveDataClient.fresh) = Raise AssertionError
        /\ effects_of
             (LiveDataClient.request_bars (H := WireFixtures.answering)
                (Some LiveFixtures.GBPUSD_minute) (Some 18262) (Some 18263) 10
                (PyCallable (Fn 1)))
             LiveDataClient.fresh
           = [Log INFO msg; Send BarReqWorker request_bytes])
  /\ (exists msg request_bytes,
        fst (LiveDataClient.request_bars (H := WireFixtures.answering)
               (Some LiveFixtures.AUDUSD_minute) (Some 18262) (Some 18263) 10
               (PyCallable (Fn 1)) LiveDataClient.fresh) = Ok tt
        /\ effects_of
             (LiveDataClient.request_bars (H := WireFixtures.answering)
                (Some LiveFixtures.AUDUSD_minute) (Some 18262) (Some 18263) 10
                (PyCallable (Fn 1)))
             LiveDataClient.fresh
           = [Log INFO msg; Send BarReqWorker request_bytes;
              Call (Fn 1)
                (ArgBars LiveFixtures.AUDUSD_minute
                   [Bar.Build 0 0 0 0 0; Bar.Build 0 0 0 0 0])]).
Proof.
  assert (L : 0 <= 10) by lia.
  assert (NT : BarSpecification.structure (BarType.specification LiveFixtures.AUDUSD_minute)
               <> TICK) by discriminate.
  destruct (@subject_is_checked_before_callback WireFixtures.answering) as [TICKS BARS].
  split; [exact L |]. split; [exact NT |]. split; [| split; [| split]].
  - destruct (TICKS LiveFixtures.GBPUSD 18262 18263 10 (Fn 1) LiveDataClient.fresh L)
      as (msg & rb & rest & EF & R).
    destruct (R (list_byte_of_string "AUDUSD.FXCM")
                [("Symbol", "AUDUSD.FXCM"); ("Specification", "1-MINUTE-BID")]
                "AUDUSD.FXCM" eq_refl eq_refl eq_refl eq_refl) as [WRONG _].
    destruct WRONG as [RAISED ->]; [vm_compute; discriminate |].
    exists msg, rb. split; [exact RAISED | exact EF].
  - destruct (TICKS LiveFixtures.AUDUSD 18262 18263 10 (Fn 1) LiveDataClient.fresh L)
      as (msg & rb & rest & EF & R).
    destruct (R (list_byte_of_string "AUDUSD.FXCM")
                [("Symbol", "AUDUSD.FXCM"); ("Specification", "1-MINUTE-BID")]
                "AUDUSD.FXCM" eq_refl eq_refl eq_refl eq_refl) as [_ RIGHT].
    destruct (RIGHT eq_refl) as [RETURNED ->].
    exists msg, rb. split; [exact RETURNED | exact EF].
  - destruct (BARS LiveFixtures.GBPUSD_minute 18262 18263 10 (Fn 1) LiveDataClient.fresh L NT)
      as (msg & rb & rest & EF & R).
    destruct (R (list_byte_of_string "AUDUSD.FXCM")
                [("Symbol", "AUDUSD.FXCM"); ("Specification", "1-MINUTE-BID")]
                "AUDUSD.FXCM" "1-MINUTE-BID" eq_refl eq_refl eq_refl eq_refl eq_refl)
      as [WRONG _].
    destruct WRONG as [RAISED ->]; [vm_compute; discriminate |].
    exists msg, rb. split; [exact RAISED | exact EF].
  - destruct (BARS LiveFixtures.AUDUSD_minute 18262 18263 10 (Fn 1) LiveDataClient.fresh L NT)
      as (msg & rb & rest & EF & R).
    destruct (R (list_byte_of_string "AUDUSD.FXCM")
                [("Symbol", "AUDUSD.FXCM"); ("Specification", "1-MINUTE-BID")]
                "AUDUSD.FXCM" "1-MINUTE-BID" eq_refl eq_refl eq_refl eq_refl eq_refl)
      as [_ RIGHT].
    destruct (RIGHT eq_refl) as [RETURNED ->].
    exists msg, rb. split; [exact RETURNED | exact EF].
Defined.

(** C6, counterexample. The service answers a request for [AUDUSD] ticks
    with a data reply whose metadata names [AUDUSD] and which has no
    entry for the items. The subject is the requested one, and yet the
    callback is not called: the call raises [KeyError] after the send. *)
Lemma equal_subject_without_items_raises :
  @response_deserialize WireFixtures.without_items
    (@service_reply WireFixtures.without_items TickReqWorker
       (list_byte_of_string "AUDUSD.FXCM"))
  = DataResponse (list_byte_of_string "AUDUSD.FXCM")
  /\ Payload.metadata
       (@data_deserialize WireFixtures.without_items (list_byte_of_string "AUDUSD.FXCM"))
     = Some [("Symbol", "AUDUSD.FXCM"); ("Specification", "1-MINUTE-BID")]
  /\ fst (LiveDataClient.ObjectCache_get Symbol.from_string "AUDUSD.FXCM"
            (LiveDataClient._cached_symbols LiveDataClient.fresh))
     = LiveFixtures.AUDUSD
  /\ fst (LiveDataClient.request_ticks (H := WireFixtures.without_items)
            (Some LiveFixtures.AUDUSD) (Some 18262) (Some 18263) 10 (PyCallable (Fn 1))
            LiveDataClient.fresh) = Raise KeyError
  /\ (exists msg,
        effects_of
          (LiveDataClient.request_ticks (H := WireFixtures.without_items)
             (Some LiveFixtures.AUDUSD) (Some 18262) (Some 18263) 10 (PyCallable (Fn 1)))
          LiveDataClient.fresh
        = [Log INFO msg; Send TickReqWorker (list_byte_of_string "AUDUSD.FXCM")]).
Proof.
  split; [reflexivity |]. split; [reflexivity |]. split; [reflexivity |].
  split; [vm_compute; reflexivity |].
  eexists. vm_compute. reflexivity.
Qed.

(** C7, witness: a subscription to 100-tick bars of [AUDUSD] on a new
    client, and a subscription to its minute bars. *)
Lemma tick_bars_are_aggregated_locally_witness :
  (~ In (Subscribe BarSubWorker "AUDUSD.FXCM-100-TICK-BID")
        (effects_of
           (LiveDataClient.subscribe_bars (Some LiveFixtures.AUDUSD_ticks100) (PyCallable (Fn 1)))
           LiveDataClient.fresh)
   /\ In (Subscribe TickSubWorker "AUDUSD.FXCM")
         (effects_of
            (LiveDataClient.subscribe_bars (Some LiveFixtures.AUDUSD_ticks100)
               (PyCallable (Fn 1)))
            LiveDataClient.fresh)
   /\ In (Call (AggregatorUpdate LiveFixtures.AUDUSD_ticks100)
            (ArgTick (Tick.Build LiveFixtures.AUDUSD 70000 70002 5)))
         (effects_of
            (LiveDataClient.super
               (DataClient._handle_tick (Tick.Build LiveFixtures.AUDUSD 70000 70002 5)))
            (snd (LiveDataClient.subscribe_bars (Some LiveFixtures.AUDUSD_ticks100)
                    (PyCallable (Fn 1)) LiveDataClient.fresh)))
   /\ In (Call (Fn 1) (ArgBar LiveFixtures.AUDUSD_ticks100 (Bar.Build 1 3 0 2 5)))
         (effects_of
            (LiveDataClient.super
               (DataClient._handle_bar LiveFixtures.AUDUSD_ticks100 (Bar.Build 1 3 0 2 5)))
            (snd (LiveDataClient.subscribe_bars (Some LiveFixtures.AUDUSD_ticks100)
                    (PyCallable (Fn 1)) LiveDataClient.fresh))))
  /\ In (Subscribe BarSubWorker "AUDUSD.FXCM-1-MINUTE-BID")
        (effects_of
           (LiveDataClient.subscribe_bars (Some LiveFixtures.AUDUSD_minute) (PyCallable (Fn 1)))
           LiveDataClient.fresh).
Proof.
  split.
  - destruct (proj1 (tick_bars_are_aggregated_locally LiveFixtures.AUDUSD_ticks100 (Fn 1)
                       LiveDataClient.fresh) eq_refl) as (NB & _ & TS & UPD & BAR).
    split; [apply NB |]. split; [exact TS |].
    split; [apply UPD; reflexivity | apply BAR; reflexivity].
  - refine (proj2 (tick_bars_are_aggregated_locally LiveFixtures.AUDUSD_minute (Fn 1)
                     LiveDataClient.fresh) _).
    discriminate.
Defined.

(** C8, witness: subscriptions to the ticks, the minute bars and the
    instrument of [AUDUSD] on a new client. *)
Lemma handler_registered_before_wire_subscribe_witness :
  BarSpecification.structure (BarType.specification LiveFixtures.AUDUSD_minute) <> TICK
  /\ effects_of
       (LiveDataClient.subscribe_ticks (Some LiveFixtures.AUDUSD) (PyCallable (Fn 1)))
       LiveDataClient.fresh
     = [AddHandler (TickKey LiveFixtures.AUDUSD) (Fn 1);
        Subscribe TickSubWorker "AUDUSD.FXCM"]
  /\ effects_of
       (LiveDataClient.subscribe_bars (Some LiveFixtures.AUDUSD_minute) (PyCallable (Fn 1)))
       LiveDataClient.fresh
     = [AddHandler (BarKey LiveFixtures.AUDUSD_minute) (Fn 1);
        Subscribe BarSubWorker "AUDUSD.FXCM-1-MINUTE-BID"]
  /\ effects_of
       (LiveDataClient.subscribe_instrument (Some LiveFixtures.AUDUSD) (PyCallable (Fn 1)))
       LiveDataClient.fresh
     = [AddHandler (InstrumentKey LiveFixtures.AUDUSD) (Fn 1);
        Subscribe InstSubWorker "AUDUSD.FXCM"]
  /\ not_callable (PyOther "a string")
  /\ rejected (LiveDataClient.subscribe_ticks (Some LiveFixtures.AUDUSD) (PyOther "a string"))
       LiveDataClient.fresh.
Proof.
  assert (NT : BarSpecification.structure (BarType.specification LiveFixtures.AUDUSD_minute)
               <> TICK) by discriminate.
  assert (NC : not_callable (PyOther "a string")) by (intros h D; discriminate D).
  destruct (@handler_registered_before_wire_subscribe LiveFixtures.collaborators)
    as (TICKS & BARS & INST & REFUSED & _).
  split; [exact NT |]. split; [| split; [| split; [| split]]].
  - exact (proj1 (TICKS LiveFixtures.AUDUSD (Fn 1) LiveDataClient.fresh)).
  - exact (proj1 (BARS LiveFixtures.AUDUSD_minute (Fn 1) LiveDataClient.fresh NT)).
  - exact (proj1 (INST LiveFixtures.AUDUSD (Fn 1) LiveDataClient.fresh)).
  - exact NC.
  - exact (proj1 (REFUSED (Some LiveFixtures.AUDUSD) None (PyOther "a string")
                    LiveDataClient.fresh NC)).
Defined.

(** C9, witness: a client that holds one handler for the ticks of
    [AUDUSD] unsubscribes it; and a call with a handler that is not a
    callable. *)
Lemma wire_unsubscribe_before_handler_removal_witness :
  (fst (LiveDataClient.unsubscribe_ticks (Some LiveFixtures.AUDUSD) (PyCallable (Fn 1))
          (LiveDataClient.Build
             (DataClient.Build [(LiveFixtures.AUDUSD, [Fn 1])] [] [] [] [] []) [] [] 0))
   = Ok tt
   /\ effects_of
        (LiveDataClient.unsubscribe_ticks (Some LiveFixtures.AUDUSD) (PyCallable (Fn 1)))
        (LiveDataClient.Build
           (DataClient.Build [(LiveFixtures.AUDUSD, [Fn 1])] [] [] [] [] []) [] [] 0)
      = [Unsubscribe TickSubWorker "AUDUSD.FXCM";
         RemoveHandler (TickKey LiveFixtures.AUDUSD) (Fn 1)]
   /\ DataClient._tick_handlers
        (LiveDataClient.base
           (snd (LiveDataClient.unsubscribe_ticks (Some LiveFixtures.AUDUSD)
                   (PyCallable (Fn 1))
                   (LiveDataClient.Build
                      (DataClient.Build [(LiveFixtures.AUDUSD, [Fn 1])] [] [] [] [] [])
                      [] [] 0))))
      = [])
  /\ not_callable PyNone
  /\ rejected (LiveDataClient.unsubscribe_ticks (Some LiveFixtures.AUDUSD) PyNone)
       LiveDataClient.fresh.
Proof.
  assert (NC : not_callable PyNone) by (intros h D; discriminate D).
  destruct (@wire_unsubscribe_before_handler_removal LiveFixtures.collaborators)
    as (TICKS & _ & _ & REFUSED & _).
  split; [| split].
  - exact (TICKS LiveFixtures.AUDUSD (Fn 1)
             (LiveDataClient.Build
                (DataClient.Build [(LiveFixtures.AUDUSD, [Fn 1])] [] [] [] [] []) [] [] 0)).
  - exact NC.
  - exact (proj1 (REFUSED (Some LiveFixtures.AUDUSD) None PyNone LiveDataClient.fresh NC)).
Defined.

(** Unsubscribing from the ticks of [AUDUSD] on a client that holds one
    handler for them: the unsubscribe goes out first, the removal of the
    handler follows, and the entry of the symbol goes with its last
    handler. *)
Example unsubscribe_ticks_run :
  LiveDataClient.unsubscribe_ticks (Some LiveFixtures.AUDUSD) (PyCallable (Fn 1))
    (LiveDataClient.Build (DataClient.Build [(LiveFixtures.AUDUSD, [Fn 1])] [] [] [] [] [])
       [] [] 0)
  = (Ok tt,
     LiveDataClient.Build
       (DataClient.Build [] [] [] [] []
          [Unsubscribe TickSubWorker "AUDUSD.FXCM";
           RemoveHandler (TickKey LiveFixtures.AUDUSD) (Fn 1)])
       [] [] 0).
Proof. vm_compute. reflexivity. Qed.

(** A tick at time 5 with timers due at 5 and at 30: the tick handler is
    called, the clock moves to 5 and the timer due at 5 fires. A tick at
    time 4 only reaches the tick handler. *)
Example process_tick_fires_due_timer :
  DataClient.trace
    (BacktestDataClient.base
       (snd (BacktestDataClient.process_tick (Fixtures.tick_at 5)
               (Fixtures.client_with Fixtures.busy_clock))))
  = [Call (Fn 1) (ArgTick (Fixtures.tick_at 5));
     Call (Fn 7) (ArgTimeEvent (TimeEvent.Build "soon" 5))]
  /\ DataClient.trace
       (BacktestDataClient.base
          (snd (BacktestDataClient.process_tick (Fixtures.tick_at 4)
                  (Fixtures.client_with Fixtures.busy_clock))))
     = [Call (Fn 1) (ArgTick (Fixtures.tick_at 4))].
Proof. split; vm_compute; reflexivity. Qed.

(* ===================================================================== *)
(** * More of [backtest/data.pyx]                                         *)
(* ===================================================================== *)

(** ** Dictionaries whose keys compare by value *)

Section LawfulKeys.

Context {K V : Type} `{EqKey K}.

Hypothesis key_eqb_eq : forall a b : K, key_eqb a b = true <-> a = b.

Lemma key_eqb_neq (a b : K) : a <> b -> key_eqb a b = false.
Proof.
  intros N. destruct (key_eqb a b) eqn:E; [| reflexivity].
  apply key_eqb_eq in E. contradiction.
Qed.

Lemma dict_get_set_other (k k2 : K) (v : V) (d : list (K * V)) :
  k <> k2 -> dict_get k (dict_set k2 v d) = dict_get k d.
Proof.
  intros N. induction d as [| [k' v'] rest IH]; simpl.
  - rewrite (key_eqb_neq k k2 N). reflexivity.
  - destruct (key_eqb k2 k') eqn:E2; simpl.
    + apply key_eqb_eq in E2. subst k'. rewrite (key_eqb_neq k k2 N). reflexivity.
    + destruct (key_eqb k k'); [reflexivity | exact IH].
Qed.

Lemma dict_get_none_keys (k : K) (d : list (K * V)) :
  dict_get k d = None <-> ~ In k (dict_keys d).
Proof.
  induction d as [| [k' v'] rest IH]; simpl.
  - split; [intros _ [] | reflexivity].
  - destruct (key_eqb k k') eqn:E.
    + apply key_eqb_eq in E. subst k'. split; [discriminate | intros N; destruct N; auto].
    + rewrite IH. split.
      * intros N [-> | I]; [| exact (N I)].
        assert (T : key_eqb k k = true) by (apply key_eqb_eq; reflexivity). congruence.
      * intros N I. apply N. right. exact I.
Qed.

Lemma dict_keys_set (k : K) (v : V) (d : list (K * V)) :
  dict_keys (dict_set k v d)
  = if dict_contains k d then dict_keys d else dict_keys d ++ [k].
Proof.
  unfold dict_contains. induction d as [| [k' v'] rest IH]; simpl; [reflexivity |].
  destruct (key_eqb k k') eqn:E; simpl; [reflexivity |].
  rewrite IH. unfold dict_keys. destruct (dict_get k rest); reflexivity.
Qed.

Lemma dict_set_NoDup (k : K) (v : V) (d : list (K * V)) :
  NoDup (dict_keys d) -> NoDup (dict_keys (dict_set k v d)).
Proof.
  intros ND. rewrite dict_keys_set. unfold dict_contains.
  destruct (dict_get k d) eqn:G; [exact ND |].
  apply dict_get_none_keys in G.
  apply NoDup_app; [exact ND | repeat constructor; intros [] | ].
  intros x I [<- | []]. exact (G I).
Qed.

Lemma dict_get_some_keys (k : K) (v : V) (d : list (K * V)) :
  dict_get k d = Some v -> In k (dict_keys d).
Proof.
  intros G. destruct (dict_get_in _ _ _ G) as (k' & I & E).
  apply key_eqb_eq in E. subst k'. exact (in_map fst _ _ I).
Qed.

Lemma dict_keys_set_In (k k2 : K) (v : V) (d : list (K * V)) :
  In k (dict_keys (dict_set k2 v d)) <-> In k (dict_keys d) \/ k = k2.
Proof.
  rewrite dict_keys_set. unfold dict_contains.
  destruct (dict_get k2 d) as [x |] eqn:G.
  - split; [auto |]. intros [I | ->]; [exact I |]. exact (dict_get_some_keys _ _ _ G).
  - rewrite in_app_iff. simpl. split.
    + intros [I | [E | []]]; auto.
    + intros [I | E]; auto.
Qed.

Lemma dict_set_In (k k2 : K) (v v2 : V) (d : list (K * V)) :
  In (k, v) (dict_set k2 v2 d) -> In (k, v) d \/ (k = k2 /\ v = v2).
Proof.
  induction d as [| [k' v'] rest IH]; simpl.
  - intros [[= <- <-] | []]. auto.
  - destruct (key_eqb k2 k') eqn:E; simpl.
    + apply key_eqb_eq in E. subst k'.
      intros [[= <- <-] | I]; auto.
    + intros [E' | I]; [auto |]. destruct (IH I); auto.
Qed.

Lemma dict_get_NoDup (k : K) (v : V) (d : list (K * V)) :
  NoDup (dict_keys d) -> In (k, v) d -> dict_get k d = Some v.
Proof.
  induction d as [| [k' v'] rest IH]; simpl; intros ND I; [contradiction |].
  inversion ND as [| ? ? NI ND']; subst.
  destruct I as [[= -> ->] | I].
  - replace (key_eqb k k) with true; [reflexivity |].
    symmetry. apply key_eqb_eq. reflexivity.
  - destruct (key_eqb k k') eqn:E; [| exact (IH ND' I)].
    apply key_eqb_eq in E. subst k'. exfalso. apply NI. exact (in_map fst _ _ I).
Qed.

End LawfulKeys.

Lemma dict_set_fresh {K V : Type} `{EqKey K} (k : K) (v : V) (d : list (K * V)) :
  dict_get k d = None -> dict_set k v d = d ++ [(k, v)].
Proof.
  induction d as [| [k' v'] rest IH]; simpl; [reflexivity |].
  destruct (key_eqb k k'); [discriminate |].
  intros G. rewrite (IH G). reflexivity.
Qed.

Lemma BarStructure_key_eqb_eq (a b : BarStructure) : key_eqb a b = true <-> a = b.
Proof. apply BarStructure_eqb_eq. Qed.

(** ** [BacktestDataContainer] *)

(** [table[symbol][structure]], with [None] when either key is absent. *)
Definition lookup_bars (symbol : Symbol.t) (structure : BarStructure)
  (table : list (Symbol.t * list (BarStructure * DataFrame.t))) : option DataFrame.t :=
  match dict_get symbol table with
  | Some inner => dict_get structure inner
  | None => None
  end.

Lemma set_bars_lookup_same (symbol : Symbol.t) (structure : BarStructure) (data : DataFrame.t)
  (table : list (Symbol.t * list (BarStructure * DataFrame.t))) :
  lookup_bars symbol structure (BacktestDataContainer.set_bars symbol structure data table)
  = Some data.
Proof.
  unfold lookup_bars, BacktestDataContainer.set_bars, dict_contains.
  destruct (dict_get symbol table) as [inner |] eqn:G; cbn [negb].
  - rewrite G. rewrite (dict_get_set_same symbol _ table (Symbol_eqb_refl symbol)).
    apply dict_get_set_same. apply BarStructure_key_eqb_eq. reflexivity.
  - rewrite (dict_get_set_same symbol [] table (Symbol_eqb_refl symbol)).
    rewrite (dict_get_set_same symbol _ _ (Symbol_eqb_refl symbol)).
    simpl. replace (key_eqb structure structure) with true; [reflexivity |].
    symmetry. apply BarStructure_key_eqb_eq. reflexivity.
Qed.

Lemma set_bars_lookup_other (symbol symbol' : Symbol.t) (structure structure' : BarStructure)
  (data : DataFrame.t) (table : list (Symbol.t * list (BarStructure * DataFrame.t))) :
  symbol' <> symbol \/ structure' <> structure ->
  lookup_bars symbol' structure' (BacktestDataContainer.set_bars symbol structure data table)
  = lookup_bars symbol' structure' table.
Proof.
  intros N. unfold lookup_bars, BacktestDataContainer.set_bars, dict_contains.
  destruct (dict_get symbol table) as [inner |] eqn:G; cbn [negb].
  - rewrite G.
    assert (D : symbol' = symbol \/ symbol' <> symbol).
    { destruct (key_eqb symbol' symbol) eqn:E.
      - left. apply Symbol_eqb_eq, E.
      - right. intros ->. rewrite Symbol_eqb_refl in E. discriminate E. }
    destruct D as [-> | NS].
    + rewrite (dict_get_set_same symbol _ table (Symbol_eqb_refl symbol)), G.
      destruct N as [N | N]; [contradiction |].
      apply (dict_get_set_other BarStructure_key_eqb_eq). exact N.
    + rewrite (dict_get_set_other Symbol_eqb_eq _ _ _ _ NS). reflexivity.
  - rewrite (dict_get_set_same symbol [] table (Symbol_eqb_refl symbol)).
    assert (D : symbol' = symbol \/ symbol' <> symbol).
    { destruct (key_eqb symbol' symbol) eqn:E.
      - left. apply Symbol_eqb_eq, E.
      - right. intros ->. rewrite Symbol_eqb_refl in E. discriminate E. }
    destruct D as [-> | NS].
    + rewrite (dict_get_set_same symbol _ _ (Symbol_eqb_refl symbol)), G.
      destruct N as [N | N]; [contradiction |].
      simpl. rewrite (key_eqb_neq BarStructure_key_eqb_eq _ _ N). reflexivity.
    + rewrite !(dict_get_set_other Symbol_eqb_eq _ _ _ _ NS). reflexivity.
Qed.

(** X1. [add_bars], by price type. A table added for the bid (ask) side
    is found again under its symbol and structure in the bid (ask) map;
    every other entry of that map reads as before, and the other map, the
    instruments and the tick tables are untouched. A table added as
    [PriceType.MID] passes the check and is stored nowhere. With
    [PriceType.LAST] the check fails, but the method cannot raise: the
    call returns like any other. Either way the container is left as it
    was. *)
Theorem add_bars_by_price_type (symbol : Symbol.t) (structure : BarStructure)
  (data : DataFrame.t) (self : BacktestDataContainer.t) :
  let bid := BacktestDataContainer.add_bars symbol structure BID data self in
  let ask := BacktestDataContainer.add_bars symbol structure ASK data self in
  (fst bid = Ok tt
   /\ lookup_bars symbol structure (BacktestDataContainer.bars_bid (snd bid)) = Some data
   /\ (forall symbol' structure',
         symbol' <> symbol \/ structure' <> structure ->
         lookup_bars symbol' structure' (BacktestDataContainer.bars_bid (snd bid))
         = lookup_bars symbol' structure' (BacktestDataContainer.bars_bid self))
   /\ BacktestDataContainer.bars_ask (snd bid) = BacktestDataContainer.bars_ask self
   /\ BacktestDataContainer.instruments (snd bid) = BacktestDataContainer.instruments self
   /\ BacktestDataContainer.ticks (snd bid) = BacktestDataContainer.ticks self)
  /\ (fst ask = Ok tt
      /\ lookup_bars symbol structure (BacktestDataContainer.bars_ask (snd ask)) = Some data
      /\ (forall symbol' structure',
            symbol' <> symbol \/ structure' <> structure ->
            lookup_bars symbol' structure' (BacktestDataContainer.bars_ask (snd ask))
            = lookup_bars symbol' structure' (BacktestDataContainer.bars_ask self))
      /\ BacktestDataContainer.bars_bid (snd ask) = BacktestDataContainer.bars_bid self
      /\ BacktestDataContainer.instruments (snd ask) = BacktestDataContainer.instruments self
      /\ BacktestDataContainer.ticks (snd ask) = BacktestDataContainer.ticks self)
  /\ BacktestDataContainer.add_bars symbol structure MID data self = (Ok tt, self)
  /\ BacktestDataContainer.add_bars symbol structure LAST data self = (Ok tt, self).
Proof.
  cbv zeta. split; [| split; [| split; reflexivity]].
  - cbn. repeat split.
    + apply set_bars_lookup_same.
    + intros symbol' structure' N. apply set_bars_lookup_other, N.
  - cbn. repeat split.
    + apply set_bars_lookup_same.
    + intros symbol' structure' N. apply set_bars_lookup_other, N.
Qed.

(** ** [DataProvider.__init__] *)

(** The finest of the three granularities that [bars_bid] holds. *)
Definition finest_bid_structure (bars_bid : list (BarStructure * DataFrame.t))
  : option BarStructure :=
  if dict_contains SECOND bars_bid then Some SECOND
  else if dict_contains MINUTE bars_bid then Some MINUTE
  else if dict_contains HOUR bars_bid then Some HOUR
  else None.

Section Provider.

Context `{TickDataWrangler}.

(** X3. The provider builds its ticks from the bar tables of the finest
    granularity (second, else minute, else hour) that the bid map holds,
    whatever else the two maps hold. The ask map is read at that same
    granularity without a check: if it has no table there, construction
    raises [KeyError]. With none of the three in the bid map the builder
    gets two empty tables and the ask map is not read. *)
Theorem provider_reads_ask_at_bid_granularity {S : Type} (instrument : Instrument.t)
  (ticks : option DataFrame.t) (bars_bid bars_ask : list (BarStructure * DataFrame.t)) (s : S) :
  let build bid_data ask_data :=
    DataProvider.Build instrument
      (build_ticks_all (Instrument.symbol instrument) (Instrument.tick_precision instrument)
         ticks bid_data ask_data) in
  match finest_bid_structure bars_bid with
  | None =>
      DataProvider.__init__ instrument ticks bars_bid bars_ask s
      = (Ok (build DataFrame.empty DataFrame.empty), s)
  | Some structure =>
      exists bid_data,
        dict_get structure bars_bid = Some bid_data
        /\ DataProvider.__init__ instrument ticks bars_bid bars_ask s
           = match dict_get structure bars_ask with
             | Some ask_data => (Ok (build bid_data ask_data), s)
             | None => (Raise KeyError, s)
             end
  end.
Proof.
  cbv zeta. unfold finest_bid_structure, DataProvider.__init__, dict_contains, dict_getitem.
  destruct (dict_get SECOND bars_bid) as [bid |] eqn:GS.
  { exists bid. split; [exact GS |].
    unfold bind, liftR, ret. destruct (dict_get SECOND bars_ask); reflexivity. }
  destruct (dict_get MINUTE bars_bid) as [bid |] eqn:GM.
  { exists bid. split; [exact GM |].
    unfold bind, liftR, ret. destruct (dict_get MINUTE bars_ask); reflexivity. }
  destruct (dict_get HOUR bars_bid) as [bid |] eqn:GH.
  { exists bid. split; [exact GH |].
    unfold bind, liftR, ret. destruct (dict_get HOUR bars_ask); reflexivity. }
  reflexivity.
Qed.

Lemma DataProvider_init_instrument {S : Type} (instrument : Instrument.t)
  (ticks : option DataFrame.t) (bars_bid bars_ask : list (BarStructure * DataFrame.t))
  (s s' : S) (p : DataProvider.t) :
  DataProvider.__init__ instrument ticks bars_bid bars_ask s = (Ok p, s') ->
  DataProvider.instrument p = instrument /\ s' = s.
Proof.
  unfold DataProvider.__init__, bind, liftR, ret, dict_getitem.
  destruct (dict_contains SECOND bars_bid).
  { destruct (dict_get SECOND bars_bid); [| discriminate].
    destruct (dict_get SECOND bars_ask); [| discriminate].
    intros [= <- <-]. auto. }
  destruct (dict_contains MINUTE bars_bid).
  { destruct (dict_get MINUTE bars_bid); [| discriminate].
    destruct (dict_get MINUTE bars_ask); [| discriminate].
    intros [= <- <-]. auto. }
  destruct (dict_contains HOUR bars_bid).
  { destruct (dict_get HOUR bars_bid); [| discriminate].
    destruct (dict_get HOUR bars_ask); [| discriminate].
    intros [= <- <-]. auto. }
  intros [= <- <-]. auto.
Qed.

End Provider.

(** ** What construction can raise *)

(** [m] raises nothing but exceptions in [P]. *)
Definition raises_only {S A : Type} (P : Exn -> Prop) (m : M S A) : Prop :=
  forall s, match fst (m s) with Ok _ => True | Raise e => P e end.

Lemma raises_only_bind {S A B : Type} (P : Exn -> Prop) (m : M S A) (k : A -> M S B) :
  raises_only P m -> (forall a, raises_only P (k a)) -> raises_only P (bind m k).
Proof.
  intros Rm Rk s. specialize (Rm s). unfold bind.
  destruct (m s) as [[a | e] s1]; simpl in *; [apply Rk | exact Rm].
Qed.

Lemma raises_only_for_each {S A : Type} (P : Exn -> Prop) (l : list A) (body : A -> M S unit) :
  (forall x, raises_only P (body x)) -> raises_only P (for_each l body).
Proof.
  intros Rb. induction l as [| x rest IH]; simpl.
  - intros s. exact I.
  - apply raises_only_bind; [apply Rb | intros _; exact IH].
Qed.

Lemma raises_only_lift {S T A : Type} (P : Exn -> Prop) (get : S -> T) (set : T -> S -> S)
  (m : M T A) :
  raises_only P m -> raises_only P (lift get set m).
Proof.
  intros Rm s. specialize (Rm (get s)). unfold lift.
  destruct (m (get s)) as [r t]. exact Rm.
Qed.

Lemma raises_only_getitem {S A : Type} (P : Exn -> Prop) (l : list A) (i : Z) :
  P IndexError -> raises_only P (liftR (S := S) (list_getitem l i)).
Proof.
  intros PI s. unfold liftR, list_getitem. cbv zeta. cbn [fst].
  destruct (_ || _); [exact PI |].
  destruct (nth_error _ _); [exact I | exact PI].
Qed.

Lemma raises_only_dict_getitem {S K V : Type} `{EqKey K} (P : Exn -> Prop) (k : K)
  (d : list (K * V)) :
  P KeyError -> raises_only P (liftR (S := S) (dict_getitem k d)).
Proof.
  intros PK s. unfold liftR, dict_getitem. cbn [fst].
  destruct (dict_get k d); [exact I | exact PK].
Qed.

Section Construction.

Context {TestClock : Type} `{VirtualClock TestClock} `{TickDataWrangler}.

Local Abbreviation client := (BacktestDataClient.t TestClock).

Lemma raises_only_log (P : Exn -> Prop) (level : LogLevel) (msg : string) :
  raises_only P (BacktestDataClient.super (TestClock := TestClock) (DataClient.log level msg)).
Proof. intros s. exact I. Qed.

Lemma raises_only_handle_instrument (P : Exn -> Prop) (instrument : Instrument.t) :
  raises_only P
    (BacktestDataClient.super (TestClock := TestClock)
       (DataClient._handle_instrument instrument)).
Proof.
  apply raises_only_lift. intros b.
  destruct (handle_instrument_run instrument b) as (b' & R & _). rewrite R. exact I.
Qed.

Lemma raises_only_provider (P : Exn -> Prop) (instrument : Instrument.t)
  (ticks : option DataFrame.t) (bars_bid bars_ask : list (BarStructure * DataFrame.t)) :
  P KeyError ->
  raises_only P
    (DataProvider.__init__ (S := client) instrument ticks bars_bid bars_ask).
Proof.
  intros PK s.
  destruct (DataProvider_init_result instrument ticks bars_bid bars_ask s) as [(p & E) | E];
    rewrite E; [exact I | exact PK].
Qed.

Lemma raises_only_body (data : BacktestDataContainer.t) :
  raises_only (fun e => e = KeyError \/ e = IndexError)
    (BacktestDataClient.__init__body (TestClock := TestClock) data).
Proof.
  unfold BacktestDataClient.__init__body. cbv zeta.
  apply raises_only_bind; [apply raises_only_log | intros _].
  apply raises_only_bind.
  { apply raises_only_for_each. intros i. apply raises_only_handle_instrument. }
  intros _. apply raises_only_bind.
  { apply raises_only_for_each. intros symbol s. exact I. }
  intros _. apply raises_only_bind; [intros s; exact I | intros instruments].
  apply raises_only_bind.
  { apply raises_only_for_each. intros item. cbv zeta.
    apply raises_only_bind; [apply raises_only_log | intros _].
    apply raises_only_bind; [apply raises_only_log | intros _].
    apply raises_only_bind; [apply raises_only_dict_getitem; auto | intros bars_bid].
    apply raises_only_bind; [apply raises_only_dict_getitem; auto | intros bars_ask].
    apply raises_only_bind; [apply raises_only_provider; auto | intros provider].
    apply raises_only_bind; [intros s; exact I | intros _].
    apply raises_only_log. }
  intros _. apply raises_only_bind; [intros s; exact I | intros providers].
  apply raises_only_bind; [intros s; exact I | intros _].
  apply raises_only_bind; [apply raises_only_getitem; auto | intros first].
  apply raises_only_bind; [intros s; exact I | intros _].
  apply raises_only_bind; [apply raises_only_getitem; auto | intros last].
  intros s. exact I.
Qed.

(** X4. What the constructor can do. Without a clock it raises
    [ConditionFailed] for the clock, and with a clock but no logger for
    the logger. With both it returns a client or raises [KeyError] or
    [IndexError]; it never raises [AssertionError], whatever the
    container holds. *)
Theorem construction_outcomes (venue : Venue.t) (data : BacktestDataContainer.t)
  (clock : option TestClock) (logger : option Logger) :
  match BacktestDataClient.__init__ venue data clock logger with
  | Ok _ => clock <> None /\ logger <> None
  | Raise e =>
      match clock, logger with
      | None, _ => e = ConditionFailed "clock"
      | Some _, None => e = ConditionFailed "logger"
      | Some _, Some _ => e = KeyError \/ e = IndexError
      end
  end.
Proof.
  unfold BacktestDataClient.__init__.
  destruct clock as [clock |]; [| reflexivity].
  destruct logger as [logger |]; [| reflexivity].
  match goal with
  | |- context [BacktestDataClient.__init__body data ?s] =>
      pose proof (raises_only_body data s) as R;
      destruct (BacktestDataClient.__init__body data s) as [[u | e] s']
  end.
  - split; discriminate.
  - exact R.
Qed.

(** X9. A container without instruments cannot be used: whatever tick and
    bar tables it holds, no provider is built, the merged stream is
    empty, and reading its first tick raises [IndexError]. *)
Theorem construction_without_instruments (venue : Venue.t) (data : BacktestDataContainer.t)
  (clock : TestClock) (logger : Logger) :
  BacktestDataContainer.instruments data = [] ->
  BacktestDataClient.__init__ venue data (Some clock) (Some logger) = Raise IndexError.
Proof.
  intros E. unfold BacktestDataClient.__init__, BacktestDataClient.__init__body.
  rewrite E. cbv zeta.
  erewrite bind_ok by apply super_log_run.
  erewrite bind_ok by reflexivity.
  erewrite bind_ok by apply instrument_check_never_fails.
  reflexivity.
Qed.

End Construction.

(** X9, witness: a container that holds tick tables and no instrument. *)
Lemma construction_without_instruments_witness :
  BacktestDataContainer.instruments
    (Fixtures.container_after
       (BacktestDataContainer.add_ticks Fixtures.AUDUSD
          [Fixtures.row 10 70000 70002; Fixtures.row 20 70001 70003])) = []
  /\ @BacktestDataClient.__init__ TestClock.t Fixtures.wrangler Fixtures.FXCM
       (Fixtures.container_after
          (BacktestDataContainer.add_ticks Fixtures.AUDUSD
             [Fixtures.row 10 70000 70002; Fixtures.row 20 70001 70003]))
       (Some Fixtures.idle_clock) (Some TestLogger)
     = Raise IndexError.
Proof.
  split; [reflexivity |].
  apply (@construction_without_instruments TestClock.t Fixtures.wrangler). reflexivity.
Defined.

(** ** What a constructed client holds *)

(** A provider entry made for an entry of the instruments dictionary: it
    is keyed by the entry's symbol and built for the entry's instrument. *)
Definition provides (item : Symbol.t * Instrument.t) (entry : Symbol.t * DataProvider.t)
  : Prop :=
  fst entry = fst item /\ DataProvider.instrument (snd entry) = snd item.

Lemma provides_keys (items : list (Symbol.t * Instrument.t))
  (entries : list (Symbol.t * DataProvider.t)) :
  Forall2 provides items entries -> dict_keys entries = dict_keys items.
Proof.
  induction 1 as [| item entry items entries [K _] _ IH]; simpl; [reflexivity |].
  rewrite K. f_equal. exact IH.
Qed.

Lemma instruments_after_NoDup (l : list Instrument.t) :
  forall d, NoDup (dict_keys d) -> NoDup (dict_keys (instruments_after l d)).
Proof.
  induction l as [| i rest IH]; intros d ND; simpl; [exact ND |].
  apply IH, (dict_set_NoDup Symbol_eqb_eq), ND.
Qed.

Lemma instruments_after_keys (l : list Instrument.t) :
  forall d k,
    In k (dict_keys (instruments_after l d))
    <-> In k (dict_keys d) \/ exists i, In i l /\ Instrument.symbol i = k.
Proof.
  induction l as [| i rest IH]; intros d k; simpl.
  - split; [auto | intros [I | (i & [] & _)]; exact I].
  - rewrite IH, (dict_keys_set_In Symbol_eqb_eq). split.
    + intros [[I | ->] | (j & I & E)]; eauto.
    + intros [I | (j & [<- | I] & E)]; eauto.
Qed.

Lemma instruments_after_entries (l : list Instrument.t) :
  forall d k i,
    In (k, i) (instruments_after l d) ->
    In (k, i) d \/ (In i l /\ Instrument.symbol i = k).
Proof.
  induction l as [| j rest IH]; intros d k i I; simpl in *; [auto |].
  destruct (IH _ _ _ I) as [I' | [I' E]]; [| auto].
  destruct (dict_set_In Symbol_eqb_eq _ _ _ _ _ I') as [I2 | [-> ->]]; auto.
Qed.

Lemma concat_ticks_flat_map (providers : list (Symbol.t * DataProvider.t)) :
  BacktestDataClient.concat_ticks providers
  = flat_map (fun entry => DataProvider.ticks (snd entry)) providers.
Proof.
  unfold BacktestDataClient.concat_ticks.
  change (flat_map (fun entry => DataProvider.ticks (snd entry)) providers)
    with ([] ++ flat_map (fun entry : Symbol.t * DataProvider.t =>
                            DataProvider.ticks (snd entry)) providers).
  generalize (@nil Tick.t) as acc.
  induction providers as [| p rest IH]; intros acc; simpl.
  - rewrite app_nil_r. reflexivity.
  - rewrite IH, <- app_assoc. reflexivity.
Qed.

(** Ticks that compare equal keep their order under [sorted]. *)
Lemma sorted_insert_filter (z : datetime) (x : Tick.t) (l : list Tick.t) :
  filter (fun t => Tick.timestamp t =? z) (sorted_insert Tick.lt x l)
  = filter (fun t => Tick.timestamp t =? z) (x :: l).
Proof.
  induction l as [| y rest IH]; [reflexivity |].
  cbn [sorted_insert]. unfold Tick.lt at 1.
  destruct (Z.ltb_spec (Tick.timestamp y) (Tick.timestamp x)) as [LT | GE]; [| reflexivity].
  cbn [filter] in *. rewrite IH.
  destruct (Z.eqb_spec (Tick.timestamp y) z) as [EY | NY]; [| reflexivity].
  destruct (Z.eqb_spec (Tick.timestamp x) z) as [EX | NX]; [lia | reflexivity].
Qed.

Lemma sorted_filter (z : datetime) (l : list Tick.t) :
  filter (fun t => Tick.timestamp t =? z) (sorted Tick.lt l)
  = filter (fun t => Tick.timestamp t =? z) l.
Proof.
  induction l as [| x rest IH]; [reflexivity |].
  change (sorted Tick.lt (x :: rest)) with (sorted_insert Tick.lt x (sorted Tick.lt rest)).
  rewrite sorted_insert_filter. cbn [filter]. rewrite IH. reflexivity.
Qed.

Lemma sorted_of_Sorted (l : list Tick.t) : Sorted timestamp_le l -> sorted Tick.lt l = l.
Proof.
  induction 1 as [| x rest S IH HD]; [reflexivity |].
  change (sorted Tick.lt (x :: rest)) with (sorted_insert Tick.lt x (sorted Tick.lt rest)).
  rewrite IH. destruct HD as [| y rest' LE]; [reflexivity |].
  cbn [sorted_insert]. unfold Tick.lt, timestamp_le in *.
  destruct (Z.ltb_spec (Tick.timestamp y) (Tick.timestamp x)); [lia | reflexivity].
Qed.

Lemma timestamp_le_trans : Relations_1.Transitive timestamp_le.
Proof. intros a b c. unfold timestamp_le. lia. Qed.

Lemma Sorted_first_least (first : Tick.t) (rest : list Tick.t) :
  Sorted timestamp_le (first :: rest) ->
  forall t, In t (first :: rest) -> Tick.timestamp first <= Tick.timestamp t.
Proof.
  intros S t I. apply (Sorted_StronglySorted timestamp_le_trans) in S.
  inversion S as [| ? ? _ F]; subst.
  destruct I as [<- | I]; [lia |].
  rewrite Forall_forall in F. exact (F t I).
Qed.

Lemma Sorted_last_greatest (front : list Tick.t) (last : Tick.t) :
  Sorted timestamp_le (front ++ [last]) ->
  forall t, In t (front ++ [last]) -> Tick.timestamp t <= Tick.timestamp last.
Proof.
  intros S. apply (Sorted_StronglySorted timestamp_le_trans) in S.
  induction front as [| a front IH]; simpl in *; intros t I.
  - destruct I as [<- | []]. lia.
  - inversion S as [| ? ? S' F]; subst.
    destruct I as [<- | I]; [| exact (IH S' t I)].
    rewrite Forall_forall in F. apply (F last). apply in_or_app. right. left. reflexivity.
Qed.

Section Built.

Context {TestClock : Type} `{VirtualClock TestClock} `{TickDataWrangler}.

Local Abbreviation client := (BacktestDataClient.t TestClock).

Lemma handle_instruments_frame (l : list Instrument.t) :
  forall self : client,
    exists self',
      for_each l (fun instrument =>
                    BacktestDataClient.super (DataClient._handle_instrument instrument)) self
      = (Ok tt, self')
      /\ DataClient._instruments (BacktestDataClient.base self')
         = instruments_after l (DataClient._instruments (BacktestDataClient.base self))
      /\ BacktestDataClient.data_providers self' = BacktestDataClient.data_providers self
      /\ BacktestDataClient._clock self' = BacktestDataClient._clock self
      /\ BacktestDataClient.venue self' = BacktestDataClient.venue self.
Proof.
  induction l as [| i rest IH]; intros self; simpl.
  - exists self. repeat split.
  - destruct (handle_instrument_run i (BacktestDataClient.base self)) as (b' & R & I).
    unfold bind, BacktestDataClient.super at 1, lift. rewrite R.
    destruct (IH (BacktestDataClient.set_base b' self)) as (self' & R' & I' & D' & C' & V').
    exists self'. split; [exact R' |].
    rewrite I', D', C', V'. simpl. rewrite I. repeat split.
Qed.

Lemma provider_step_ok (data : BacktestDataContainer.t) (item : Symbol.t * Instrument.t)
  (self self' : client) :
  provider_step data item self = (Ok tt, self') ->
  exists p,
    DataProvider.instrument p = snd item
    /\ BacktestDataClient.data_providers self'
       = dict_set (fst item) p (BacktestDataClient.data_providers self)
    /\ DataClient._instruments (BacktestDataClient.base self')
       = DataClient._instruments (BacktestDataClient.base self)
    /\ BacktestDataClient._clock self' = BacktestDataClient._clock self
    /\ BacktestDataClient.venue self' = BacktestDataClient.venue self.
Proof.
  unfold provider_step. cbv zeta. intros R.
  erewrite bind_ok in R by apply super_log_run.
  erewrite bind_ok in R by apply super_log_run.
  apply bind_ok_inv in R. destruct R as (bb & s1 & G1 & R).
  unfold liftR in G1. injection G1 as G1 <-.
  apply bind_ok_inv in R. destruct R as (ba & s2 & G2 & R).
  unfold liftR in G2. injection G2 as G2 <-.
  apply bind_ok_inv in R. destruct R as (p & s3 & P & R).
  destruct (DataProvider_init_instrument _ _ _ _ _ _ _ P) as [PI ->].
  erewrite bind_ok in R by reflexivity.
  rewrite super_log_run in R. injection R as <-.
  exists p. repeat split. exact PI.
Qed.

Lemma provider_loop_ok (data : BacktestDataContainer.t)
  (items : list (Symbol.t * Instrument.t)) :
  forall self self' : client,
    NoDup (dict_keys items) ->
    (forall k, In k (dict_keys items) ->
               ~ In k (dict_keys (BacktestDataClient.data_providers self))) ->
    for_each items (provider_step data) self = (Ok tt, self') ->
    exists entries,
      BacktestDataClient.data_providers self'
      = BacktestDataClient.data_providers self ++ entries
      /\ Forall2 provides items entries
      /\ DataClient._instruments (BacktestDataClient.base self')
         = DataClient._instruments (BacktestDataClient.base self)
      /\ BacktestDataClient._clock self' = BacktestDataClient._clock self
      /\ BacktestDataClient.venue self' = BacktestDataClient.venue self.
Proof.
  induction items as [| item rest IH]; intros self self' ND FRESH R.
  - injection R as <-. exists []. rewrite app_nil_r. repeat split. constructor.
  - cbn [for_each] in R. apply bind_ok_inv in R. destruct R as ([] & s1 & R1 & R).
    destruct (provider_step_ok _ _ _ _ R1) as (p & PI & DP & INS & CL & VE).
    rewrite dict_set_fresh in DP.
    2: { apply (dict_get_none_keys Symbol_eqb_eq). apply FRESH. left. reflexivity. }
    unfold dict_keys in ND. cbn [map] in ND.
    inversion ND as [| ? ? NI ND']; subst.
    destruct (IH s1 self' ND') as (entries & DP' & F & INS' & CL' & VE'); [| exact R |].
    { intros k I. rewrite DP. unfold dict_keys. rewrite map_app, in_app_iff.
      cbn [map In fst]. intros [I' | [E | []]].
      - apply (FRESH k); [right; exact I | exact I'].
      - subst k. apply NI. exact I. }
    exists ((fst item, p) :: entries).
    split; [rewrite DP', DP, <- app_assoc; reflexivity |].
    split; [constructor; [split; [reflexivity | exact PI] | exact F] |].
    rewrite INS', CL', VE'. auto.
Qed.

(** The instruments dictionary and the providers of a constructed client,
    and the parts construction passes through. *)
Lemma init_providers (venue : Venue.t) (data : BacktestDataContainer.t)
  (clock : TestClock) (logger : Logger) (self : client) :
  BacktestDataClient.__init__ venue data (Some clock) (Some logger) = Ok self ->
  DataClient._instruments (BacktestDataClient.base self)
  = instruments_after (dict_values (BacktestDataContainer.instruments data)) []
  /\ Forall2 provides (DataClient._instruments (BacktestDataClient.base self))
       (BacktestDataClient.data_providers self)
  /\ BacktestDataClient._clock self = clock
  /\ BacktestDataClient.venue self = venue.
Proof.
  unfold BacktestDataClient.__init__.
  destruct (BacktestDataClient.__init__body data _) as [[[] | e] s] eqn:B; [| discriminate].
  intros [= ->]. unfold BacktestDataClient.__init__body in B. cbv zeta in B.
  apply bind_ok_inv in B. destruct B as (? & s1 & L1 & B).
  rewrite super_log_run in L1. injection L1 as <- <-.
  apply bind_ok_inv in B. destruct B as (? & s2 & L2 & B).
  match type of L2 with
  | for_each ?l _ ?s0 = _ =>
      destruct (handle_instruments_frame l s0) as (s2' & R2 & I2 & D2 & C2 & V2)
  end.
  rewrite R2 in L2. injection L2 as <- <-.
  cbn in I2, D2, C2, V2.
  apply bind_ok_inv in B. destruct B as (? & s3 & L3 & B).
  rewrite instrument_check_never_fails in L3. injection L3 as <- <-.
  apply bind_ok_inv in B. destruct B as (instruments & s4 & G & B).
  unfold gets in G. injection G as <- <-.
  apply bind_ok_inv in B. destruct B as ([] & s5 & L5 & B).
  destruct (provider_loop_ok data (DataClient._instruments (BacktestDataClient.base s2')) s2' s5)
    as (entries & DP & F & INS & CL & VE); [| | exact L5 |].
  { rewrite I2. apply instruments_after_NoDup. constructor. }
  { intros k _. rewrite D2. intros []. }
  rewrite D2 in DP. cbn [app] in DP.
  apply bind_ok_inv in B. destruct B as (providers & s6 & G & B).
  unfold gets in G. injection G as <- <-.
  apply bind_ok_inv in B. destruct B as (? & s7 & S7 & B).
  unfold modify in S7. injection S7 as <- <-.
  apply bind_ok_inv in B. destruct B as (first & s8 & F1 & B).
  unfold liftR in F1. injection F1 as F1 <-.
  apply bind_ok_inv in B. destruct B as (? & s9 & S9 & B).
  unfold modify in S9. injection S9 as <- <-.
  apply bind_ok_inv in B. destruct B as (last & s10 & L & B).
  unfold liftR in L. injection L as L <-.
  unfold modify in B. injection B as <-.
  cbn [BacktestDataClient.data_providers BacktestDataClient.base
       BacktestDataClient._clock BacktestDataClient.venue
       BacktestDataClient.set_ticks BacktestDataClient.set_min_timestamp
       BacktestDataClient.set_max_timestamp].
  rewrite INS, I2, DP, CL, VE, C2, V2. rewrite I2 in F. auto.
Qed.

(** X5. A constructed client has exactly one provider for each entry of
    its instruments dictionary, in the dictionary's order, keyed by the
    entry's symbol and built for its instrument. The symbols that have a
    provider are the symbols of the container's instruments, each once,
    so every provider is found under its symbol and was built for an
    instrument of the container that carries that symbol. *)
Theorem one_provider_per_instrument (venue : Venue.t) (data : BacktestDataContainer.t)
  (clock : TestClock) (logger : Logger) (self : client) :
  BacktestDataClient.__init__ venue data (Some clock) (Some logger) = Ok self ->
  let providers := BacktestDataClient.data_providers self in
  Forall2 provides (DataClient._instruments (BacktestDataClient.base self)) providers
  /\ NoDup (dict_keys providers)
  /\ (forall symbol,
        In symbol (dict_keys providers)
        <-> exists instrument,
              In instrument (dict_values (BacktestDataContainer.instruments data))
              /\ Instrument.symbol instrument = symbol)
  /\ (forall symbol provider,
        In (symbol, provider) providers ->
        dict_get symbol providers = Some provider
        /\ Instrument.symbol (DataProvider.instrument provider) = symbol
        /\ In (DataProvider.instrument provider)
              (dict_values (BacktestDataContainer.instruments data))).
Proof.
  intros OK. cbv zeta.
  destruct (init_providers _ _ _ _ _ OK) as (I & F & _ & _).
  pose proof (provides_keys _ _ F) as K.
  assert (ND : NoDup (dict_keys (BacktestDataClient.data_providers self))).
  { rewrite K, I. apply instruments_after_NoDup. constructor. }
  split; [exact F |]. split; [exact ND |]. split.
  - intros symbol. rewrite K, I, instruments_after_keys. simpl. split.
    + intros [[] | E]. exact E.
    + auto.
  - intros symbol provider IN.
    split; [exact (dict_get_NoDup Symbol_eqb_eq _ _ _ ND IN) |].
    rewrite I in F. clear - F IN.
    assert (E : exists instrument,
               In (symbol, instrument)
                  (instruments_after (dict_values (BacktestDataContainer.instruments data)) [])
               /\ DataProvider.instrument provider = instrument).
    { induction F as [| item entry items entries [FK FI] _ IH]; [destruct IN |].
      destruct IN as [-> | IN].
      - exists (snd item). simpl in *. subst symbol. split; [left; destruct item; reflexivity | exact FI].
      - destruct (IH IN) as (i & I' & E'). exists i. split; [right; exact I' | exact E']. }
    destruct E as (instrument & I' & ->).
    destruct (instruments_after_entries _ _ _ _ I') as [[] | [IL ES]]. auto.
Qed.

(** X6. The tick stream of a constructed client is ascending by timestamp
    and not empty. It holds the ticks of the providers and nothing else:
    a tick is in the stream exactly when some provider has it, and the
    stream is a rearrangement of the providers' ticks taken in provider
    order, so nothing is lost or repeated. *)
Theorem stream_merges_provider_ticks (venue : Venue.t) (data : BacktestDataContainer.t)
  (clock : TestClock) (logger : Logger) (self : client) :
  BacktestDataClient.__init__ venue data (Some clock) (Some logger) = Ok self ->
  let stream := BacktestDataClient.ticks self in
  let providers := BacktestDataClient.data_providers self in
  Sorted timestamp_le stream
  /\ stream <> []
  /\ Permutation stream (flat_map (fun entry => DataProvider.ticks (snd entry)) providers)
  /\ (forall tick,
        In tick stream
        <-> exists entry, In entry providers /\ In tick (DataProvider.ticks (snd entry))).
Proof.
  intros OK. cbv zeta.
  destruct (init_stores_sorted_ticks _ _ _ _ _ OK) as (_ & S & P & first & _ & rest & _ & E & _).
  rewrite concat_ticks_flat_map in P, E.
  split; [exact S |]. split.
  - intros N. rewrite N in P. apply Permutation_nil in P. rewrite E in P. discriminate P.
  - split; [exact P |]. intros tick. rewrite <- in_flat_map. split.
    + apply Permutation_in, P.
    + apply Permutation_in, Permutation_sym, P.
Qed.

(** X7. Sorting the stream is stable: the ticks that carry one timestamp
    appear in the stream in the order the providers list them, provider
    after provider. *)
Theorem stream_keeps_order_of_ties (venue : Venue.t) (data : BacktestDataContainer.t)
  (clock : TestClock) (logger : Logger) (self : client) (time : datetime) :
  BacktestDataClient.__init__ venue data (Some clock) (Some logger) = Ok self ->
  filter (fun tick => Tick.timestamp tick =? time) (BacktestDataClient.ticks self)
  = flat_map (fun entry =>
                filter (fun tick => Tick.timestamp tick =? time) (DataProvider.ticks (snd entry)))
      (BacktestDataClient.data_providers self).
Proof.
  intros OK.
  destruct (init_stores_sorted_ticks _ _ _ _ _ OK) as (E & _).
  rewrite E, sorted_filter, concat_ticks_flat_map.
  generalize (BacktestDataClient.data_providers self) as providers. clear.
  induction providers as [| p rest IH]; [reflexivity |].
  cbn [flat_map]. rewrite filter_app, IH. reflexivity.
Qed.

(** X8. When the providers' ticks, taken provider after provider, are
    already ascending by timestamp, the stream is that very list and the
    recorded bounds are true bounds: every tick of the stream lies
    between [min_timestamp] and [max_timestamp], and both are reached. *)
Theorem bounds_hold_for_ordered_providers (venue : Venue.t) (data : BacktestDataContainer.t)
  (clock : TestClock) (logger : Logger) (self : client) :
  BacktestDataClient.__init__ venue data (Some clock) (Some logger) = Ok self ->
  Sorted timestamp_le
    (flat_map (fun entry => DataProvider.ticks (snd entry))
       (BacktestDataClient.data_providers self)) ->
  BacktestDataClient.ticks self
  = flat_map (fun entry => DataProvider.ticks (snd entry))
      (BacktestDataClient.data_providers self)
  /\ exists low high,
       BacktestDataClient.min_timestamp self = Some low
       /\ BacktestDataClient.max_timestamp self = Some high
       /\ (forall tick, In tick (BacktestDataClient.ticks self) ->
                        low <= Tick.timestamp tick <= high)
       /\ (exists tick, In tick (BacktestDataClient.ticks self) /\ Tick.timestamp tick = low)
       /\ (exists tick, In tick (BacktestDataClient.ticks self) /\ Tick.timestamp tick = high).
Proof.
  intros OK S.
  destruct (init_stores_sorted_ticks _ _ _ _ _ OK)
    as (E & _ & _ & first & last & rest & front & EF & EL & MIN & MAX).
  rewrite concat_ticks_flat_map in E, EF, EL.
  rewrite (sorted_of_Sorted _ S) in E.
  split; [exact E |].
  exists (Tick.timestamp first), (Tick.timestamp last).
  split; [exact MIN |]. split; [exact MAX |]. rewrite E. split; [| split].
  - intros tick I. split.
    + rewrite EF in S, I. exact (Sorted_first_least _ _ S tick I).
    + rewrite EL in S, I. exact (Sorted_last_greatest _ _ S tick I).
  - exists first. split; [rewrite EF; left |]; reflexivity.
  - exists last. split; [rewrite EL; apply in_or_app; right; left |]; reflexivity.
Qed.

End Built.

(** ** Replaying ticks through [process_tick] *)

(** A tick handed to a tick handler. *)
Definition is_tick_call (e : Effect) : bool :=
  match e with
  | Call _ (ArgTick _) => true
  | _ => false
  end.

(** A callable called. *)
Definition is_call (e : Effect) : bool :=
  match e with
  | Call _ _ => true
  | _ => false
  end.

Section Replay.

Context {TestClock : Type} `{VirtualClock TestClock}.

Local Abbreviation client := (BacktestDataClient.t TestClock).

(** [self] with another clock and more effects in its trace: what a
    method that touches nothing else leaves behind. *)
Definition moved_on (clock : TestClock) (effects : list Effect) (self : client) : client :=
  BacktestDataClient.set_clock clock
    (BacktestDataClient.set_base
       (DataClient.set_trace (DataClient.trace (BacktestDataClient.base self) ++ effects)
          (BacktestDataClient.base self)) self).

Lemma moved_on_twice (c1 c2 : TestClock) (e1 e2 : list Effect) (self : client) :
  moved_on c2 e2 (moved_on c1 e1 self) = moved_on c2 (e1 ++ e2) self.
Proof.
  unfold moved_on, BacktestDataClient.set_clock, BacktestDataClient.set_base,
    DataClient.set_trace. simpl. rewrite app_assoc. reflexivity.
Qed.

Lemma filter_tick_calls (tick : Tick.t) (self : client) :
  filter is_tick_call (tick_calls tick self) = tick_calls tick self.
Proof.
  unfold tick_calls.
  induction (DataClient.handlers_of _ _) as [| h rest IH]; simpl; [reflexivity |].
  rewrite IH. reflexivity.
Qed.

Lemma filter_timer_calls (events : list (TimeEvent.t * Callable)) :
  filter is_tick_call (timer_calls events) = [].
Proof. induction events as [| x rest IH]; simpl; [reflexivity | exact IH]. Qed.

Lemma tick_calls_are_calls (tick : Tick.t) (self : client) :
  forallb is_call (tick_calls tick self) = true.
Proof.
  unfold tick_calls.
  induction (DataClient.handlers_of _ _) as [| h rest IH]; simpl; [reflexivity | exact IH].
Qed.

Lemma timer_calls_are_calls (events : list (TimeEvent.t * Callable)) :
  forallb is_call (timer_calls events) = true.
Proof. induction events as [| x rest IH]; simpl; [reflexivity | exact IH]. Qed.

Lemma process_tick_moves_on (tick : Tick.t) (self : client) :
  exists clock' events,
    BacktestDataClient.process_tick tick self
    = (Ok tt, moved_on clock' (tick_calls tick self ++ timer_calls events) self).
Proof.
  rewrite process_tick_run. cbv zeta.
  destruct (has_timers (BacktestDataClient._clock self)
            && (Tick.timestamp tick <? next_event_time (BacktestDataClient._clock self))).
  - exists (BacktestDataClient._clock self), []. unfold timer_calls. simpl.
    rewrite app_nil_r. destruct self. reflexivity.
  - eexists _, _. unfold moved_on, BacktestDataClient.set_clock, BacktestDataClient.set_base,
      DataClient.set_trace. simpl. rewrite <- app_assoc. reflexivity.
Qed.

(** X10. Feeding a list of ticks to [process_tick], one after the other,
    never raises and changes nothing of the client but its clock and its
    trace: handlers, instruments, providers, stream and bounds stay as
    they were. All it does is call callables, and the ticks reach the
    tick handlers in the order they were fed, each tick going to the
    handlers registered for its symbol when the replay started. *)
Theorem replay_delivers_ticks_in_order (ticks : list Tick.t) (self : client) :
  exists clock' effects,
    for_each ticks BacktestDataClient.process_tick self
    = (Ok tt, moved_on clock' effects self)
    /\ forallb is_call effects = true
    /\ filter is_tick_call effects = flat_map (fun tick => tick_calls tick self) ticks.
Proof.
  revert self. induction ticks as [| tick rest IH]; intros self.
  - exists (BacktestDataClient._clock self), []. cbn [for_each flat_map].
    split; [| split; reflexivity].
    unfold ret, moved_on. rewrite set_trace_same. destruct self. reflexivity.
  - destruct (process_tick_moves_on tick self) as (c1 & events & R1).
    destruct (IH (moved_on c1 (tick_calls tick self ++ timer_calls events) self))
      as (c2 & e2 & R2 & CALLS & TICKS).
    exists c2, ((tick_calls tick self ++ timer_calls events) ++ e2).
    cbn [for_each flat_map]. erewrite bind_ok by exact R1.
    rewrite R2, moved_on_twice. split; [reflexivity |]. split.
    + rewrite !forallb_app, CALLS, tick_calls_are_calls, timer_calls_are_calls. reflexivity.
    + rewrite !filter_app, filter_tick_calls, filter_timer_calls, TICKS, app_nil_r.
      reflexivity.
Qed.

End Replay.

(** ** When construction finds every bar table it reads *)

(** Both bar maps have an entry for the instrument's symbol, and the ask
    entry has a table at the granularity the provider picks from the bid
    entry. *)
Definition has_bars (data : BacktestDataContainer.t) (instrument : Instrument.t) : Prop :=
  exists bars_bid bars_ask,
    dict_get (Instrument.symbol instrument) (BacktestDataContainer.bars_bid data) = Some bars_bid
    /\ dict_get (Instrument.symbol instrument) (BacktestDataContainer.bars_ask data)
       = Some bars_ask
    /\ match finest_bid_structure bars_bid with
       | Some structure => dict_contains structure bars_ask = true
       | None => True
       end.

Lemma list_getitem_raises {A : Type} (l : list A) (i : Z) (e : Exn) :
  list_getitem l i = Raise e -> e = IndexError.
Proof.
  unfold list_getitem. cbv zeta.
  destruct (_ || _); [intros [= <-]; reflexivity |].
  destruct (nth_error _ _); [discriminate | intros [= <-]; reflexivity].
Qed.

Section CompleteBars.

Context {TestClock : Type} `{VirtualClock TestClock} `{TickDataWrangler}.

Local Abbreviation client := (BacktestDataClient.t TestClock).

Lemma DataProvider_init_ok {S : Type} (instrument : Instrument.t) (ticks : option DataFrame.t)
  (bars_bid bars_ask : list (BarStructure * DataFrame.t)) (s : S) :
  match finest_bid_structure bars_bid with
  | Some structure => dict_contains structure bars_ask = true
  | None => True
  end ->
  exists p, DataProvider.__init__ instrument ticks bars_bid bars_ask s = (Ok p, s).
Proof.
  unfold finest_bid_structure, DataProvider.__init__, dict_contains, dict_getitem,
    bind, liftR, ret.
  destruct (dict_get SECOND bars_bid).
  { destruct (dict_get SECOND bars_ask); [eexists; reflexivity | discriminate]. }
  destruct (dict_get MINUTE bars_bid).
  { destruct (dict_get MINUTE bars_ask); [eexists; reflexivity | discriminate]. }
  destruct (dict_get HOUR bars_bid).
  { destruct (dict_get HOUR bars_ask); [eexists; reflexivity | discriminate]. }
  intros _. eexists; reflexivity.
Qed.

Lemma provider_step_succeeds (data : BacktestDataContainer.t)
  (item : Symbol.t * Instrument.t) (self : client) :
  fst item = Instrument.symbol (snd item) ->
  has_bars data (snd item) ->
  exists self', provider_step data item self = (Ok tt, self').
Proof.
  intros K (bb & ba & GB & GA & F).
  unfold provider_step. cbv zeta.
  erewrite bind_ok by apply super_log_run.
  erewrite bind_ok by apply super_log_run.
  unfold dict_getitem. rewrite K, GB, GA.
  erewrite bind_ok by reflexivity.
  erewrite bind_ok by reflexivity.
  match goal with
  | |- context [bind (DataProvider.__init__ ?i ?t ?b ?a) _ ?s] =>
      destruct (DataProvider_init_ok i t b a s F) as (p & E)
  end.
  erewrite bind_ok by exact E.
  erewrite bind_ok by reflexivity.
  rewrite super_log_run. eexists. reflexivity.
Qed.

Lemma provider_loop_succeeds (data : BacktestDataContainer.t)
  (items : list (Symbol.t * Instrument.t)) :
  (forall item, In item items ->
                fst item = Instrument.symbol (snd item) /\ has_bars data (snd item)) ->
  forall self : client,
    exists self', for_each items (provider_step data) self = (Ok tt, self').
Proof.
  induction items as [| item rest IH]; intros ALL self.
  - exists self. reflexivity.
  - destruct (ALL item (or_introl eq_refl)) as [K B].
    destruct (provider_step_succeeds data item self K B) as (s1 & R1).
    destruct (IH (fun i I => ALL i (or_intror I)) s1) as (s2 & R2).
    exists s2. cbn [for_each]. erewrite bind_ok by exact R1. exact R2.
Qed.

(** X11. The converse of the missing-bars failure. If every instrument of
    the container has an entry in both bar maps, and the ask entry has a
    table at the granularity read from the bid entry, construction never
    raises [KeyError]: it returns a client, or raises [IndexError]
    because no provider produced a tick. *)
Theorem complete_bars_rule_out_key_error (venue : Venue.t) (data : BacktestDataContainer.t)
  (clock : TestClock) (logger : Logger) :
  (forall instrument,
     In instrument (dict_values (BacktestDataContainer.instruments data)) ->
     has_bars data instrument) ->
  (exists self, BacktestDataClient.__init__ venue data (Some clock) (Some logger) = Ok self)
  \/ BacktestDataClient.__init__ venue data (Some clock) (Some logger) = Raise IndexError.
Proof.
  intros ALL. unfold BacktestDataClient.__init__, BacktestDataClient.__init__body. cbv zeta.
  erewrite bind_ok by apply super_log_run.
  match goal with
  | |- context [bind (for_each ?l _) _ ?s0] =>
      destruct (handle_instruments_frame l s0) as (s2 & R2 & I2 & _)
  end.
  erewrite bind_ok by exact R2.
  erewrite bind_ok by apply instrument_check_never_fails.
  erewrite bind_ok by reflexivity.
  destruct (provider_loop_succeeds data
              (DataClient._instruments (BacktestDataClient.base s2))) with (self := s2)
    as (s5 & L5).
  { intros [k i] I. rewrite I2 in I. cbn in I.
    destruct (instruments_after_entries _ _ _ _ I) as [[] | [IL E]].
    split; [symmetry; exact E | apply ALL, IL]. }
  erewrite bind_ok by exact L5.
  erewrite bind_ok by reflexivity.
  erewrite bind_ok by reflexivity.
  destruct (list_getitem (BacktestDataClient.concat_ticks (BacktestDataClient.data_providers s5)) 0)
    as [first | e] eqn:F.
  2: { right. apply list_getitem_raises in F. subst e.
       erewrite bind_raise by reflexivity. reflexivity. }
  erewrite bind_ok by reflexivity.
  erewrite bind_ok by reflexivity.
  destruct (list_getitem (BacktestDataClient.concat_ticks (BacktestDataClient.data_providers s5))
              (-1)) as [last | e] eqn:L.
  2: { right. apply list_getitem_raises in L. subst e.
       erewrite bind_raise by reflexivity. reflexivity. }
  erewrite bind_ok by reflexivity.
  left. eexists. reflexivity.
Qed.

End CompleteBars.

(** ** The simulated operations of [BacktestDataClient] *)

(** More of the [Condition] checks. *)
Module Conditions.

(** Modelled from the spec: [Condition.type(argument, Callable, param)],
    absent from the sources. A non-callable argument, [None] included, is
    a precondition violation. *)
Definition type_ {S : Type} (argument : PyObject) (param : string) : M S Callable :=
  match argument with
  | PyCallable f => ret f
  | _ => raise (ConditionFailed param)
  end.

(** Modelled from the spec: [Condition.type_or_none(argument, Callable,
    param)], absent from the sources. As [type_], but [None] passes. *)
Definition type_or_none {S : Type} (argument : PyObject) (param : string)
  : M S (option Callable) :=
  match argument with
  | PyCallable f => ret (Some f)
  | PyNone => ret None
  | PyOther _ => raise (ConditionFailed param)
  end.

(** Modelled from the spec: [Condition.is_in(key, dictionary, param,
    dict_name)], absent from the sources. A key the dictionary does not
    hold is a precondition violation. *)
Definition is_in {S K V : Type} `{EqKey K} (key : K) (dictionary : list (K * V))
  (param : string) : M S unit :=
  if dict_contains key dictionary then ret tt else raise (ConditionFailed param).

End Conditions.

(** The operations of [BacktestDataClient] that stand in for the traffic
    with a data service. Symbols and bar types are taken to be present.
    Every one of them is a [cpdef void] method without an [except]
    clause: a check that fails, or a lookup that finds nothing, ends the
    call, and the call returns. *)
Module BacktestOperations.

Section Methods.

Context {TestClock : Type}.

(** [str(datetime)] and [str(bar_type)], used in log lines only. *)
Variable str_datetime : datetime -> string.
Variable str_bar_type : BarType.t -> string.

(** What the registry holds for a handler given as [None]: the choice is
    the base class's, outside the sources. *)
Variable none_handler : Callable.

Local Abbreviation client := (BacktestDataClient.t TestClock).

Definition info (parts : list string) : M client unit :=
  BacktestDataClient.super (DataClient.log INFO (String.concat "" parts)).

Definition connect : M client unit := cpdef_void (info ["Connected."]).

Definition disconnect : M client unit := cpdef_void (info ["Disconnected."]).

Definition dispose : M client unit := cpdef_void (ret tt).

Definition request_ticks (symbol : Symbol.t) (from_datetime to_datetime : datetime)
  (callback : PyObject) : M client unit :=
  cpdef_void
    (callback <- Conditions.type_ callback "callback" ;;
     info ["Simulated request ticks for "; Symbol.value symbol; " from ";
           str_datetime from_datetime; " to "; str_datetime to_datetime; "."]).

Definition request_bars (bar_type : BarType.t) (from_datetime to_datetime : datetime)
  (callback : PyObject) : M client unit :=
  cpdef_void
    (callback <- Conditions.type_ callback "callback" ;;
     info ["Simulated request bars for "; str_bar_type bar_type; " from ";
           str_datetime from_datetime; " to "; str_datetime to_datetime; "."]).

Definition request_instrument (symbol : Symbol.t) (callback : PyObject) : M client unit :=
  cpdef_void
    (callback <- Conditions.type_ callback "callback" ;;
     info ["Requesting instrument for "; Symbol.value symbol; "..."] ;;
     instruments <- gets (fun self : client =>
                            DataClient._instruments (BacktestDataClient.base self)) ;;
     instrument <- liftR (dict_getitem symbol instruments) ;;
     BacktestDataClient.super (DataClient.call callback (ArgInstrument instrument))).

Definition request_instruments (callback : PyObject) : M client unit :=
  cpdef_void
    (callback <- Conditions.type_ callback "callback" ;;
     venue <- gets (@BacktestDataClient.venue TestClock) ;;
     info ["Requesting all instruments for the "; Venue.value venue; " ..."] ;;
     instruments <- gets (fun self : client =>
                            DataClient._instruments (BacktestDataClient.base self)) ;;
     BacktestDataClient.super
       (DataClient.call callback (ArgInstruments (dict_values instruments)))).

Definition handler_or_none (handler : option Callable) : Callable :=
  match handler with
  | Some f => f
  | None => none_handler
  end.

Definition subscribe_ticks (symbol : Symbol.t) (handler : PyObject) : M client unit :=
  cpdef_void
    (data_providers <- gets (@BacktestDataClient.data_providers TestClock) ;;
     Conditions.is_in symbol data_providers "symbol" ;;
     handler <- Conditions.type_or_none handler "handler" ;;
     BacktestDataClient.super (DataClient._add_tick_handler symbol (handler_or_none handler))).

Definition subscribe_instrument (symbol : Symbol.t) (handler : PyObject) : M client unit :=
  cpdef_void
    (handler <- Conditions.type_ handler "handler" ;;
     info ["Simulated subscribe to "; Symbol.value symbol; " instrument updates ";
           "(a backtest data client wont update an instrument)."]).

Definition unsubscribe_ticks (symbol : Symbol.t) (handler : PyObject) : M client unit :=
  cpdef_void
    (data_providers <- gets (@BacktestDataClient.data_providers TestClock) ;;
     Conditions.is_in symbol data_providers "symbol" ;;
     handler <- Conditions.type_or_none handler "handler" ;;
     BacktestDataClient.super (DataClient._remove_tick_handler symbol (handler_or_none handler))).

Definition unsubscribe_bars (bar_type : BarType.t) (handler : PyObject) : M client unit :=
  cpdef_void
    (data_providers <- gets (@BacktestDataClient.data_providers TestClock) ;;
     Conditions.is_in (BarType.symbol bar_type) data_providers "symbol" ;;
     handler <- Conditions.type_or_none handler "handler" ;;
     BacktestDataClient.super (DataClient._remove_bar_handler bar_type (handler_or_none handler))).

Definition unsubscribe_instrument (symbol : Symbol.t) (handler : PyObject) : M client unit :=
  cpdef_void
    (handler <- Conditions.type_ handler "handler" ;;
     info ["Simulated unsubscribe from "; Symbol.value symbol; " instrument updates ";
           "(a backtest data client will not update an instrument)."]).

Definition update_instruments : M client unit :=
  cpdef_void
    (venue <- gets (@BacktestDataClient.venue TestClock) ;;
     info ["Simulated update all instruments for the "; Venue.value venue; " venue ";
           "(a backtest data client already has all instruments needed)."]).

(** The operations that only pretend to talk to a service, as calls with
    their arguments. *)
Inductive Simulated : Type :=
| Connect
| Disconnect
| Dispose
| RequestTicks (symbol : Symbol.t) (from_datetime to_datetime : datetime) (callback : PyObject)
| RequestBars (bar_type : BarType.t) (from_datetime to_datetime : datetime) (callback : PyObject)
| SubscribeInstrument (symbol : Symbol.t) (handler : PyObject)
| UnsubscribeInstrument (symbol : Symbol.t) (handler : PyObject)
| UpdateInstruments.

Definition run_simulated (c : Simulated) : M client unit :=
  match c with
  | Connect => connect
  | Disconnect => disconnect
  | Dispose => dispose
  | RequestTicks symbol from_datetime to_datetime callback =>
      request_ticks symbol from_datetime to_datetime callback
  | RequestBars bar_type from_datetime to_datetime callback =>
      request_bars bar_type from_datetime to_datetime callback
  | SubscribeInstrument symbol handler => subscribe_instrument symbol handler
  | UnsubscribeInstrument symbol handler => unsubscribe_instrument symbol handler
  | UpdateInstruments => update_instruments
  end.

(** The argument of a simulated operation that has to be a callable. *)
Definition callable_argument (c : Simulated) : option PyObject :=
  match c with
  | RequestTicks _ _ _ callback | RequestBars _ _ _ callback => Some callback
  | SubscribeInstrument _ handler | UnsubscribeInstrument _ handler => Some handler
  | Connect | Disconnect | Dispose | UpdateInstruments => None
  end.

End Methods.

End BacktestOperations.

(** ** The handler registry *)

Lemma Callable_eqb_eq (a b : Callable) : Callable_eqb a b = true <-> a = b.
Proof.
  destruct a as [i | x | |], b as [j | y | |]; simpl;
    try (split; [discriminate | discriminate]); try (split; reflexivity).
  - rewrite Nat.eqb_eq. split; [intros -> | intros [= ->]]; reflexivity.
  - change (BarType.eqb x y) with (key_eqb x y). rewrite BarType_eqb_eq.
    split; [intros -> | intros [= ->]]; reflexivity.
Qed.

Lemma remove_first_last (h : Callable) (handlers : list Callable) :
  ~ In h handlers -> DataClient.remove_first h (handlers ++ [h]) = handlers.
Proof.
  induction handlers as [| x rest IH]; simpl; intros N.
  - replace (Callable_eqb h h) with true; [reflexivity |].
    symmetry. apply Callable_eqb_eq. reflexivity.
  - destruct (Callable_eqb h x) eqn:E.
    + apply Callable_eqb_eq in E. subst x. exfalso. apply N. left. reflexivity.
    + rewrite IH; [reflexivity |]. intros I. apply N. right. exact I.
Qed.

Section Registry.

Context {K : Type} `{EqKey K}.

Hypothesis key_eqb_eq : forall a b : K, key_eqb a b = true <-> a = b.

Lemma key_eqb_same (k : K) : key_eqb k k = true.
Proof. apply key_eqb_eq. reflexivity. Qed.

Lemma handlers_of_add_same (k : K) (h : Callable) (table : list (K * list Callable)) :
  DataClient.handlers_of k (DataClient.registry_add k h table)
  = DataClient.handlers_of k table ++ [h].
Proof.
  unfold DataClient.handlers_of, DataClient.registry_add.
  destruct (dict_get k table) as [handlers |];
    rewrite (dict_get_set_same k _ table (key_eqb_same k)); reflexivity.
Qed.

Lemma handlers_of_add_other (k k2 : K) (h : Callable) (table : list (K * list Callable)) :
  k <> k2 ->
  DataClient.handlers_of k (DataClient.registry_add k2 h table) = DataClient.handlers_of k table.
Proof.
  intros N. unfold DataClient.handlers_of, DataClient.registry_add.
  destruct (dict_get k2 table) as [handlers |];
    rewrite (dict_get_set_other key_eqb_eq _ _ _ _ N); reflexivity.
Qed.

Lemma dict_get_del_same {V : Type} (k : K) (d : list (K * V)) :
  NoDup (dict_keys d) -> dict_get k (dict_del k d) = None.
Proof.
  induction d as [| [k' v'] rest IH]; simpl; intros ND; [reflexivity |].
  inversion ND as [| ? ? NI ND']; subst.
  destruct (key_eqb k k') eqn:E.
  - apply key_eqb_eq in E. subst k'. apply (dict_get_none_keys key_eqb_eq). exact NI.
  - simpl. rewrite E. exact (IH ND').
Qed.

Lemma dict_get_del_other {V : Type} (k k2 : K) (d : list (K * V)) :
  k <> k2 -> dict_get k (dict_del k2 d) = dict_get k d.
Proof.
  intros N. induction d as [| [k' v'] rest IH]; simpl; [reflexivity |].
  destruct (key_eqb k2 k') eqn:E2; simpl.
  - apply key_eqb_eq in E2. subst k'.
    rewrite (key_eqb_neq key_eqb_eq _ _ N). reflexivity.
  - destruct (key_eqb k k'); [reflexivity | exact IH].
Qed.

Lemma handlers_of_remove_other (k k2 : K) (h : Callable) (table : list (K * list Callable)) :
  k <> k2 ->
  DataClient.handlers_of k (DataClient.registry_remove k2 h table)
  = DataClient.handlers_of k table.
Proof.
  intros N. unfold DataClient.handlers_of, DataClient.registry_remove.
  destruct (dict_get k2 table) as [handlers |]; [| reflexivity].
  destruct (DataClient.remove_first h handlers).
  - rewrite (dict_get_del_other _ _ _ N). reflexivity.
  - rewrite (dict_get_set_other key_eqb_eq _ _ _ _ N). reflexivity.
Qed.

Lemma handlers_of_remove_same (k : K) (h : Callable) (table : list (K * list Callable)) :
  NoDup (dict_keys table) ->
  DataClient.handlers_of k (DataClient.registry_remove k h table)
  = DataClient.remove_first h (DataClient.handlers_of k table).
Proof.
  intros ND. unfold DataClient.handlers_of, DataClient.registry_remove.
  destruct (dict_get k table) as [handlers |] eqn:G; [| rewrite G; reflexivity].
  destruct (DataClient.remove_first h handlers) as [| x rest] eqn:R.
  - rewrite (dict_get_del_same _ _ ND). reflexivity.
  - rewrite (dict_get_set_same k _ table (key_eqb_same k)). reflexivity.
Qed.

Lemma registry_add_NoDup (k : K) (h : Callable) (table : list (K * list Callable)) :
  NoDup (dict_keys table) -> NoDup (dict_keys (DataClient.registry_add k h table)).
Proof.
  intros ND. unfold DataClient.registry_add.
  destruct (dict_get k table); apply (dict_set_NoDup key_eqb_eq), ND.
Qed.

End Registry.

(** ** What the simulated operations do *)

Definition is_log (e : Effect) : bool :=
  match e with
  | Log _ _ => true
  | _ => false
  end.

Section Simulated.

Context {TestClock : Type} `{VirtualClock TestClock} `{TickDataWrangler}.

Variable str_datetime : datetime -> string.
Variable str_bar_type : BarType.t -> string.
Variable none_handler : Callable.

Local Abbreviation client := (BacktestDataClient.t TestClock).

(** Whether a simulated operation writes its log line: all do but
    [dispose], unless the argument that has to be a callable is not one. *)
Definition writes_log_line (c : BacktestOperations.Simulated) : bool :=
  match c with
  | BacktestOperations.Dispose => false
  | _ =>
      match BacktestOperations.callable_argument c with
      | Some PyNone | Some (PyOther _) => false
      | Some (PyCallable _) | None => true
      end
  end.

(** X12. The operations of the backtest client that stand in for service
    traffic (connect, disconnect, dispose, the tick and bar requests,
    the instrument subscriptions and the instrument update) always
    return, and all they do is write one line to the log; [dispose]
    does nothing. A request never calls its callback and nothing is
    registered. When a callback or handler is not a callable, [None]
    included, the check fails inside the method and the call returns
    without the log line, the client left exactly as it was. *)
Theorem simulated_operations_only_log (c : BacktestOperations.Simulated) (self : client) :
  exists effects,
    BacktestOperations.run_simulated str_datetime str_bar_type c self
    = (Ok tt, moved_on (BacktestDataClient._clock self) effects self)
    /\ if writes_log_line c
       then exists msg, effects = [Log INFO msg]
       else effects = [].
Proof.
  assert (QUIET : (Ok tt, self) = (Ok tt, moved_on (BacktestDataClient._clock self) [] self)).
  { unfold moved_on. rewrite set_trace_same. destruct self. reflexivity. }
  destruct c as [| | | symbol f t callback | bar_type f t callback
                 | symbol handler | symbol handler |];
    cbn [BacktestOperations.run_simulated writes_log_line
         BacktestOperations.callable_argument];
    try (eexists [_]; split; [reflexivity | eexists; reflexivity]).
  - exists []. split; [exact QUIET | reflexivity].
  - destruct callback;
      [exists []; split; [exact QUIET | reflexivity]
      | eexists [_]; split; [reflexivity | eexists; reflexivity]
      | exists []; split; [exact QUIET | reflexivity]].
  - destruct callback;
      [exists []; split; [exact QUIET | reflexivity]
      | eexists [_]; split; [reflexivity | eexists; reflexivity]
      | exists []; split; [exact QUIET | reflexivity]].
  - destruct handler;
      [exists []; split; [exact QUIET | reflexivity]
      | eexists [_]; split; [reflexivity | eexists; reflexivity]
      | exists []; split; [exact QUIET | reflexivity]].
  - destruct handler;
      [exists []; split; [exact QUIET | reflexivity]
      | eexists [_]; split; [reflexivity | eexists; reflexivity]
      | exists []; split; [exact QUIET | reflexivity]].
Qed.

(** X13. On a constructed client, [request_instrument] answers from the
    instruments the container supplied. For the symbol of one of them the
    callback is called, once and after the log line, with an instrument
    of the container that carries the symbol. For any other symbol the
    lookup fails after the log line: the callback is not called, and
    the call returns all the same, since the method cannot raise. *)
Theorem request_instrument_after_construction (venue : Venue.t)
  (data : BacktestDataContainer.t) (clock : TestClock) (logger : Logger) (self : client)
  (symbol : Symbol.t) (f : Callable) :
  BacktestDataClient.__init__ venue data (Some clock) (Some logger) = Ok self ->
  let supplied := dict_values (BacktestDataContainer.instruments data) in
  let r := BacktestOperations.request_instrument symbol (PyCallable f) self in
  ((exists i, In i supplied /\ Instrument.symbol i = symbol) ->
   exists msg instrument,
     In instrument supplied
     /\ Instrument.symbol instrument = symbol
     /\ r = (Ok tt,
             moved_on (BacktestDataClient._clock self)
               [Log INFO msg; Call f (ArgInstrument instrument)] self))
  /\ ((forall i, In i supplied -> Instrument.symbol i <> symbol) ->
      exists msg,
        r = (Ok tt, moved_on (BacktestDataClient._clock self) [Log INFO msg] self)).
Proof.
  intros OK. cbv zeta.
  destruct (init_providers _ _ _ _ _ OK) as (I & _).
  unfold BacktestOperations.request_instrument, BacktestOperations.info, cpdef_void.
  erewrite bind_ok by reflexivity.
  erewrite bind_ok by apply super_log_run.
  erewrite bind_ok by reflexivity.
  cbn [BacktestDataClient.base BacktestDataClient.set_base DataClient._instruments
       DataClient.set_trace].
  rewrite I. unfold dict_getitem. split.
  - intros (i & IN & E). subst symbol.
    destruct (instruments_after_has _ i IN []) as (y & G).
    rewrite G. erewrite bind_ok by reflexivity.
    destruct (dict_get_in _ _ _ G) as (k' & IN' & EK).
    apply Symbol_eqb_eq in EK. subst k'.
    destruct (instruments_after_entries _ _ _ _ IN') as [[] | [IY EY]].
    eexists _, y. split; [exact IY |]. split; [exact EY |].
    unfold moved_on, BacktestDataClient.super, lift, DataClient.call, DataClient.effect, modify,
      BacktestDataClient.set_clock, BacktestDataClient.set_base, DataClient.set_trace.
    simpl. rewrite <- app_assoc. reflexivity.
  - intros NONE.
    assert (G : dict_get symbol
                  (instruments_after (dict_values (BacktestDataContainer.instruments data)) [])
                = None).
    { apply (dict_get_none_keys Symbol_eqb_eq). rewrite instruments_after_keys.
      intros [[] | (i & IN & E)]. exact (NONE i IN E). }
    rewrite G. erewrite bind_raise by reflexivity.
    eexists. reflexivity.
Qed.


Lemma backtest_subscribe_ticks_run (symbol : Symbol.t) (h : Callable) (self : client) :
  dict_contains symbol (BacktestDataClient.data_providers self) = true ->
  exists self',
    BacktestOperations.subscribe_ticks none_handler symbol (PyCallable h) self = (Ok tt, self')
    /\ BacktestDataClient.data_providers self' = BacktestDataClient.data_providers self
    /\ DataClient._tick_handlers (BacktestDataClient.base self')
       = DataClient.registry_add symbol h
           (DataClient._tick_handlers (BacktestDataClient.base self)).
Proof.
  intros P. unfold BacktestOperations.subscribe_ticks, Conditions.is_in, cpdef_void.
  erewrite bind_ok by reflexivity. rewrite P.
  erewrite bind_ok by reflexivity.
  erewrite bind_ok by reflexivity.
  eexists. split; [reflexivity |]. split; reflexivity.
Qed.

Lemma backtest_unsubscribe_ticks_run (symbol : Symbol.t) (h : Callable) (self : client) :
  dict_contains symbol (BacktestDataClient.data_providers self) = true ->
  exists self',
    BacktestOperations.unsubscribe_ticks none_handler symbol (PyCallable h) self = (Ok tt, self')
    /\ BacktestDataClient.data_providers self' = BacktestDataClient.data_providers self
    /\ DataClient._tick_handlers (BacktestDataClient.base self')
       = DataClient.registry_remove symbol h
           (DataClient._tick_handlers (BacktestDataClient.base self)).
Proof.
  intros P. unfold BacktestOperations.unsubscribe_ticks, Conditions.is_in, cpdef_void.
  erewrite bind_ok by reflexivity. rewrite P.
  erewrite bind_ok by reflexivity.
  erewrite bind_ok by reflexivity.
  eexists. split; [reflexivity |]. split; reflexivity.
Qed.

(** X15. Unsubscribing undoes a subscription. If a handler that is not yet
    registered for a symbol is subscribed to its ticks and then
    unsubscribed, both calls return and every tick goes to exactly the
    handlers it went to before. *)
Theorem unsubscribe_ticks_undoes_subscribe (symbol : Symbol.t) (h : Callable) (self : client) :
  dict_contains symbol (BacktestDataClient.data_providers self) = true ->
  NoDup (dict_keys (DataClient._tick_handlers (BacktestDataClient.base self))) ->
  ~ In h (DataClient.handlers_of symbol
            (DataClient._tick_handlers (BacktestDataClient.base self))) ->
  let r := (BacktestOperations.subscribe_ticks none_handler symbol (PyCallable h) ;;
            BacktestOperations.unsubscribe_ticks none_handler symbol (PyCallable h))%py self in
  fst r = Ok tt
  /\ forall tick, tick_calls tick (snd r) = tick_calls tick self.
Proof.
  intros P ND FRESH. cbv zeta.
  destruct (backtest_subscribe_ticks_run symbol h self P) as (s1 & R1 & P1 & T1).
  rewrite <- P1 in P.
  destruct (backtest_unsubscribe_ticks_run symbol h s1 P) as (s2 & R2 & _ & T2).
  erewrite bind_ok by exact R1. rewrite R2.
  split; [reflexivity |].
  intros tick. unfold tick_calls. cbn [snd]. rewrite T2, T1. f_equal.
  destruct (key_eqb (Tick.symbol tick) symbol) eqn:E.
  - apply Symbol_eqb_eq in E. rewrite E.
    rewrite (handlers_of_remove_same Symbol_eqb_eq)
      by (apply (registry_add_NoDup Symbol_eqb_eq), ND).
    rewrite (handlers_of_add_same Symbol_eqb_eq). apply remove_first_last, FRESH.
  - assert (N : Tick.symbol tick <> symbol).
    { intros EQ. rewrite EQ, Symbol_eqb_refl in E. discriminate E. }
    rewrite (handlers_of_remove_other Symbol_eqb_eq _ _ _ _ N).
    apply (handlers_of_add_other Symbol_eqb_eq _ _ _ _ N).
Qed.

End Simulated.

(** ** Closed runs of the backtest client *)

Module BacktestFixtures.

(** A backtest client with a provider and one tick handler for [AUDUSD]. *)
Definition provided_client : BacktestDataClient.t TestClock.t :=
  BacktestDataClient.Build
    (DataClient.Build [(Fixtures.AUDUSD, [Fn 1])] [] []
       [(Fixtures.AUDUSD, Instrument.Build Fixtures.AUDUSD 5)] [] [])
    Fixtures.FXCM Fixtures.idle_clock
    [(Fixtures.AUDUSD,
      DataProvider.Build (Instrument.Build Fixtures.AUDUSD 5) [Fixtures.tick_at 10])]
    [Fixtures.tick_at 10] (Some 10) (Some 10).

End BacktestFixtures.

Ltac run_constructor :=
  match goal with
  | |- exists c, ?r = Ok c /\ _ =>
      let res := fresh "res" in
      let E := fresh "E" in
      remember r as res eqn:E; vm_compute in E; subst res;
      eexists; split; [reflexivity |]
  end.

(** X5, witness: the container with two instruments. *)
Lemma one_provider_per_instrument_witness :
  exists self,
    @BacktestDataClient.__init__ TestClock.t Fixtures.wrangler Fixtures.FXCM
      Fixtures.data_two_instruments (Some Fixtures.idle_clock) (Some TestLogger)
    = Ok self
    /\ (Forall2 provides (DataClient._instruments (BacktestDataClient.base self))
          (BacktestDataClient.data_providers self)
        /\ NoDup (dict_keys (BacktestDataClient.data_providers self))
        /\ (forall symbol,
              In symbol (dict_keys (BacktestDataClient.data_providers self))
              <-> exists instrument,
                    In instrument
                       (dict_values
                          (BacktestDataContainer.instruments Fixtures.data_two_instruments))
                    /\ Instrument.symbol instrument = symbol)
        /\ (forall symbol provider,
              In (symbol, provider) (BacktestDataClient.data_providers self) ->
              dict_get symbol (BacktestDataClient.data_providers self) = Some provider
              /\ Instrument.symbol (DataProvider.instrument provider) = symbol
              /\ In (DataProvider.instrument provider)
                    (dict_values
                       (BacktestDataContainer.instruments Fixtures.data_two_instruments)))).
Proof.
  run_constructor.
  refine (@one_provider_per_instrument TestClock.t Fixtures.wrangler Fixtures.FXCM
            Fixtures.data_two_instruments Fixtures.idle_clock TestLogger _ _).
  vm_compute. reflexivity.
Defined.

(** X6, witness: the container with two instruments. *)
Lemma stream_merges_provider_ticks_witness :
  exists self,
    @BacktestDataClient.__init__ TestClock.t Fixtures.wrangler Fixtures.FXCM
      Fixtures.data_two_instruments (Some Fixtures.idle_clock) (Some TestLogger)
    = Ok self
    /\ (Sorted timestamp_le (BacktestDataClient.ticks self)
        /\ BacktestDataClient.ticks self <> []
        /\ Permutation (BacktestDataClient.ticks self)
             (flat_map (fun entry => DataProvider.ticks (snd entry))
                (BacktestDataClient.data_providers self))
        /\ (forall tick,
              In tick (BacktestDataClient.ticks self)
              <-> exists entry,
                    In entry (BacktestDataClient.data_providers self)
                    /\ In tick (DataProvider.ticks (snd entry)))).
Proof.
  run_constructor.
  refine (@stream_merges_provider_ticks TestClock.t Fixtures.wrangler Fixtures.FXCM
            Fixtures.data_two_instruments Fixtures.idle_clock TestLogger _ _).
  vm_compute. reflexivity.
Defined.

(** X7, witness: the container with two instruments, at time 10. *)
Lemma stream_keeps_order_of_ties_witness :
  exists self,
    @BacktestDataClient.__init__ TestClock.t Fixtures.wrangler Fixtures.FXCM
      Fixtures.data_two_instruments (Some Fixtures.idle_clock) (Some TestLogger)
    = Ok self
    /\ filter (fun tick => Tick.timestamp tick =? 10) (BacktestDataClient.ticks self)
       = flat_map (fun entry =>
                     filter (fun tick => Tick.timestamp tick =? 10)
                       (DataProvider.ticks (snd entry)))
           (BacktestDataClient.data_providers self).
Proof.
  run_constructor.
  refine (@stream_keeps_order_of_ties TestClock.t Fixtures.wrangler Fixtures.FXCM
            Fixtures.data_two_instruments Fixtures.idle_clock TestLogger _ 10 _).
  vm_compute. reflexivity.
Defined.

(** X8, witness: one instrument whose ticks are in ascending order. *)
Lemma bounds_hold_for_ordered_providers_witness :
  exists self,
    @BacktestDataClient.__init__ TestClock.t Fixtures.wrangler Fixtures.FXCM
      Fixtures.data_without_instrument (Some Fixtures.idle_clock) (Some TestLogger)
    = Ok self
    /\ Sorted timestamp_le
         (flat_map (fun entry => DataProvider.ticks (snd entry))
            (BacktestDataClient.data_providers self))
    /\ BacktestDataClient.ticks self
       = flat_map (fun entry => DataProvider.ticks (snd entry))
           (BacktestDataClient.data_providers self)
    /\ exists low high,
         BacktestDataClient.min_timestamp self = Some low
         /\ BacktestDataClient.max_timestamp self = Some high
         /\ (forall tick, In tick (BacktestDataClient.ticks self) ->
                          low <= Tick.timestamp tick <= high)
         /\ (exists tick, In tick (BacktestDataClient.ticks self) /\ Tick.timestamp tick = low)
         /\ (exists tick, In tick (BacktestDataClient.ticks self) /\ Tick.timestamp tick = high).
Proof.
  run_constructor.
  match goal with
  | |- ?S /\ _ => assert (ORDERED : S)
  end.
  { cbn. repeat (constructor; try (unfold timestamp_le; simpl; lia)). }
  split; [exact ORDERED |].
  refine (@bounds_hold_for_ordered_providers TestClock.t Fixtures.wrangler Fixtures.FXCM
            Fixtures.data_without_instrument Fixtures.idle_clock TestLogger _ _ ORDERED).
  vm_compute. reflexivity.
Defined.

(** X11, witness: an instrument supplied with minute bars on both sides. *)
Lemma complete_bars_rule_out_key_error_witness :
  (forall instrument,
     In instrument (dict_values (BacktestDataContainer.instruments Fixtures.data_bars_only)) ->
     has_bars Fixtures.data_bars_only instrument)
  /\ ((exists self,
         @BacktestDataClient.__init__ TestClock.t Fixtures.wrangler Fixtures.FXCM
           Fixtures.data_bars_only (Some Fixtures.idle_clock) (Some TestLogger)
         = Ok self)
      \/ @BacktestDataClient.__init__ TestClock.t Fixtures.wrangler Fixtures.FXCM
           Fixtures.data_bars_only (Some Fixtures.idle_clock) (Some TestLogger)
         = Raise IndexError).
Proof.
  assert (ALL : forall instrument,
            In instrument
               (dict_values (BacktestDataContainer.instruments Fixtures.data_bars_only)) ->
            has_bars Fixtures.data_bars_only instrument).
  { intros instrument [<- | []].
    exists [(MINUTE, [Fixtures.row 0 70000 70001; Fixtures.row 60 70001 70002])],
           [(MINUTE, [Fixtures.row 0 70002 70003; Fixtures.row 60 70003 70004])].
    repeat split. }
  split; [exact ALL |].
  exact (@complete_bars_rule_out_key_error TestClock.t Fixtures.wrangler Fixtures.FXCM
           Fixtures.data_bars_only Fixtures.idle_clock TestLogger ALL).
Defined.

(** X13, witness: a request for the one instrument of the container. *)
Lemma request_instrument_after_construction_witness :
  exists self,
    @BacktestDataClient.__init__ TestClock.t Fixtures.wrangler Fixtures.FXCM
      Fixtures.data_without_instrument (Some Fixtures.idle_clock) (Some TestLogger)
    = Ok self
    /\ (((exists i,
            In i (dict_values
                    (BacktestDataContainer.instruments Fixtures.data_without_instrument))
            /\ Instrument.symbol i = Fixtures.AUDUSD) ->
         exists msg instrument,
           In instrument
              (dict_values (BacktestDataContainer.instruments Fixtures.data_without_instrument))
           /\ Instrument.symbol instrument = Fixtures.AUDUSD
           /\ BacktestOperations.request_instrument Fixtures.AUDUSD (PyCallable (Fn 1)) self
              = (Ok tt,
                 moved_on (BacktestDataClient._clock self)
                   [Log INFO msg; Call (Fn 1) (ArgInstrument instrument)] self))
        /\ ((forall i,
               In i (dict_values
                       (BacktestDataContainer.instruments Fixtures.data_without_instrument)) ->
               Instrument.symbol i <> Fixtures.AUDUSD) ->
            exists msg,
              BacktestOperations.request_instrument Fixtures.AUDUSD (PyCallable (Fn 1)) self
              = (Ok tt,
                 moved_on (BacktestDataClient._clock self) [Log INFO msg] self))).
Proof.
  run_constructor.
  refine (@request_instrument_after_construction TestClock.t Fixtures.wrangler Fixtures.FXCM
            Fixtures.data_without_instrument Fixtures.idle_clock TestLogger _
            Fixtures.AUDUSD (Fn 1) _).
  vm_compute. reflexivity.
Defined.

(** X15, witness: a second handler for [AUDUSD], subscribed and then
    unsubscribed. *)
Lemma unsubscribe_ticks_undoes_subscribe_witness :
  dict_contains Fixtures.AUDUSD
    (BacktestDataClient.data_providers BacktestFixtures.provided_client) = true
  /\ NoDup (dict_keys (DataClient._tick_handlers
                         (BacktestDataClient.base BacktestFixtures.provided_client)))
  /\ ~ In (Fn 2)
          (DataClient.handlers_of Fixtures.AUDUSD
             (DataClient._tick_handlers
                (BacktestDataClient.base BacktestFixtures.provided_client)))
  /\ fst ((BacktestOperations.subscribe_ticks (Fn 0) Fixtures.AUDUSD (PyCallable (Fn 2)) ;;
           BacktestOperations.unsubscribe_ticks (Fn 0) Fixtures.AUDUSD (PyCallable (Fn 2)))%py
            BacktestFixtures.provided_client) = Ok tt
  /\ forall tick,
       tick_calls tick
         (snd ((BacktestOperations.subscribe_ticks (Fn 0) Fixtures.AUDUSD (PyCallable (Fn 2)) ;;
                BacktestOperations.unsubscribe_ticks (Fn 0) Fixtures.AUDUSD
                  (PyCallable (Fn 2)))%py
                 BacktestFixtures.provided_client))
       = tick_calls tick BacktestFixtures.provided_client.
Proof.
  assert (P : dict_contains Fixtures.AUDUSD
                (BacktestDataClient.data_providers BacktestFixtures.provided_client) = true)
    by reflexivity.
  assert (ND : NoDup (dict_keys (DataClient._tick_handlers
                                   (BacktestDataClient.base BacktestFixtures.provided_client)))).
  { repeat constructor. intros []. }
  assert (FRESH : ~ In (Fn 2)
                      (DataClient.handlers_of Fixtures.AUDUSD
                         (DataClient._tick_handlers
                            (BacktestDataClient.base BacktestFixtures.provided_client)))).
  { intros [D | []]. discriminate D. }
  split; [exact P |]. split; [exact ND |]. split; [exact FRESH |].
  exact (@unsubscribe_ticks_undoes_subscribe TestClock.t (Fn 0) Fixtures.AUDUSD (Fn 2)
           BacktestFixtures.provided_client P ND FRESH).
Defined.

(* ===================================================================== *)
(** * More of the live data client                                        *)
(* ===================================================================== *)

(** ** How a request can end *)

Section LiveOutcomes.

Context `{Collaborators}.

Local Abbreviation live := LiveDataClient.t.

(** The callback argument of a request operation. *)
Definition callback_of (c : LiveDataClient.RequestCall) : PyObject :=
  match c with
  | LiveDataClient.RequestTicks _ _ _ _ callback
  | LiveDataClient.RequestBars _ _ _ _ callback
  | LiveDataClient.RequestInstrument _ callback
  | LiveDataClient.RequestInstruments _ callback => callback
  end.

(** The exceptions a reply that cannot be used raises: a missing entry, an
    empty list of items, a subject that is not the requested one. *)
Definition bad_reply (e : Exn) : Prop :=
  e = KeyError \/ e = IndexError \/ e = AssertionError.

(** What a reply handler does with a reply: it logs a rejection, or calls
    the callback, or raises; it does one of the three and nothing more. *)
Definition reply_outcomes (callback : Callable) (reply : Response -> M live unit) : Prop :=
  forall (response : Response) (s : live),
    (exists msg, reply response s = (Ok tt, emit (Log ERROR msg) s))
    \/ (exists args s',
          reply response s = (Ok tt, emit (Call callback args) s')
          /\ LiveDataClient.trace s' = LiveDataClient.trace s)
    \/ (exists e s',
          reply response s = (Raise e, s')
          /\ LiveDataClient.trace s' = LiveDataClient.trace s
          /\ bad_reply e).

Ltac logs := left; eexists; reflexivity.
Ltac calls := right; left; eexists _, _; split; reflexivity.
Ltac fails :=
  right; right; eexists _, _;
  split; [reflexivity | split; [reflexivity | unfold bad_reply; auto]].

Lemma ticks_reply_outcomes (symbol : Symbol.t) (callback : Callable) :
  reply_outcomes callback (ticks_reply symbol callback).
Proof.
  intros [m | m | d] s; [logs | logs |].
  rewrite ticks_reply_data. cbv zeta.
  destruct (Payload.metadata _); [| fails].
  destruct (dict_get SYMBOL _); [| fails].
  destruct (key_eqb _ symbol); [| fails].
  destruct (Payload.data _); [calls | fails].
Qed.

Lemma bars_reply_outcomes (bar_type : BarType.t) (callback : Callable) :
  reply_outcomes callback (bars_reply bar_type callback).
Proof.
  intros [m | m | d] s; [logs | logs |].
  rewrite bars_reply_data. cbv zeta.
  destruct (Payload.metadata _); [| fails].
  destruct (dict_get SYMBOL _); [| fails].
  destruct (dict_get SPECIFICATION _); [| fails].
  destruct (key_eqb _ bar_type); [| fails].
  destruct (Payload.data _); [calls | fails].
Qed.

(** The tail of [request_instrument] on a data reply, case by case. *)
Lemma instrument_reply_data (symbol : Symbol.t) (callback : Callable) (response_data : bytes)
  (s : live) :
  instrument_reply symbol callback (DataResponse response_data) s
  = match Payload.data (data_deserialize response_data) with
    | None => (Raise KeyError, s)
    | Some [] => (Raise IndexError, s)
    | Some (first :: _) =>
        if key_eqb (Instrument.symbol (instrument_deserialize first)) symbol
        then (Ok tt, emit (Call callback (ArgInstrument (instrument_deserialize first))) s)
        else (Raise AssertionError, s)
    end.
Proof.
  unfold instrument_reply. cbv zeta.
  destruct (Payload.data (data_deserialize response_data)) as [[| first rest] |];
    [reflexivity | | reflexivity].
  erewrite bind_ok by reflexivity.
  erewrite bind_ok by reflexivity.
  destruct (key_eqb (Instrument.symbol (instrument_deserialize first)) symbol); reflexivity.
Qed.

Lemma instruments_reply_data (callback : Callable) (response_data : bytes) (s : live) :
  instruments_reply callback (DataResponse response_data) s
  = match Payload.data (data_deserialize response_data) with
    | None => (Raise KeyError, s)
    | Some items =>
        (Ok tt, emit (Call callback (ArgInstruments (map instrument_deserialize items))) s)
    end.
Proof.
  unfold instruments_reply. cbv zeta.
  destruct (Payload.data (data_deserialize response_data)) as [items |]; reflexivity.
Qed.

Lemma instrument_reply_outcomes (symbol : Symbol.t) (callback : Callable) :
  reply_outcomes callback (instrument_reply symbol callback).
Proof.
  intros [m | m | d] s; [logs | logs |].
  rewrite instrument_reply_data.
  destruct (Payload.data _) as [[| first rest] |]; [fails | | fails].
  destruct (key_eqb _ symbol); [calls | fails].
Qed.

Lemma instruments_reply_outcomes (callback : Callable) :
  reply_outcomes callback (instruments_reply callback).
Proof.
  intros [m | m | d] s; [logs | logs |].
  rewrite instruments_reply_data.
  destruct (Payload.data _); [calls | fails].
Qed.

(** How a request that went out on the wire ends. The request was
    announced in the log and sent once. Then the socket failed and the
    call raised [ZMQError]; or the reply could not be used and the call
    raised; or the reply was a rejection, logged as an error; or the
    callback was called, as the last thing the call did. *)
Definition sent_outcome (m : M live unit) (self : live) (callback : Callable) : Prop :=
  exists msg worker request_bytes,
    (fst (m self) = Raise ZMQError
     /\ socket_fault (Send worker request_bytes) = true
     /\ effects_of m self = [Log INFO msg; Send worker request_bytes])
    \/ (exists e,
          fst (m self) = Raise e /\ bad_reply e
          /\ effects_of m self = [Log INFO msg; Send worker request_bytes])
    \/ (exists msg',
          fst (m self) = Ok tt
          /\ effects_of m self = [Log INFO msg; Send worker request_bytes; Log ERROR msg'])
    \/ (exists args,
          fst (m self) = Ok tt
          /\ effects_of m self
             = [Log INFO msg; Send worker request_bytes; Call callback args]).

Lemma round_trip_outcome (m : M live unit) (self : live) (callback : Callable)
  (worker : RequestWorker) (request_bytes : bytes) (reply : Response -> M live unit)
  (msg : string) :
  reply_outcomes callback reply ->
  m self = round_trip worker request_bytes reply (announced msg self) ->
  sent_outcome m self callback.
Proof.
  intros RO E. exists msg, worker, request_bytes. unfold round_trip in E.
  destruct (socket_fault (Send worker request_bytes)) eqn:F.
  - left. rewrite E. split; [reflexivity |]. split; [reflexivity |].
    apply effects_of_app. rewrite E. apply trace_sent.
  - right.
    destruct (RO (response_deserialize (service_reply worker request_bytes))
                 (emit (Send worker request_bytes) (announced msg self)))
      as [(msg' & R) | [(args & s' & R & T) | (e & s' & R & T & B)]];
      rewrite R in E.
    + right. left. exists msg'. rewrite E. split; [reflexivity |].
      apply effects_of_app. rewrite E. cbn [snd].
      rewrite trace_emit, trace_sent, <- app_assoc. reflexivity.
    + right. right. exists args. rewrite E. split; [reflexivity |].
      apply effects_of_app. rewrite E. cbn [snd].
      rewrite trace_emit, T, trace_sent, <- app_assoc. reflexivity.
    + left. exists e. rewrite E. split; [reflexivity |]. split; [exact B |].
      apply effects_of_app. rewrite E. cbn [snd]. rewrite T. apply trace_sent.
Qed.

(** X16. Every call of a request operation ends in one of these ways. It
    is refused at its boundary and the client is left as it was. Or it is
    a request for tick-structured bars, handed over whole to the bulk
    builder. Or the request is announced in the log and sent, once, and
    then: the socket fails and the call raises [ZMQError]; or the reply
    cannot be used and the call raises [KeyError], [IndexError] or
    [AssertionError]; or the reply is a rejection, logged as an error;
    or the callback is called. So a request is sent at most once, and
    the callback is called at most once, only as the last effect of a
    call that returns. *)
Theorem request_ends_in_one_of_six_ways (c : LiveDataClient.RequestCall) (self : live) :
  let m := LiveDataClient.run_request c in
  (exists param, m self = (Raise (ConditionFailed param), self))
  \/ (exists bar_type from_date to_date limit callback,
        callback_of c = PyCallable callback
        /\ fst (m self) = Ok tt
        /\ effects_of m self = [BulkBuildTickBars bar_type from_date to_date limit callback])
  \/ (exists callback, callback_of c = PyCallable callback /\ sent_outcome m self callback).
Proof.
  cbv zeta.
  destruct c as [symbol from_date to_date limit callback
                | bar_type from_date to_date limit callback
                | symbol callback
                | venue callback]; cbn [LiveDataClient.run_request callback_of].
  - destruct (Z_lt_le_dec limit 0) as [L | L].
    { left. exact (request_ticks_negative_limit limit symbol from_date to_date callback self L). }
    destruct symbol as [symbol |]; [| left; eexists; reflexivity].
    destruct from_date as [from_date |]; [| left; eexists; reflexivity].
    destruct to_date as [to_date |]; [| left; eexists; reflexivity].
    destruct callback as [| callback | other].
    + left. unfold LiveDataClient.request_ticks.
      do 3 (erewrite bind_ok by reflexivity).
      erewrite bind_ok by (apply not_negative_int_ok; exact L). eexists; reflexivity.
    + destruct (request_ticks_run symbol from_date to_date limit callback self L)
        as (msg & rb & E).
      right. right. exists callback. split; [reflexivity |].
      exact (round_trip_outcome _ self callback _ _ _ _
               (ticks_reply_outcomes symbol callback) E).
    + left. unfold LiveDataClient.request_ticks.
      do 3 (erewrite bind_ok by reflexivity).
      erewrite bind_ok by (apply not_negative_int_ok; exact L). eexists; reflexivity.
  - destruct (Z_lt_le_dec limit 0) as [L | L].
    { left. exact (request_bars_negative_limit limit bar_type from_date to_date callback self L). }
    destruct bar_type as [bar_type |]; [| left; eexists; reflexivity].
    destruct from_date as [from_date |]; [| left; eexists; reflexivity].
    destruct to_date as [to_date |]; [| left; eexists; reflexivity].
    destruct callback as [| callback | other].
    + left. unfold LiveDataClient.request_bars.
      do 3 (erewrite bind_ok by reflexivity).
      erewrite bind_ok by (apply not_negative_int_ok; exact L). eexists; reflexivity.
    + destruct (BarStructure_eqb (BarSpecification.structure (BarType.specification bar_type)) TICK)
        eqn:T.
      * apply BarStructure_eqb_eq in T.
        right. left. exists bar_type, from_date, to_date, limit, callback.
        split; [reflexivity |].
        rewrite (request_bars_tick_run bar_type from_date to_date limit callback self L T).
        split; [reflexivity |].
        apply effects_of_app.
        rewrite (request_bars_tick_run bar_type from_date to_date limit callback self L T).
        reflexivity.
      * assert (NT : BarSpecification.structure (BarType.specification bar_type) <> TICK).
        { intros E. rewrite E in T. discriminate T. }
        destruct (request_bars_run bar_type from_date to_date limit callback self L NT)
          as (msg & rb & E).
        right. right. exists callback. split; [reflexivity |].
        exact (round_trip_outcome _ self callback _ _ _ _
                 (bars_reply_outcomes bar_type callback) E).
    + left. unfold LiveDataClient.request_bars.
      do 3 (erewrite bind_ok by reflexivity).
      erewrite bind_ok by (apply not_negative_int_ok; exact L). eexists; reflexivity.
  - destruct symbol as [symbol |]; [| left; eexists; reflexivity].
    destruct callback as [| callback | other];
      [left; eexists; reflexivity | | left; eexists; reflexivity].
    destruct (request_instrument_run symbol callback self) as (msg & rb & E).
    right. right. exists callback. split; [reflexivity |].
    exact (round_trip_outcome _ self callback _ _ _ _
             (instrument_reply_outcomes symbol callback) E).
  - destruct callback as [| callback | other];
      [left; eexists; reflexivity | | left; eexists; reflexivity].
    destruct (request_instruments_run venue callback self) as (msg & rb & E).
    right. right. exists callback. split; [reflexivity |].
    exact (round_trip_outcome _ self callback _ _ _ _
             (instruments_reply_outcomes callback) E).
Qed.

(** X17. The data reply to an instrument request. [request_instrument]
    uses the first item only: with no item list it raises [KeyError],
    with an empty one [IndexError]; if the first item decodes to an
    instrument of another symbol it raises [AssertionError]; in none of
    these cases is the callback called. Otherwise the callback gets that
    one instrument. [request_instruments] makes no such check: the
    callback gets every decoded instrument, whatever its venue. *)
Theorem instrument_reply_is_checked :
  (forall (symbol : Symbol.t) (callback : Callable) (self : live) (worker : RequestWorker)
          (request_bytes response_data : bytes),
     let m := LiveDataClient.request_instrument (Some symbol) (PyCallable callback) in
     In (Send worker request_bytes) (effects_of m self) ->
     socket_fault (Send worker request_bytes) = false ->
     response_deserialize (service_reply worker request_bytes) = DataResponse response_data ->
     exists msg,
       match Payload.data (data_deserialize response_data) with
       | None =>
           fst (m self) = Raise KeyError
           /\ effects_of m self = [Log INFO msg; Send worker request_bytes]
       | Some [] =>
           fst (m self) = Raise IndexError
           /\ effects_of m self = [Log INFO msg; Send worker request_bytes]
       | Some (first :: _) =>
           let instrument := instrument_deserialize first in
           if key_eqb (Instrument.symbol instrument) symbol
           then fst (m self) = Ok tt
                /\ effects_of m self
                   = [Log INFO msg; Send worker request_bytes;
                      Call callback (ArgInstrument instrument)]
           else fst (m self) = Raise AssertionError
                /\ effects_of m self = [Log INFO msg; Send worker request_bytes]
       end)
  /\ (forall (venue : Venue.t) (callback : Callable) (self : live) (worker : RequestWorker)
             (request_bytes response_data : bytes) (items : list bytes),
        let m := LiveDataClient.request_instruments venue (PyCallable callback) in
        In (Send worker request_bytes) (effects_of m self) ->
        socket_fault (Send worker request_bytes) = false ->
        response_deserialize (service_reply worker request_bytes) = DataResponse response_data ->
        Payload.data (data_deserialize response_data) = Some items ->
        fst (m self) = Ok tt
        /\ exists msg,
             effects_of m self
             = [Log INFO msg; Send worker request_bytes;
                Call callback (ArgInstruments (map instrument_deserialize items))]).
Proof.
  split.
  - intros symbol callback self worker request_bytes response_data m HIn NF RESP.
    destruct (request_instrument_run symbol callback self) as (msg & rb & E).
    fold m in E.
    destruct (round_trip_sent m self _ _ _ _ _ _ (instrument_reply_sound symbol callback) E HIn)
      as [-> ->].
    unfold round_trip in E. rewrite NF, RESP, instrument_reply_data in E.
    exists msg.
    destruct (Payload.data (data_deserialize response_data)) as [[| first rest] |].
    + rewrite E. split; [reflexivity |].
      apply effects_of_app. rewrite E. apply trace_sent.
    + cbv zeta.
      destruct (key_eqb (Instrument.symbol (instrument_deserialize first)) symbol);
        rewrite E; (split; [reflexivity |]); apply effects_of_app; rewrite E; cbn [snd].
      * rewrite trace_emit, trace_sent, <- app_assoc. reflexivity.
      * apply trace_sent.
    + rewrite E. split; [reflexivity |].
      apply effects_of_app. rewrite E. apply trace_sent.
  - intros venue callback self worker request_bytes response_data items m HIn NF RESP ITEMS.
    destruct (request_instruments_run venue callback self) as (msg & rb & E).
    fold m in E.
    destruct (round_trip_sent m self _ _ _ _ _ _ (instruments_reply_sound callback) E HIn)
      as [-> ->].
    unfold round_trip in E. rewrite NF, RESP, instruments_reply_data, ITEMS in E.
    rewrite E. split; [reflexivity |]. exists msg.
    apply effects_of_app. rewrite E. cbn [snd].
    rewrite trace_emit, trace_sent, <- app_assoc. reflexivity.
Qed.


End LiveOutcomes.

(** ** Construction and the life cycle of the channel workers *)

Module LiveConnection.

(** Modelled from the spec: [Condition.valid_string], absent from the
    sources. The address must be a non-empty string. *)
Definition valid_string {S : Type} (argument : string) (param : string) : M S unit :=
  match argument with
  | EmptyString => raise (ConditionFailed param)
  | String _ _ => ret tt
  end.

(** Modelled from the spec: [Condition.valid_port], absent from the
    sources. A port must be a valid 16-bit port number, in [0, 65535]. *)
Definition valid_port {S : Type} (port : Z) (param : string) : M S unit :=
  if (0 <=? port) && (port <=? 65535) then ret tt else raise (ConditionFailed param).

(** [LiveDataClient.__init__], lines 86-160: the seven checks, then the
    base class, the six workers, the codecs and the two empty caches.
    The arguments declared [not None] are taken to be present; the
    workers and the codecs are held by the collaborators. *)
Definition __init__ (service_address : string)
  (tick_rep_port tick_pub_port bar_rep_port bar_pub_port inst_rep_port inst_pub_port : Z)
  : Result LiveDataClient.t :=
  let checks : M unit unit :=
    valid_string service_address "service_address" ;;
    valid_port tick_rep_port "tick_rep_port" ;;
    valid_port tick_pub_port "tick_pub_port" ;;
    valid_port bar_rep_port "bar_rep_port" ;;
    valid_port bar_pub_port "bar_pub_port" ;;
    valid_port inst_rep_port "inst_rep_port" ;;
    valid_port inst_pub_port "inst_pub_port" in
  match checks tt with
  | (Ok _, _) => Ok LiveDataClient.fresh
  | (Raise e, _) => Raise e
  end.

(** The six channel workers. *)
Inductive Worker : Type :=
| Req (worker : RequestWorker)
| Sub (worker : SubscriberWorker).

Inductive WorkerOp : Type := WorkerConnect | WorkerDisconnect | WorkerDispose.

(** What the life cycle methods do, in the order it happens. *)
Inductive Step : Type :=
| WorkerStep (worker : Worker) (op : WorkerOp)
| LogException (e : Exn).

Section Methods.

(** Whether a worker's socket fails on an operation. *)
Variable zmq_fault : Worker -> WorkerOp -> bool.

(** Modelled from the spec: [worker.connect()], [worker.disconnect()] and
    [worker.dispose()], absent from the sources. The operation is
    attempted on the worker's channel; a transport fault raises
    [ZMQError]. *)
Definition worker_call (worker : Worker) (op : WorkerOp) : M (list Step) unit :=
  modify (fun steps => steps ++ [WorkerStep worker op]) ;;
  if zmq_fault worker op then raise ZMQError else ret tt.

(** [try: body except zmq.ZMQError as ex: handler(ex)] *)
Definition try_except_ZMQError {S : Type} (body : M S unit) (handler : Exn -> M S unit)
  : M S unit :=
  fun s => match body s with
           | (Raise ZMQError, s') => handler ZMQError s'
           | other => other
           end.

Definition connect : M (list Step) unit :=
  worker_call (Req TickReqWorker) WorkerConnect ;;
  worker_call (Sub TickSubWorker) WorkerConnect ;;
  worker_call (Req BarReqWorker) WorkerConnect ;;
  worker_call (Sub BarSubWorker) WorkerConnect ;;
  worker_call (Req InstReqWorker) WorkerConnect ;;
  worker_call (Sub InstSubWorker) WorkerConnect.

Definition disconnect : M (list Step) unit :=
  try_except_ZMQError
    (worker_call (Req TickReqWorker) WorkerDisconnect ;;
     worker_call (Sub TickSubWorker) WorkerDisconnect ;;
     worker_call (Req BarReqWorker) WorkerDisconnect ;;
     worker_call (Sub BarSubWorker) WorkerDisconnect ;;
     worker_call (Req InstReqWorker) WorkerDisconnect ;;
     worker_call (Sub InstSubWorker) WorkerDisconnect)
    (fun ex => modify (fun steps => steps ++ [LogException ex])).

Definition dispose : M (list Step) unit :=
  worker_call (Req TickReqWorker) WorkerDispose ;;
  worker_call (Sub TickSubWorker) WorkerDispose ;;
  worker_call (Req BarReqWorker) WorkerDispose ;;
  worker_call (Sub BarSubWorker) WorkerDispose ;;
  worker_call (Req InstReqWorker) WorkerDispose ;;
  worker_call (Sub InstSubWorker) WorkerDispose.

(** The workers in the order the life cycle methods visit them. *)
Definition workers : list Worker :=
  [Req TickReqWorker; Sub TickSubWorker; Req BarReqWorker; Sub BarSubWorker;
   Req InstReqWorker; Sub InstSubWorker].

(** The workers an operation reaches: all up to and including the first
    one whose socket fails. *)
Fixpoint reached (op : WorkerOp) (ws : list Worker) : list Worker :=
  match ws with
  | [] => []
  | w :: rest => w :: (if zmq_fault w op then [] else reached op rest)
  end.

Definition faultless (op : WorkerOp) : bool :=
  forallb (fun w => negb (zmq_fault w op)) workers.

End Methods.

End LiveConnection.

Section Connection.

Variable zmq_fault : LiveConnection.Worker -> LiveConnection.WorkerOp -> bool.

Local Abbreviation steps_of op :=
  (map (fun w => LiveConnection.WorkerStep w op) (LiveConnection.reached zmq_fault op
                                                     LiveConnection.workers)).

Ltac by_faults op :=
  destruct (zmq_fault (LiveConnection.Req TickReqWorker) op);
    [cbn; rewrite <- ?app_assoc; reflexivity |];
  destruct (zmq_fault (LiveConnection.Sub TickSubWorker) op);
    [cbn; rewrite <- ?app_assoc; reflexivity |];
  destruct (zmq_fault (LiveConnection.Req BarReqWorker) op);
    [cbn; rewrite <- ?app_assoc; reflexivity |];
  destruct (zmq_fault (LiveConnection.Sub BarSubWorker) op);
    [cbn; rewrite <- ?app_assoc; reflexivity |];
  destruct (zmq_fault (LiveConnection.Req InstReqWorker) op);
    [cbn; rewrite <- ?app_assoc; reflexivity |];
  destruct (zmq_fault (LiveConnection.Sub InstSubWorker) op);
    cbn; rewrite <- ?app_assoc; reflexivity.

(** X19. [disconnect] never lets a [ZMQError] out: it always returns. It
    disconnects the workers in order and stops at the first one whose
    socket fails, so the workers after it are left connected; the
    failure is logged, once. [connect] and [dispose] visit the workers
    in the same order and also stop at the first failure, but they
    raise it. *)
Theorem disconnect_swallows_and_stops (steps : list LiveConnection.Step) :
  LiveConnection.disconnect zmq_fault steps
  = (Ok tt,
     steps ++ steps_of LiveConnection.WorkerDisconnect
     ++ (if LiveConnection.faultless zmq_fault LiveConnection.WorkerDisconnect
         then []
         else [LiveConnection.LogException ZMQError]))
  /\ LiveConnection.connect zmq_fault steps
     = (if LiveConnection.faultless zmq_fault LiveConnection.WorkerConnect
        then Ok tt else Raise ZMQError,
        steps ++ steps_of LiveConnection.WorkerConnect)
  /\ LiveConnection.dispose zmq_fault steps
     = (if LiveConnection.faultless zmq_fault LiveConnection.WorkerDispose
        then Ok tt else Raise ZMQError,
        steps ++ steps_of LiveConnection.WorkerDispose).
Proof.
  unfold LiveConnection.disconnect, LiveConnection.connect, LiveConnection.dispose,
    LiveConnection.try_except_ZMQError, LiveConnection.faultless, LiveConnection.workers,
    LiveConnection.worker_call, bind, modify, raise, ret.
  cbn [LiveConnection.reached forallb map].
  split; [| split].
  - by_faults LiveConnection.WorkerDisconnect.
  - by_faults LiveConnection.WorkerConnect.
  - by_faults LiveConnection.WorkerDispose.
Qed.

End Connection.

(** The checks of the constructor, in the order they are made: the name
    of the argument and whether it is valid. *)
Definition constructor_checks (service_address : string)
  (tick_rep_port tick_pub_port bar_rep_port bar_pub_port inst_rep_port inst_pub_port : Z)
  : list (string * bool) :=
  let in_range port := (0 <=? port) && (port <=? 65535) in
  [("service_address", negb (String.eqb service_address ""));
   ("tick_rep_port", in_range tick_rep_port);
   ("tick_pub_port", in_range tick_pub_port);
   ("bar_rep_port", in_range bar_rep_port);
   ("bar_pub_port", in_range bar_pub_port);
   ("inst_rep_port", in_range inst_rep_port);
   ("inst_pub_port", in_range inst_pub_port)].

(** X20. The live client is constructed exactly when the service address
    is not empty and each of the six ports lies in [0, 65535]; the new
    client has nothing registered and nothing cached. Otherwise
    construction raises [ConditionFailed] for the first invalid argument
    in the order address, tick reply, tick publish, bar reply, bar
    publish, instrument reply, instrument publish. *)
Theorem construction_validates_address_and_ports (service_address : string)
  (tick_rep_port tick_pub_port bar_rep_port bar_pub_port inst_rep_port inst_pub_port : Z) :
  let ports := [tick_rep_port; tick_pub_port; bar_rep_port; bar_pub_port;
                inst_rep_port; inst_pub_port] in
  let r := LiveConnection.__init__ service_address tick_rep_port tick_pub_port bar_rep_port
             bar_pub_port inst_rep_port inst_pub_port in
  (r = Ok LiveDataClient.fresh
   <-> service_address <> "" /\ Forall (fun port => 0 <= port <= 65535) ports)
  /\ r = match find (fun check => negb (snd check))
                 (constructor_checks service_address tick_rep_port tick_pub_port bar_rep_port
                    bar_pub_port inst_rep_port inst_pub_port) with
         | None => Ok LiveDataClient.fresh
         | Some (param, _) => Raise (ConditionFailed param)
         end.
Proof.
  cbv zeta.
  assert (RANGE : forall port, (0 <=? port) && (port <=? 65535) = true <-> 0 <= port <= 65535).
  { intros port. rewrite andb_true_iff, !Z.leb_le. reflexivity. }
  assert (CLOSED :
            LiveConnection.__init__ service_address tick_rep_port tick_pub_port bar_rep_port
              bar_pub_port inst_rep_port inst_pub_port
            = match find (fun check => negb (snd check))
                      (constructor_checks service_address tick_rep_port tick_pub_port
                         bar_rep_port bar_pub_port inst_rep_port inst_pub_port) with
              | None => Ok LiveDataClient.fresh
              | Some (param, _) => Raise (ConditionFailed param)
              end).
  { unfold LiveConnection.__init__, constructor_checks, LiveConnection.valid_port,
      LiveConnection.valid_string, bind, raise, ret. cbv zeta.
    destruct service_address as [| a rest]; [reflexivity |].
    cbn [String.eqb negb find snd].
    destruct ((0 <=? tick_rep_port) && (tick_rep_port <=? 65535)); [| reflexivity].
    destruct ((0 <=? tick_pub_port) && (tick_pub_port <=? 65535)); [| reflexivity].
    destruct ((0 <=? bar_rep_port) && (bar_rep_port <=? 65535)); [| reflexivity].
    destruct ((0 <=? bar_pub_port) && (bar_pub_port <=? 65535)); [| reflexivity].
    destruct ((0 <=? inst_rep_port) && (inst_rep_port <=? 65535)); [| reflexivity].
    destruct ((0 <=? inst_pub_port) && (inst_pub_port <=? 65535)); reflexivity. }
  split; [| exact CLOSED].
  rewrite CLOSED. unfold constructor_checks. cbv zeta.
  destruct service_address as [| a rest].
  { cbn. split; [discriminate | intros [N _]; contradiction]. }
  cbn [String.eqb negb find snd].
  repeat match goal with
         | |- context [(0 <=? ?p) && (?p <=? 65535)] =>
             let B := fresh "B" in
             destruct ((0 <=? p) && (p <=? 65535)) eqn:B; cbn [negb];
             [apply RANGE in B
             | split; [discriminate |];
               intros [_ F]; exfalso;
               assert (T : (0 <=? p) && (p <=? 65535) = true)
                 by (apply RANGE;
                     repeat match goal with
                            | F : Forall _ (_ :: _) |- _ =>
                                let x := fresh "x" in
                                let l := fresh "l" in
                                let P := fresh "P" in
                                let F' := fresh "F" in
                                inversion F as [| x l P F']; subst; clear F; try exact P
                            end);
               congruence]
         end.
  split; [| reflexivity].
  intros _. split; [discriminate |].
  repeat (apply Forall_cons; [assumption |]). apply Forall_nil.
Qed.

(** ** Closed runs of the live client *)

(** X17, witness: the service answers an instrument request for [AUDUSD]
    and one for [GBPUSD] with the [AUDUSD] instrument, twice; and a
    request for all instruments of a venue with the same two items. *)
Lemma instrument_reply_is_checked_witness :
  (exists msg,
     fst (LiveDataClient.request_instrument (H := WireFixtures.answering)
            (Some LiveFixtures.AUDUSD) (PyCallable (Fn 1)) LiveDataClient.fresh) = Ok tt
     /\ effects_of
          (LiveDataClient.request_instrument (H := WireFixtures.answering)
             (Some LiveFixtures.AUDUSD) (PyCallable (Fn 1))) LiveDataClient.fresh
        = [Log INFO msg;
           Send InstReqWorker (list_byte_of_string "AUDUSD.FXCM");
           Call (Fn 1) (ArgInstrument (Instrument.Build LiveFixtures.AUDUSD 5))])
  /\ (exists msg,
        fst (LiveDataClient.request_instrument (H := WireFixtures.answering)
               (Some LiveFixtures.GBPUSD) (PyCallable (Fn 1)) LiveDataClient.fresh)
        = Raise AssertionError
        /\ effects_of
             (LiveDataClient.request_instrument (H := WireFixtures.answering)
                (Some LiveFixtures.GBPUSD) (PyCallable (Fn 1))) LiveDataClient.fresh
           = [Log INFO msg; Send InstReqWorker (list_byte_of_string "GBPUSD.FXCM")])
  /\ (fst (LiveDataClient.request_instruments (H := WireFixtures.answering)
             (Venue.Build "FXCM") (PyCallable (Fn 1)) LiveDataClient.fresh) = Ok tt
      /\ exists msg,
           effects_of
             (LiveDataClient.request_instruments (H := WireFixtures.answering)
                (Venue.Build "FXCM") (PyCallable (Fn 1))) LiveDataClient.fresh
           = [Log INFO msg;
              Send InstReqWorker [];
              Call (Fn 1)
                (ArgInstruments [Instrument.Build LiveFixtures.AUDUSD 5;
                                 Instrument.Build LiveFixtures.AUDUSD 5])]).
Proof.
  destruct (@instrument_reply_is_checked WireFixtures.answering) as [ONE ALL].
  split; [| split].
  - refine (ONE LiveFixtures.AUDUSD (Fn 1) LiveDataClient.fresh InstReqWorker
              (list_byte_of_string "AUDUSD.FXCM") (list_byte_of_string "AUDUSD.FXCM") _ _ _).
    + vm_compute. right. left. reflexivity.
    + reflexivity.
    + reflexivity.
  - refine (ONE LiveFixtures.GBPUSD (Fn 1) LiveDataClient.fresh InstReqWorker
              (list_byte_of_string "GBPUSD.FXCM") (list_byte_of_string "AUDUSD.FXCM") _ _ _).
    + vm_compute. right. left. reflexivity.
    + reflexivity.
    + reflexivity.
  - refine (ALL (Venue.Build "FXCM") (Fn 1) LiveDataClient.fresh InstReqWorker
              [] (list_byte_of_string "AUDUSD.FXCM")
              [list_byte_of_string "AUDUSD.FXCM"; list_byte_of_string "AUDUSD.FXCM"] _ _ _ _).
    + vm_compute. right. left. reflexivity.
    + reflexivity.
    + reflexivity.
    + reflexivity.
Defined.


(** ** From the container to the client *)

(** The instruments dictionary as [add_instrument] builds it: every
    instrument sits under its own symbol, and no symbol sits twice. *)
Definition well_keyed (data : BacktestDataContainer.t) : Prop :=
  NoDup (dict_keys (BacktestDataContainer.instruments data))
  /\ forall symbol instrument,
       In (symbol, instrument) (BacktestDataContainer.instruments data) ->
       Instrument.symbol instrument = symbol.

(** The calls that fill a container. *)
Inductive ContainerCall : Type :=
| AddInstrument (instrument : Instrument.t)
| AddTicks (symbol : Symbol.t) (data : DataFrame.t)
| AddBars (symbol : Symbol.t) (structure : BarStructure) (price_type : PriceType)
    (data : DataFrame.t).

Definition run_container_call (c : ContainerCall) : M BacktestDataContainer.t unit :=
  match c with
  | AddInstrument instrument => BacktestDataContainer.add_instrument instrument
  | AddTicks symbol data => BacktestDataContainer.add_ticks symbol data
  | AddBars symbol structure price_type data =>
      BacktestDataContainer.add_bars symbol structure price_type data
  end.

(** The container after a sequence of calls on a new one; a call that
    raises ends the sequence. *)
Definition filled_by (calls : list ContainerCall) : BacktestDataContainer.t :=
  snd (for_each calls run_container_call BacktestDataContainer.__init__).

Lemma run_container_call_well_keyed (c : ContainerCall) (data : BacktestDataContainer.t) :
  well_keyed data -> well_keyed (snd (run_container_call c data)).
Proof.
  intros [ND K]. destruct c as [i | s d | s st pt d].
  - split; cbn.
    + apply (dict_set_NoDup Symbol_eqb_eq), ND.
    + intros symbol instrument I.
      destruct (dict_set_In Symbol_eqb_eq _ _ _ _ _ I) as [I' | [-> ->]];
        [exact (K _ _ I') | reflexivity].
  - split; [exact ND | exact K].
  - destruct pt; split; cbn; assumption.
Qed.

Lemma for_each_well_keyed (calls : list ContainerCall) :
  forall data, well_keyed data -> well_keyed (snd (for_each calls run_container_call data)).
Proof.
  induction calls as [| c rest IH]; intros data W; [exact W |].
  cbn [for_each]. unfold bind.
  pose proof (run_container_call_well_keyed c data W) as W1.
  destruct (run_container_call c data) as [[[] | e] data1]; cbn [snd] in *.
  - apply IH, W1.
  - exact W1.
Qed.

Lemma instruments_after_app (entries : list (Symbol.t * Instrument.t)) :
  forall d,
    NoDup (dict_keys entries) ->
    (forall k, In k (dict_keys entries) -> ~ In k (dict_keys d)) ->
    (forall k i, In (k, i) entries -> Instrument.symbol i = k) ->
    instruments_after (dict_values entries) d = d ++ entries.
Proof.
  induction entries as [| [k i] rest IH]; intros d ND FRESH K.
  - cbn. rewrite app_nil_r. reflexivity.
  - cbn [dict_values map snd instruments_after fold_left].
    unfold dict_keys in ND. cbn [map fst] in ND.
    inversion ND as [| ? ? NI ND']; subst.
    rewrite (K k i (or_introl eq_refl)).
    rewrite dict_set_fresh
      by (apply (dict_get_none_keys Symbol_eqb_eq), FRESH; left; reflexivity).
    change (fold_left (fun d0 i0 => dict_set (Instrument.symbol i0) i0 d0) (map snd rest)
              (d ++ [(k, i)]))
      with (instruments_after (dict_values rest) (d ++ [(k, i)])).
    rewrite IH.
    + rewrite <- app_assoc. reflexivity.
    + exact ND'.
    + intros k' I. unfold dict_keys. rewrite map_app, in_app_iff. cbn [map fst In].
      intros [I' | [E | []]].
      * apply (FRESH k'); [right; exact I | exact I'].
      * subst k'. exact (NI I).
    + intros k' i' I. apply K. right. exact I.
Qed.

Section Handover.

Context {TestClock : Type} `{VirtualClock TestClock} `{TickDataWrangler}.

Local Abbreviation client := (BacktestDataClient.t TestClock).

(** X2. A container filled through its own methods, whatever the calls,
    keeps every instrument under its own symbol. A client constructed
    from it takes over the instruments dictionary as it is, and has its
    providers under the same symbols in the same order: the order in
    which the symbols were first added. *)
Theorem client_takes_over_container_instruments (calls : list ContainerCall)
  (venue : Venue.t) (clock : TestClock) (logger : Logger) (self : client) :
  BacktestDataClient.__init__ venue (filled_by calls) (Some clock) (Some logger) = Ok self ->
  well_keyed (filled_by calls)
  /\ DataClient._instruments (BacktestDataClient.base self)
     = BacktestDataContainer.instruments (filled_by calls)
  /\ dict_keys (BacktestDataClient.data_providers self)
     = dict_keys (BacktestDataContainer.instruments (filled_by calls)).
Proof.
  intros OK.
  assert (W : well_keyed (filled_by calls)).
  { apply for_each_well_keyed. split; [constructor | intros ? ? []]. }
  destruct (init_providers _ _ _ _ _ OK) as (I & F & _ & _).
  destruct W as [ND K].
  rewrite (instruments_after_app _ [] ND (fun _ _ N => N) K) in I. cbn [app] in I.
  split; [split; assumption |]. split; [exact I |].
  rewrite (provides_keys _ _ F), I. reflexivity.
Qed.

End Handover.

(** X2, witness: an instrument added twice, with its tick and bar
    tables. *)
Lemma client_takes_over_container_instruments_witness :
  exists self,
    @BacktestDataClient.__init__ TestClock.t Fixtures.wrangler Fixtures.FXCM
      (filled_by
         [AddInstrument (Instrument.Build Fixtures.AUDUSD 3);
          AddTicks Fixtures.AUDUSD [Fixtures.row 10 70000 70002];
          AddBars Fixtures.AUDUSD MINUTE BID [Fixtures.row 0 70000 70001];
          AddBars Fixtures.AUDUSD MINUTE ASK [Fixtures.row 0 70002 70003];
          AddInstrument (Instrument.Build Fixtures.AUDUSD 5)])
      (Some Fixtures.idle_clock) (Some TestLogger)
    = Ok self
    /\ well_keyed
         (filled_by
            [AddInstrument (Instrument.Build Fixtures.AUDUSD 3);
             AddTicks Fixtures.AUDUSD [Fixtures.row 10 70000 70002];
             AddBars Fixtures.AUDUSD MINUTE BID [Fixtures.row 0 70000 70001];
             AddBars Fixtures.AUDUSD MINUTE ASK [Fixtures.row 0 70002 70003];
             AddInstrument (Instrument.Build Fixtures.AUDUSD 5)])
    /\ DataClient._instruments (BacktestDataClient.base self)
       = BacktestDataContainer.instruments
           (filled_by
              [AddInstrument (Instrument.Build Fixtures.AUDUSD 3);
               AddTicks Fixtures.AUDUSD [Fixtures.row 10 70000 70002];
               AddBars Fixtures.AUDUSD MINUTE BID [Fixtures.row 0 70000 70001];
               AddBars Fixtures.AUDUSD MINUTE ASK [Fixtures.row 0 70002 70003];
               AddInstrument (Instrument.Build Fixtures.AUDUSD 5)])
    /\ dict_keys (BacktestDataClient.data_providers self)
       = dict_keys
           (BacktestDataContainer.instruments
              (filled_by
                 [AddInstrument (Instrument.Build Fixtures.AUDUSD 3);
                  AddTicks Fixtures.AUDUSD [Fixtures.row 10 70000 70002];
                  AddBars Fixtures.AUDUSD MINUTE BID [Fixtures.row 0 70000 70001];
                  AddBars Fixtures.AUDUSD MINUTE ASK [Fixtures.row 0 70002 70003];
                  AddInstrument (Instrument.Build Fixtures.AUDUSD 5)])).
Proof.
  run_constructor.
  refine (@client_takes_over_container_instruments TestClock.t Fixtures.wrangler _
            Fixtures.FXCM Fixtures.idle_clock TestLogger _ _).
  vm_compute. reflexivity.
Defined.

(** ** Published data and the object caches *)


Lemma string_eqb_eq (a b : string) : key_eqb a b = true <-> a = b.
Proof. apply String.eqb_eq. Qed.

Section Published.

Context `{Collaborators}.

Local Abbreviation live := LiveDataClient.t.

(** Every entry of the two object caches is the parse of its key. *)
Definition coherent (self : live) : Prop :=
  (forall key symbol,
     dict_get key (LiveDataClient._cached_symbols self) = Some symbol ->
     symbol = Symbol.from_string key)
  /\ (forall key bar_type,
        dict_get key (LiveDataClient._cached_bar_types self) = Some bar_type ->
        bar_type = BarType_from_string key).

Lemma ObjectCache_get_parses {T : Type} (parser : string -> T) (key : string)
  (cache : list (string * T)) :
  (forall k v, dict_get k cache = Some v -> v = parser k) ->
  fst (LiveDataClient.ObjectCache_get parser key cache) = parser key
  /\ forall k v,
       dict_get k (snd (LiveDataClient.ObjectCache_get parser key cache)) = Some v ->
       v = parser k.
Proof.
  intros C. unfold LiveDataClient.ObjectCache_get.
  destruct (dict_get key cache) as [parsed |] eqn:G; cbn [fst snd].
  - split; [exact (C _ _ G) | exact C].
  - split; [reflexivity |]. intros k v.
    destruct (key_eqb k key) eqn:E.
    + apply string_eqb_eq in E. subst k.
      rewrite (dict_get_set_same key (parser key) cache) by (apply string_eqb_eq; reflexivity).
      intros [= <-]. reflexivity.
    + rewrite (dict_get_set_other string_eqb_eq).
      * apply C.
      * intros EQ. subst k. rewrite (proj2 (string_eqb_eq key key) eq_refl) in E.
        discriminate E.
Qed.


(** *** The caches stay coherent *)

(** [m] keeps the invariant [I]. *)
Definition keeps {A : Type} (I : live -> Prop) (m : M live A) : Prop :=
  forall s, I s -> I (snd (m s)).

Lemma keeps_bind {A B : Type} (I : live -> Prop) (m : M live A) (k : A -> M live B) :
  keeps I m -> (forall a, keeps I (k a)) -> keeps I (bind m k).
Proof.
  intros Km Kk s Is. specialize (Km s Is). unfold bind.
  destruct (m s) as [[a | e] s1]; cbn [snd] in *; [apply Kk, Km | exact Km].
Qed.

Lemma keeps_for_each {A : Type} (I : live -> Prop) (l : list A) (body : A -> M live unit) :
  (forall x, keeps I (body x)) -> keeps I (for_each l body).
Proof.
  intros Kb. induction l as [| x rest IH]; cbn [for_each].
  - intros s Is. exact Is.
  - apply keeps_bind; [apply Kb | intros _; exact IH].
Qed.

Lemma keeps_same {A : Type} (I : live -> Prop) (r : Result A) :
  keeps I (fun s => (r, s)).
Proof. intros s Is. exact Is. Qed.

Lemma keeps_super {A : Type} (m : M DataClient.t A) :
  keeps coherent (LiveDataClient.super m).
Proof.
  intros s C. unfold LiveDataClient.super, lift.
  destruct (m (LiveDataClient.base s)) as [r b]. exact C.
Qed.

Lemma keeps_guid_generate : keeps coherent LiveDataClient.guid_generate.
Proof. intros s C. exact C. Qed.

Lemma keeps_cached_symbols_get (key : string) :
  keeps coherent (LiveDataClient.cached_symbols_get key).
Proof.
  intros s [CS CB]. rewrite cached_symbols_get_run. cbn [snd].
  split; [| exact CB].
  exact (proj2 (ObjectCache_get_parses Symbol.from_string key _ CS)).
Qed.

Lemma keeps_cached_bar_types_get (key : string) :
  keeps coherent (LiveDataClient.cached_bar_types_get key).
Proof.
  intros s [CS CB]. rewrite cached_bar_types_get_run. cbn [snd].
  split; [exact CS |].
  exact (proj2 (ObjectCache_get_parses BarType_from_string key _ CB)).
Qed.

Ltac keep :=
  repeat first
    [ apply keeps_super
    | apply keeps_guid_generate
    | apply keeps_cached_symbols_get
    | apply keeps_cached_bar_types_get
    | apply (keeps_same coherent)
    | apply keeps_for_each; intros ?
    | apply keeps_bind; [| intros ?]
    | match goal with
      | |- keeps _ (match ?x with _ => _ end) => destruct x
      | |- keeps _ (if ?x then _ else _) => destruct x
      end
    | progress cbv zeta
    | progress unfold Condition.not_none, Condition.not_negative_int, Condition.callable,
        LiveDataClient.getitem, LiveDataClient.time_now, LiveDataClient.worker_send,
        LiveDataClient.worker_subscribe, LiveDataClient.worker_unsubscribe,
        LiveDataClient._bulk_build_tick_bars, assert_, liftR, ret, raise, gets ].

(** The operations of the live client that a strategy or a socket
    invokes, as calls with their arguments. *)
Inductive LiveCall : Type :=
| Request (c : LiveDataClient.RequestCall)
| UpdateInstruments (venue : Venue.t)
| HandleInstrumentsPy (instruments : list Instrument.t)
| SubscribeTicks (symbol : option Symbol.t) (handler : PyObject)
| SubscribeBars (bar_type : option BarType.t) (handler : PyObject)
| SubscribeInstrument (symbol : option Symbol.t) (handler : PyObject)
| UnsubscribeTicks (symbol : option Symbol.t) (handler : PyObject)
| UnsubscribeBars (bar_type : option BarType.t) (handler : PyObject)
| UnsubscribeInstrument (symbol : option Symbol.t) (handler : PyObject)
| HandleTickSub (topic : string) (message : bytes)
| HandleBarSub (topic : string) (message : bytes)
| HandleInstSub (topic : string) (message : bytes).

Definition run_live_call (c : LiveCall) : M live unit :=
  match c with
  | Request c => LiveDataClient.run_request c
  | UpdateInstruments venue => LiveDataClient.update_instruments venue
  | HandleInstrumentsPy instruments => LiveDataClient._handle_instruments_py instruments
  | SubscribeTicks symbol handler => LiveDataClient.subscribe_ticks symbol handler
  | SubscribeBars bar_type handler => LiveDataClient.subscribe_bars bar_type handler
  | SubscribeInstrument symbol handler => LiveDataClient.subscribe_instrument symbol handler
  | UnsubscribeTicks symbol handler => LiveDataClient.unsubscribe_ticks symbol handler
  | UnsubscribeBars bar_type handler => LiveDataClient.unsubscribe_bars bar_type handler
  | UnsubscribeInstrument symbol handler =>
      LiveDataClient.unsubscribe_instrument symbol handler
  | HandleTickSub topic message => LiveDataClient._handle_tick_sub topic message
  | HandleBarSub topic message => LiveDataClient._handle_bar_sub topic message
  | HandleInstSub topic message => LiveDataClient._handle_inst_sub topic message
  end.

(** X22. The object caches only ever hold parses of their keys. This is so
    on a new client, and every operation keeps it, whether it returns or
    raises: the four requests, [update_instruments], which stores the
    instruments of the reply, the six subscription operations and the
    handlers of published messages. So
    a topic or a reply subject always resolves to the parse of its
    string, however often and in whatever order it was seen. *)
Theorem caches_hold_parses_of_their_keys :
  coherent LiveDataClient.fresh
  /\ forall (c : LiveCall) (self : live),
       coherent self -> coherent (snd (run_live_call c self)).
Proof.
  split.
  - split; intros key x D; discriminate D.
  - intros c. change (keeps coherent (run_live_call c)).
    destruct c as [[symbol from_date to_date limit callback
                   | bar_type from_date to_date limit callback
                   | symbol callback
                   | venue callback]
                  | venue | instruments | symbol handler | bar_type handler | symbol handler
                  | symbol handler | bar_type handler | symbol handler
                  | topic message | topic message | topic message];
      cbn [run_live_call LiveDataClient.run_request].
    + unfold LiveDataClient.request_ticks. keep.
    + unfold LiveDataClient.request_bars. keep.
    + unfold LiveDataClient.request_instrument. keep.
    + unfold LiveDataClient.request_instruments. keep.
    + unfold LiveDataClient.update_instruments, LiveDataClient._handle_instruments_py. keep.
    + unfold LiveDataClient._handle_instruments_py. keep.
    + unfold LiveDataClient.subscribe_ticks. keep.
    + unfold LiveDataClient.subscribe_bars, LiveDataClient._self_generate_bars,
        LiveDataClient.subscribe_ticks. keep.
    + unfold LiveDataClient.subscribe_instrument. keep.
    + unfold LiveDataClient.unsubscribe_ticks. keep.
    + unfold LiveDataClient.unsubscribe_bars. keep.
    + unfold LiveDataClient.unsubscribe_instrument. keep.
    + unfold LiveDataClient._handle_tick_sub. keep.
    + unfold LiveDataClient._handle_bar_sub. keep.
    + unfold LiveDataClient._handle_inst_sub. keep.
Qed.

End Published.


(** X22, witness: a tick message handled by a new client. *)
Lemma caches_hold_parses_of_their_keys_witness :
  coherent LiveDataClient.fresh
  /\ coherent (snd (run_live_call (HandleTickSub "AUDUSD.FXCM" []) LiveDataClient.fresh)).
Proof.
  destruct (@caches_hold_parses_of_their_keys LiveFixtures.collaborators) as [NEW KEPT].
  split; [exact NEW |].
  exact (KEPT (HandleTickSub "AUDUSD.FXCM" []) LiveDataClient.fresh NEW).
Defined.
